(** * GameMaster's Companion configuration validator

    A shallow embedding of [infrastructure/scripts/validate-config.py]
    and the properties of its unit parsers, section validators,
    structural validators and driver.

    Conventions of the embedding.
    - Python [str] values are Rocq strings read as ASCII text (code
      points below 128); [upper], [lower] and the whitespace and digit
      tests below are the ASCII fragments of the Python methods.
    - A parsed YAML document is a [value]: [None], a bool, an int, a
      str, a list, or a dict with str keys kept in insertion order.
      YAML floats, dates and binary scalars are outside the embedding.
    - A method of [ConfigValidator] is a function of the validator
      object that returns an outcome (a value or an uncaught exception)
      together with the validator object after the call. *)

From Stdlib Require Import ZArith List String Ascii Bool Lia DecimalString DecimalPos.
From Stdlib Require Import Permutation.
Import ListNotations.

Open Scope string_scope.
Open Scope Z_scope.

(** ** Exceptions and outcomes *)

Inductive exn : Type :=
| ValueError
| TypeError
| AttributeError
| KeyError
| OverflowError
| ZeroDivisionError.

Inductive outcome (A : Type) : Type :=
| Ok (a : A)
| Raise (e : exn).

Arguments Ok {A} a.
Arguments Raise {A} e.

Definition obind {A B : Type} (o : outcome A) (k : A -> outcome B) : outcome B :=
  match o with
  | Ok a => k a
  | Raise e => Raise e
  end.

Declare Scope outcome_scope.
Delimit Scope outcome_scope with outcome.

Notation "x <~ c1 ;; c2" := (obind c1 (fun x => c2))
  (at level 61, c1 at next level, right associativity) : outcome_scope.

(** ** ASCII strings as Python uses them *)

Module PyStr.

Definition code (c : ascii) : N := N_of_ascii c.

(** [Py_ISSPACE]: tab, line feed, vertical tab, form feed, carriage
    return and space. *)
Definition is_space (c : ascii) : bool :=
  let n := code c in
  (((9 <=? n) && (n <=? 13)) || (n =? 32))%N.

Definition is_digit (c : ascii) : bool :=
  let n := code c in
  ((48 <=? n) && (n <=? 57))%N.

Definition digit_val (c : ascii) : Z := Z.of_N (code c) - 48.

Definition is_lower (c : ascii) : bool :=
  let n := code c in
  ((97 <=? n) && (n <=? 122))%N.

Definition is_upper (c : ascii) : bool :=
  let n := code c in
  ((65 <=? n) && (n <=? 90))%N.

Definition upper_char (c : ascii) : ascii :=
  if is_lower c then ascii_of_N (code c - 32) else c.

Definition lower_char (c : ascii) : ascii :=
  if is_upper c then ascii_of_N (code c + 32) else c.

Fixpoint map_chars (f : ascii -> ascii) (s : string) : string :=
  match s with
  | EmptyString => EmptyString
  | String c r => String (f c) (map_chars f r)
  end.

(** [str.upper()] and [str.lower()]. *)
Definition upper : string -> string := map_chars upper_char.
Definition lower : string -> string := map_chars lower_char.

Definition chars : string -> list ascii := list_ascii_of_string.
Definition of_chars : list ascii -> string := string_of_list_ascii.

Fixpoint list_prefix (p l : list ascii) : bool :=
  match p, l with
  | [], _ => true
  | a :: p', b :: l' => Ascii.eqb a b && list_prefix p' l'
  | _ :: _, [] => false
  end.

(** [s.endswith(suffix)]. *)
Definition endswith (s suffix : string) : bool :=
  list_prefix (rev (chars suffix)) (rev (chars s)).

(** [s[:-n]] for [n > 0]. *)
Definition drop_last (n : nat) (s : string) : string :=
  of_chars (firstn (List.length (chars s) - n) (chars s)).

(** [needle in s] for two strings. *)
Definition is_substring (needle s : string) : bool :=
  match String.index 0 needle s with
  | Some _ => true
  | None => false
  end.

Fixpoint drop_spaces (l : list ascii) : list ascii :=
  match l with
  | c :: r => if is_space c then drop_spaces r else l
  | [] => []
  end.

(** Leading and trailing whitespace removed, as [int()] and
    [float()] do before they read a number. *)
Definition strip (l : list ascii) : list ascii :=
  rev (drop_spaces (rev (drop_spaces l))).

Fixpoint join (sep : string) (l : list string) : string :=
  match l with
  | [] => ""
  | [x] => x
  | x :: r => x ++ sep ++ join sep r
  end.

End PyStr.

(** ** Python integers from and to text

    The interpreter's limit on the number of digits of a conversion
    (4300 by default) is not part of the embedding. *)

Module PyInt.
Import PyStr.

(** A run of decimal digits in which single underscores may separate
    digits (PEP 515); [prev] says whether the character before was a
    digit. *)
Fixpoint digitpart (acc : Z) (prev : bool) (l : list ascii) : option Z :=
  match l with
  | [] => if prev then Some acc else None
  | c :: r =>
      if is_digit c then digitpart (10 * acc + digit_val c) true r
      else if Ascii.eqb c "_" then
        if prev then digitpart acc false r else None
      else None
  end.

(** An optional sign before a digit part. *)
Definition signed_digitpart (l : list ascii) : option Z :=
  match l with
  | c :: r =>
      if Ascii.eqb c "-" then option_map Z.opp (digitpart 0 false r)
      else if Ascii.eqb c "+" then digitpart 0 false r
      else digitpart 0 false l
  | [] => None
  end.

(** [int(s)] for a string [s], base ten. *)
Definition of_str (s : string) : outcome Z :=
  match signed_digitpart (strip (chars s)) with
  | Some z => Ok z
  | None => Raise ValueError
  end.

(** [str(z)] for an int [z]. *)
Definition to_str (z : Z) : string :=
  NilZero.string_of_int (Z.to_int z).

End PyInt.

(** ** Python floats (IEEE binary64) by exact integer arithmetic

    A finite float is [m * 2^e] with a sign; every operation rounds
    the exact rational result to the nearest binary64 value, ties to
    even, as the hardware does. *)

Module PyFloat.
Import PyStr.

Inductive float64 : Type :=
| Finite (neg : bool) (m e : Z)
| Inf (neg : bool)
| NaN.

(** Nearest integer to [p / q], ties to even ([0 <= p], [0 < q]). *)
Definition round_half_even (p q : Z) : Z :=
  let d := p / q in
  match 2 * (p mod q) ?= q with
  | Lt => d
  | Gt => d + 1
  | Eq => if Z.even d then d else d + 1
  end.

(** The binary64 value nearest to [p / q] ([0 <= p], [0 < q]): 53
    bits of mantissa, least exponent -1074, overflow to infinity from
    [2^1024] on. *)
Definition of_ratio (neg : bool) (p q : Z) : float64 :=
  if p =? 0 then Finite neg 0 0
  else
    let k := Z.log2 p - Z.log2 q in
    let below := if 0 <=? k then p <? q * 2 ^ k else p * 2 ^ (- k) <? q in
    let k' := if below then k - 1 else k in
    let e := Z.max (k' - 52) (-1074) in
    let m := if 0 <=? e then round_half_even p (q * 2 ^ e)
             else round_half_even (p * 2 ^ (- e)) q in
    if (0 <=? e) && (2 ^ 1024 <=? m * 2 ^ e) then Inf neg else Finite neg m e.

(** [_Py_string_to_number_with_underscores]: an underscore stands
    only between two digits. *)
Fixpoint underscores_ok (prev : ascii) (l : list ascii) : bool :=
  match l with
  | [] => negb (Ascii.eqb prev "_")
  | c :: r =>
      (if Ascii.eqb c "_" then is_digit prev
       else negb (Ascii.eqb prev "_") || is_digit c)
      && underscores_ok c r
  end.

Definition remove_underscores (l : list ascii) : list ascii :=
  filter (fun c => negb (Ascii.eqb c "_")) l.

(** The digits at the head of [l] added to the mantissa [acc]; the
    count of digits read is added to [n]. *)
Fixpoint take_digits (acc n : Z) (l : list ascii) : Z * Z * list ascii :=
  match l with
  | c :: r => if is_digit c then take_digits (10 * acc + digit_val c) (n + 1) r
              else (acc, n, l)
  | [] => (acc, n, [])
  end.

(** The exponent part after the letter [e]: an optional sign and at
    least one digit, up to the end of the text. *)
Definition exponent (l : list ascii) : option Z :=
  let '(neg, ds) :=
    match l with
    | c :: r => if Ascii.eqb c "-" then (true, r)
                else if Ascii.eqb c "+" then (false, r) else (false, l)
    | [] => (false, [])
    end in
  match take_digits 0 0 ds with
  | (x, n, []) => if 0 <? n then Some (if neg then - x else x) else None
  | _ => None
  end.

(** [digits [. digits] [e exponent]] with at least one mantissa digit:
    the mantissa and the power of ten it is scaled by. *)
Definition decimal (l : list ascii) : option (Z * Z) :=
  let '(ip, ni, r1) := take_digits 0 0 l in
  let '(mant, nf, r2) :=
    match r1 with
    | c :: r => if Ascii.eqb c "." then take_digits ip 0 r else (ip, 0, r1)
    | [] => (ip, 0, [])
    end in
  if 0 <? ni + nf then
    match r2 with
    | [] => Some (mant, - nf)
    | c :: r => if Ascii.eqb c "e" then option_map (fun x => (mant, x - nf)) (exponent r)
                else None
    end
  else None.

Definition of_decimal (neg : bool) (mant ex : Z) : float64 :=
  if 0 <=? ex then of_ratio neg (mant * 10 ^ ex) 1
  else of_ratio neg mant (10 ^ (- ex)).

(** [float(s)] for a string [s]. *)
Definition of_str (s : string) : outcome float64 :=
  let l := strip (chars (lower s)) in
  if underscores_ok "000" l then
    let '(neg, body) :=
      match remove_underscores l with
      | c :: r => if Ascii.eqb c "-" then (true, r)
                  else if Ascii.eqb c "+" then (false, r) else (false, c :: r)
      | [] => (false, [])
      end in
    let t := of_chars body in
    if String.eqb t "inf" || String.eqb t "infinity" then Ok (Inf neg)
    else if String.eqb t "nan" then Ok NaN
    else match decimal body with
         | Some (mant, ex) => Ok (of_decimal neg mant ex)
         | None => Raise ValueError
         end
  else Raise ValueError.

(** [x * n] for a float [x] and a non-negative int [n] that binary64
    holds exactly. *)
Definition mul_int (x : float64) (n : Z) : float64 :=
  match x with
  | Finite neg m e =>
      if 0 <=? e then of_ratio neg (m * n * 2 ^ e) 1
      else of_ratio neg (m * n) (2 ^ (- e))
  | Inf neg => Inf neg
  | NaN => NaN
  end.

(** [int(x)]: truncation toward zero. *)
Definition to_int (x : float64) : outcome Z :=
  match x with
  | Finite neg m e =>
      let a := if 0 <=? e then m * 2 ^ e else m / 2 ^ (- e) in
      Ok (if neg then - a else a)
  | Inf _ => Raise OverflowError
  | NaN => Raise ValueError
  end.

(** [a / b] for two ints: the correctly rounded quotient. *)
Definition int_truediv (a b : Z) : outcome float64 :=
  if b =? 0 then Raise ZeroDivisionError
  else
    match of_ratio (xorb (a <? 0) (b <? 0)) (Z.abs a) (Z.abs b) with
    | Inf _ => Raise OverflowError
    | x => Ok x
    end.

(** [format(x, '.1f')]. *)
Definition format_1f (x : float64) : string :=
  match x with
  | Finite neg m e =>
      let n := if 0 <=? e then m * 2 ^ e * 10
               else round_half_even (m * 10) (2 ^ (- e)) in
      (if neg then "-" else "")
        ++ PyInt.to_str (n / 10) ++ "." ++ PyInt.to_str (n mod 10)
  | Inf neg => if neg then "-inf" else "inf"
  | NaN => "nan"
  end.

End PyFloat.

(** ** Parsed YAML documents as Python objects *)

#[local] Set Warnings "-register-all".

Inductive value : Type :=
| VNone
| VBool (b : bool)
| VInt (z : Z)
| VStr (s : string)
| VList (l : list value)
| VDict (d : list (string * value)).

(** A dict is kept as the list of its items in insertion order; the
    first item with a key is the dict's entry for it. *)
Definition dict : Type := list (string * value).

Fixpoint lookup (k : string) (d : dict) : option value :=
  match d with
  | [] => None
  | (k', v) :: r => if String.eqb k k' then Some v else lookup k r
  end.

Module PyRepr.
Import PyStr.

Definition hex_digit (n : N) : ascii :=
  ascii_of_N (if (n <? 10)%N then 48 + n else 87 + n).

(** One character of a string inside [repr]'s quotes. *)
Definition escape_char (quote : ascii) (c : ascii) : string :=
  let n := code c in
  if Ascii.eqb c "\" then "\\"
  else if Ascii.eqb c quote then String "\" (String quote "")
  else if (n =? 9)%N then "\t"
  else if (n =? 10)%N then "\n"
  else if (n =? 13)%N then "\r"
  else if ((n <? 32) || (n =? 127))%N
       then String "\" (String "x" (String (hex_digit (n / 16)) (String (hex_digit (n mod 16)) "")))
  else String c "".

Definition has_char (c : ascii) (s : string) : bool :=
  existsb (Ascii.eqb c) (chars s).

(** [repr(s)] for a string: single quotes, unless the text holds a
    single quote and no double quote. *)
Definition repr_str (s : string) : string :=
  let quote : ascii := if has_char "'" s && negb (has_char "034" s) then "034"%char else "'"%char in
  String quote (concat "" (map (escape_char quote) (chars s))) ++ String quote "".

End PyRepr.

(** [repr(v)] and [str(v)]. *)
Fixpoint py_repr (v : value) : string :=
  match v with
  | VNone => "None"
  | VBool b => if b then "True" else "False"
  | VInt z => PyInt.to_str z
  | VStr s => PyRepr.repr_str s
  | VList l => "[" ++ PyStr.join ", " (map py_repr l) ++ "]"
  | VDict d =>
      "{" ++ PyStr.join ", "
               (map (fun kv => PyRepr.repr_str (fst kv) ++ ": " ++ py_repr (snd kv)) d)
          ++ "}"
  end.

Definition py_str (v : value) : string :=
  match v with
  | VStr s => s
  | _ => py_repr v
  end.

(** Truth value of an object ([not v] is its negation). *)
Definition truthy (v : value) : bool :=
  match v with
  | VNone => false
  | VBool b => b
  | VInt z => negb (z =? 0)
  | VStr s => negb (String.eqb s "")
  | VList l => match l with [] => false | _ => true end
  | VDict d => match d with [] => false | _ => true end
  end.

(** [v == s] for a string literal [s]. *)
Definition eq_str (v : value) (s : string) : bool :=
  match v with
  | VStr t => String.eqb t s
  | _ => false
  end.

(** [k in v] for a string literal [k]: a key of a dict, an element
    of a list, a substring of a string. *)
Definition py_in (k : string) (v : value) : outcome bool :=
  match v with
  | VDict d => Ok (match lookup k d with Some _ => true | None => false end)
  | VList l => Ok (existsb (fun x => eq_str x k) l)
  | VStr s => Ok (PyStr.is_substring k s)
  | _ => Raise TypeError
  end.

(** [v.get(k, default)]: only a dict has the method. *)
Definition py_get (v : value) (k : string) (default : value) : outcome value :=
  match v with
  | VDict d => Ok (match lookup k d with Some x => x | None => default end)
  | _ => Raise AttributeError
  end.

(** [v[k]] for a string literal [k]. *)
Definition py_getitem (v : value) (k : string) : outcome value :=
  match v with
  | VDict d => match lookup k d with Some x => Ok x | None => Raise KeyError end
  | _ => Raise TypeError
  end.

(** [v < n] for an int literal [n]. *)
Definition py_lt (v : value) (n : Z) : outcome bool :=
  match v with
  | VInt z => Ok (z <? n)
  | VBool b => Ok ((if b then 1 else 0) <? n)
  | _ => Raise TypeError
  end.

(** The elements a [for] loop or a comprehension draws from [v]. *)
Definition py_iter (v : value) : outcome (list value) :=
  match v with
  | VList l => Ok l
  | VDict d => Ok (map (fun kv => VStr (fst kv)) d)
  | VStr s => Ok (map (fun c => VStr (String c "")) (PyStr.chars s))
  | _ => Raise TypeError
  end.

(** ** Unit parsers *)

Section UnitParsers.
Import PyStr.
Local Open Scope outcome_scope.

(** Parse CPU value to millicores. *)
Definition _parse_cpu_value (cpu_str : value) : outcome Z :=
  if negb (truthy cpu_str) then Ok 0
  else
    let cpu_str := lower (py_str cpu_str) in
    if endswith cpu_str "m" then PyInt.of_str (drop_last 1 cpu_str)
    else x <~ PyFloat.of_str cpu_str ;; PyFloat.to_int (PyFloat.mul_int x 1000).

(** Parse memory size to MB. *)
Definition _parse_memory_size (memory_str : value) : outcome Z :=
  if negb (truthy memory_str) then Ok 0
  else
    let memory_str := upper (py_str memory_str) in
    if endswith memory_str "MI" then PyInt.of_str (drop_last 2 memory_str)
    else if endswith memory_str "GI" then
      n <~ PyInt.of_str (drop_last 2 memory_str) ;; Ok (n * 1024)
    else if endswith memory_str "M" then PyInt.of_str (drop_last 1 memory_str)
    else if endswith memory_str "G" then
      n <~ PyInt.of_str (drop_last 1 memory_str) ;; Ok (n * 1024)
    else PyInt.of_str memory_str.

(** Parse storage size to MB; [None] is Python's [None]. *)
Definition _parse_storage_size (storage_str : value) : outcome (option Z) :=
  if negb (truthy storage_str) then Ok None
  else
    let storage_str := upper (py_str storage_str) in
    if endswith storage_str "GI" then
      n <~ PyInt.of_str (drop_last 2 storage_str) ;; Ok (Some (n * 1024))
    else if endswith storage_str "G" then
      n <~ PyInt.of_str (drop_last 1 storage_str) ;; Ok (Some (n * 1024))
    else if endswith storage_str "MI" then
      n <~ PyInt.of_str (drop_last 2 storage_str) ;; Ok (Some n)
    else if endswith storage_str "M" then
      n <~ PyInt.of_str (drop_last 1 storage_str) ;; Ok (Some n)
    else
      match PyInt.of_str storage_str with
      | Ok n => Ok (Some n)
      | Raise ValueError => Ok None
      | Raise e => Raise e
      end.

End UnitParsers.

(** Truth value of an [Optional[int]]. *)
Definition truthy_opt (r : option Z) : bool :=
  match r with
  | Some z => negb (z =? 0)
  | None => false
  end.

(** ** The validator object and its methods *)

Record ConfigValidator : Type := mkValidator {
  errors : list string;
  warnings : list string;
  project_root : string;
  helm_chart_dir : string
}.

(** [p / name] on paths, which are kept as text. *)
Definition path_join (p name : string) : string := p ++ "/" ++ name.

(** [ConfigValidator()]; [root] is the directory three levels above
    the script. *)
Definition new_validator (root : string) : ConfigValidator :=
  {| errors := [];
     warnings := [];
     project_root := root;
     helm_chart_dir := path_join (path_join (path_join root "infrastructure") "helm") "gmc-dev" |}.

(** What the validators read of the file system. [load_yaml p] is
    [open] followed by [yaml.safe_load]: the parsed document, or the
    text of the exception either of them raised. Every existence
    test has an answer: an error of the operating system inside
    [Path.exists] is outside the embedding. *)
Record filesystem : Type := {
  path_exists : string -> bool;
  load_yaml : string -> string + value;
  glob : string -> string -> list string
}.

(** A method: the outcome of the call and the object after it. An
    exception leaves the object as it was when it was raised. *)
Definition M (A : Type) : Type := ConfigValidator -> outcome A * ConfigValidator.

Definition ret {A : Type} (a : A) : M A := fun self => (Ok a, self).

Definition bind {A B : Type} (m : M A) (k : A -> M B) : M B :=
  fun self =>
    match m self with
    | (Ok a, self') => k a self'
    | (Raise e, self') => (Raise e, self')
    end.

Definition lift {A : Type} (o : outcome A) : M A := fun self => (o, self).

Definition get_self : M ConfigValidator := fun self => (Ok self, self).

(** [self.errors.append(msg)] and [self.warnings.append(msg)]. *)
Definition errors_append (msg : string) : M unit :=
  fun self =>
    (Ok tt, {| errors := errors self ++ [msg];
               warnings := warnings self;
               project_root := project_root self;
               helm_chart_dir := helm_chart_dir self |}).

Definition warnings_append (msg : string) : M unit :=
  fun self =>
    (Ok tt, {| errors := errors self;
               warnings := warnings self ++ [msg];
               project_root := project_root self;
               helm_chart_dir := helm_chart_dir self |}).

Declare Scope method_scope.
Delimit Scope method_scope with method.
Bind Scope method_scope with M.

Notation "x <- c1 ;; c2" := (bind c1 (fun x => c2))
  (at level 61, c1 at next level, right associativity) : method_scope.
Notation "c1 ;; c2" := (bind c1 (fun _ => c2))
  (at level 61, right associativity) : method_scope.

Local Open Scope method_scope.

(** [if b: m]. *)
Definition when (b : bool) (m : M unit) : M unit :=
  if b then m else ret tt.

(** [a and b] used as a condition: [b] is evaluated only when [a]
    holds. *)
Definition and_then (a b : M bool) : M bool :=
  x <- a ;; if x then b else ret false.

(** [for x in l: body(x)]. *)
Fixpoint for_each {A : Type} (l : list A) (body : A -> M unit) : M unit :=
  match l with
  | [] => ret tt
  | x :: r => body x ;; for_each r body
  end.

(** A [for] loop that updates local variables [s]. *)
Fixpoint for_fold {A S : Type} (l : list A) (body : A -> S -> M S) (s : S) : M S :=
  match l with
  | [] => ret s
  | x :: r => s' <- body x s ;; for_fold r body s'
  end.

(** [len(l) == 0]. *)
Definition is_empty {A : Type} (l : list A) : bool :=
  match l with
  | [] => true
  | _ :: _ => false
  end.

Section Validators.
Import PyStr.

(** Validate that limits are reasonable compared to requests. *)
Definition _validate_resource_ratio (resources : value) (service : string) : M unit :=
  requests <- lift (py_get resources "requests" (VDict [])) ;;
  limits <- lift (py_get resources "limits" (VDict [])) ;;
  (* Check CPU ratio *)
  both_cpu <- and_then (lift (py_in "cpu" requests)) (lift (py_in "cpu" limits)) ;;
  when both_cpu (
    req_v <- lift (py_getitem requests "cpu") ;;
    req_cpu <- lift (_parse_cpu_value req_v) ;;
    lim_v <- lift (py_getitem limits "cpu") ;;
    lim_cpu <- lift (_parse_cpu_value lim_v) ;;
    if lim_cpu <? req_cpu then
      errors_append (service ++ ": CPU limit (" ++ py_str lim_v
                       ++ ") is less than request (" ++ py_str req_v ++ ")")
    else if lim_cpu >? req_cpu * 4 then
      warnings_append (service ++ ": CPU limit is much higher than request - consider adjusting")
    else ret tt) ;;
  (* Check memory ratio *)
  both_mem <- and_then (lift (py_in "memory" requests)) (lift (py_in "memory" limits)) ;;
  when both_mem (
    req_v <- lift (py_getitem requests "memory") ;;
    req_mem <- lift (_parse_memory_size req_v) ;;
    lim_v <- lift (py_getitem limits "memory") ;;
    lim_mem <- lift (_parse_memory_size lim_v) ;;
    if lim_mem <? req_mem then
      errors_append (service ++ ": Memory limit (" ++ py_str lim_v
                       ++ ") is less than request (" ++ py_str req_v ++ ")")
    else if lim_mem >? req_mem * 4 then
      warnings_append (service ++ ": Memory limit is much higher than request - consider adjusting")
    else ret tt).

(** Validate API service configuration. *)
Definition _validate_api_config (api_config : value) : M unit :=
  (* Check replica count for environment *)
  replicas <- lift (py_get api_config "replicaCount" (VInt 1)) ;;
  too_few <- lift (py_lt replicas 1) ;;
  when too_few (errors_append "API replica count must be at least 1") ;;
  (* Validate resource requests/limits *)
  resources <- lift (py_get api_config "resources" (VDict [])) ;;
  both <- and_then (lift (py_in "requests" resources)) (lift (py_in "limits" resources)) ;;
  when both (_validate_resource_ratio resources "api") ;;
  (* Validate health check configuration *)
  checked <- and_then (lift (py_in "healthCheck" api_config))
               (hc <- lift (py_getitem api_config "healthCheck") ;;
                enabled <- lift (py_get hc "enabled" VNone) ;;
                ret (truthy enabled)) ;;
  when checked (
    health_check <- lift (py_getitem api_config "healthCheck") ;;
    path <- lift (py_get health_check "path" VNone) ;;
    when (negb (truthy path)) (warnings_append "Health check path not specified for API")).

(** Validate database configuration. *)
Definition _validate_database_config (db_config : value) : M unit :=
  (* Check persistence *)
  persistent <- and_then (lift (py_in "primary" db_config))
                  (primary <- lift (py_getitem db_config "primary") ;;
                   lift (py_in "persistence" primary)) ;;
  when persistent (
    primary <- lift (py_getitem db_config "primary") ;;
    persistence <- lift (py_getitem primary "persistence") ;;
    enabled <- lift (py_get persistence "enabled" VNone) ;;
    when (truthy enabled) (
      size <- lift (py_get persistence "size" (VStr "")) ;;
      invalid <- (if negb (truthy size) then ret true
                  else parsed <- lift (_parse_storage_size size) ;;
                       ret (negb (truthy_opt parsed))) ;;
      when invalid (errors_append "Invalid database storage size"))) ;;
  (* Check authentication *)
  auth <- lift (py_get db_config "auth" (VDict [])) ;;
  database <- lift (py_get auth "database" VNone) ;;
  when (negb (truthy database)) (warnings_append "Database name not specified") ;;
  password <- lift (py_get auth "postgresPassword" (VStr "")) ;;
  when (eq_str password "changeme")
    (warnings_append "Default database password detected - change for production").

(** Validate AI services configuration. *)
Definition _validate_ai_config (ai_config : value) : M unit :=
  (* Validate vLLM configuration *)
  vllm_on <- and_then (lift (py_in "vllm" ai_config))
               (vllm <- lift (py_getitem ai_config "vllm") ;;
                enabled <- lift (py_get vllm "enabled" VNone) ;;
                ret (truthy enabled)) ;;
  when vllm_on (
    vllm <- lift (py_getitem ai_config "vllm") ;;
    (* Check model configuration *)
    model <- lift (py_get vllm "model" (VStr "")) ;;
    when (negb (truthy model)) (errors_append "vLLM model not specified") ;;
    (* Check resource requirements *)
    resources <- lift (py_get vllm "resources" (VDict [])) ;;
    has_requests <- lift (py_in "requests" resources) ;;
    when has_requests (
      requests <- lift (py_getitem resources "requests") ;;
      memory <- lift (py_get requests "memory" (VStr "")) ;;
      low <- (if truthy memory then
                mb <- lift (_parse_memory_size memory) ;; ret (mb <? 1024)
              else ret false) ;;
      when low (warnings_append "vLLM memory request may be too low for model loading")) ;;
    (* Check persistence for model storage *)
    persistence <- lift (py_get vllm "persistence" (VDict [])) ;;
    enabled <- lift (py_get persistence "enabled" VNone) ;;
    when (negb (truthy enabled))
      (warnings_append "vLLM persistence disabled - models will be re-downloaded on restart")) ;;
  (* Validate audio processor *)
  audio_on <- and_then (lift (py_in "audioProcessor" ai_config))
                (audio <- lift (py_getitem ai_config "audioProcessor") ;;
                 enabled <- lift (py_get audio "enabled" VNone) ;;
                 ret (truthy enabled)) ;;
  when audio_on (
    audio <- lift (py_getitem ai_config "audioProcessor") ;;
    env <- lift (py_get audio "env" (VDict [])) ;;
    model <- lift (py_get env "DIART_MODEL" VNone) ;;
    when (negb (truthy model)) (warnings_append "Audio processor model not specified")).

(** The block both loops of [_validate_resource_limits] end with:
    the requests of [resources], when it has any, are added to the
    running totals [(total_cpu_requests, total_memory_requests)]. *)
Definition add_requests (resources : value) (totals : Z * Z) : M (Z * Z) :=
  has_requests <- lift (py_in "requests" resources) ;;
  if has_requests then
    requests <- lift (py_getitem resources "requests") ;;
    cpu_v <- lift (py_get requests "cpu" (VStr "0")) ;;
    cpu <- lift (_parse_cpu_value cpu_v) ;;
    memory_v <- lift (py_get requests "memory" (VStr "0")) ;;
    memory <- lift (_parse_memory_size memory_v) ;;
    ret (fst totals + cpu, snd totals + memory)
  else ret totals.

(** Validate resource requests and limits across all services. *)
Definition _validate_resource_limits (values : value) : M unit :=
  (* Collect resource requests from all services *)
  totals <- for_fold ["api"; "frontend"] (fun service totals =>
    present <- lift (py_in service values) ;;
    if present then
      section <- lift (py_getitem values service) ;;
      resources <- lift (py_get section "resources" (VDict [])) ;;
      add_requests resources totals
    else ret totals) (0, 0) ;;
  (* Add database and cache resources *)
  totals <- for_fold ["postgresql"; "redis"] (fun service totals =>
    present <- lift (py_in service values) ;;
    if present then
      is_primary <- and_then (ret (String.eqb service "postgresql"))
                      (section <- lift (py_getitem values service) ;;
                       lift (py_in "primary" section)) ;;
      if is_primary then
        section <- lift (py_getitem values service) ;;
        primary <- lift (py_getitem section "primary") ;;
        resources <- lift (py_get primary "resources" (VDict [])) ;;
        add_requests resources totals
      else
        is_master <- and_then (ret (String.eqb service "redis"))
                       (section <- lift (py_getitem values service) ;;
                        lift (py_in "master" section)) ;;
        if is_master then
          section <- lift (py_getitem values service) ;;
          master <- lift (py_getitem section "master") ;;
          resources <- lift (py_get master "resources" (VDict [])) ;;
          add_requests resources totals
        else ret totals (* continue *)
    else ret totals) totals ;;
  let total_cpu_requests := fst totals in
  let total_memory_requests := snd totals in
  (* Check if total requests exceed typical development machine limits *)
  when (total_cpu_requests >? 4000)
    (warnings_append ("Total CPU requests (" ++ PyInt.to_str total_cpu_requests
                        ++ "m) may exceed development machine capacity")) ;;
  when (total_memory_requests >? 8192)
    (warnings_append ("Total memory requests (" ++ PyInt.to_str total_memory_requests
                        ++ "Mi) may exceed development machine capacity")).

(** Get storage size for a service in MB. *)
Definition _get_service_storage_size (values : value) (service : string) : outcome Z :=
  (persistence <~
     (if String.eqb service "postgresql" then
        a <~ py_get values "postgresql" (VDict []) ;;
        b <~ py_get a "primary" (VDict []) ;;
        c <~ py_get b "persistence" (VDict []) ;; Ok (Some c)
      else if String.eqb service "redis" then
        a <~ py_get values "redis" (VDict []) ;;
        b <~ py_get a "master" (VDict []) ;;
        c <~ py_get b "persistence" (VDict []) ;; Ok (Some c)
      else if String.eqb service "vllm" then
        a <~ py_get values "ai" (VDict []) ;;
        b <~ py_get a "vllm" (VDict []) ;;
        c <~ py_get b "persistence" (VDict []) ;; Ok (Some c)
      else Ok None) ;;
   match persistence with
   | None => Ok 0
   | Some persistence =>
       enabled <~ py_get persistence "enabled" VNone ;;
       if truthy enabled then
         size <~ py_get persistence "size" (VStr "") ;;
         parsed <~ _parse_storage_size size ;;
         Ok (if truthy_opt parsed then match parsed with Some n => n | None => 0 end else 0)
       else Ok 0
   end)%outcome.

(** Validate storage configuration. *)
Definition _validate_storage_config (values : value) : M unit :=
  (* Check global storage class *)
  global_config <- lift (py_get values "global" (VDict [])) ;;
  storage_class <- lift (py_get global_config "storageClass" (VStr "")) ;;
  when (negb (truthy storage_class)) (warnings_append "Global storage class not specified") ;;
  (* Validate persistence configurations *)
  has_vllm <- and_then (lift (py_in "ai" values))
                (ai <- lift (py_getitem values "ai") ;; lift (py_in "vllm" ai)) ;;
  let services_with_storage :=
    (["postgresql"; "redis"] ++ (if has_vllm then ["vllm"] else []))%list in
  total_storage <- for_fold services_with_storage (fun service total_storage =>
    storage_size <- lift (_get_service_storage_size values service) ;;
    ret (if negb (storage_size =? 0) then total_storage + storage_size
         else total_storage)) 0 ;;
  (* Warn if total storage is very large for development *)
  when (total_storage >? 100 * 1024) (
    gb <- lift (PyFloat.int_truediv total_storage 1024) ;;
    warnings_append ("Total storage requests (" ++ PyFloat.format_1f gb
                       ++ "GB) are quite large for development")).

Variable fs : filesystem.

(** Validate Helm values file. *)
Definition validate_helm_values (values_file : string) : M bool :=
  match load_yaml fs values_file with
  | inl e =>
      errors_append ("Failed to parse " ++ values_file ++ ": " ++ e) ;;
      ret false
  | inr values =>
      (* Validate required sections *)
      for_each ["api"; "postgresql"; "redis"] (fun section =>
        present <- lift (py_in section values) ;;
        when (negb present)
          (errors_append ("Missing required section '" ++ section ++ "' in " ++ values_file))) ;;
      (* Validate API configuration *)
      has_api <- lift (py_in "api" values) ;;
      when has_api (api <- lift (py_getitem values "api") ;; _validate_api_config api) ;;
      (* Validate database configuration *)
      has_db <- lift (py_in "postgresql" values) ;;
      when has_db (db <- lift (py_getitem values "postgresql") ;; _validate_database_config db) ;;
      (* Validate AI configuration *)
      has_ai <- lift (py_in "ai" values) ;;
      when has_ai (ai <- lift (py_getitem values "ai") ;; _validate_ai_config ai) ;;
      (* Validate resource limits *)
      _validate_resource_limits values ;;
      (* Validate storage configuration *)
      _validate_storage_config values ;;
      self <- get_self ;;
      ret (is_empty (errors self))
  end.

(** Validate Helm chart structure. *)
Definition validate_chart_structure : M bool :=
  self <- get_self ;;
  (* Check required files *)
  for_each ["Chart.yaml"; "values.yaml"; "values-development.yaml"; "values-production.yaml"]
    (fun file_name =>
       let file_path := path_join (helm_chart_dir self) file_name in
       when (negb (path_exists fs file_path))
         (errors_append ("Missing required file: " ++ file_path))) ;;
  (* Check templates directory *)
  let templates_dir := path_join (helm_chart_dir self) "templates" in
  (if negb (path_exists fs templates_dir) then
     errors_append "Missing templates directory"
   else
     (* Check for basic template files *)
     for_each ["deployment.yaml"; "service.yaml"; "configmap.yaml"] (fun template =>
       let template_path := path_join templates_dir template in
       when (negb (path_exists fs template_path))
         (warnings_append ("Missing template file: " ++ template)))) ;;
  self <- get_self ;;
  ret (is_empty (errors self)).

(** [node.get('role') == 'control-plane']. *)
Definition is_control_plane (node : value) : M bool :=
  role <- lift (py_get node "role" VNone) ;;
  ret (eq_str role "control-plane").

(** [[n for n in nodes if n.get('role') == 'control-plane']]. *)
Fixpoint control_plane_of (nodes : list value) : M (list value) :=
  match nodes with
  | [] => ret []
  | n :: r =>
      keep <- is_control_plane n ;;
      rest <- control_plane_of r ;;
      ret (if keep then n :: rest else rest)
  end.

(** Validate Kind cluster configuration. *)
Definition validate_kind_config : M bool :=
  self <- get_self ;;
  let kind_config_path :=
    path_join (path_join (project_root self) "infrastructure") "kind-cluster-config.yaml" in
  if negb (path_exists fs kind_config_path) then
    errors_append "Missing Kind cluster configuration file" ;;
    ret false
  else
    match load_yaml fs kind_config_path with
    | inl e =>
        errors_append ("Failed to parse Kind config: " ++ e) ;;
        ret false
    | inr config =>
        (* Validate cluster configuration *)
        kind <- lift (py_get config "kind" VNone) ;;
        when (negb (eq_str kind "Cluster"))
          (errors_append "Kind config must be of type 'Cluster'") ;;
        (* Check nodes configuration *)
        nodes <- lift (py_get config "nodes" (VList [])) ;;
        when (negb (truthy nodes)) (errors_append "At least one node must be defined") ;;
        (* Check for control plane *)
        node_list <- lift (py_iter nodes) ;;
        control_plane_nodes <- control_plane_of node_list ;;
        when (is_empty control_plane_nodes)
          (errors_append "At least one control-plane node must be defined") ;;
        (* Validate port mappings *)
        node_list <- lift (py_iter nodes) ;;
        for_each node_list (fun node =>
          cp <- is_control_plane node ;;
          when cp (
            port_mappings <- lift (py_get node "extraPortMappings" (VList [])) ;;
            when (negb (truthy port_mappings))
              (warnings_append
                 "No port mappings defined for control plane - services won't be accessible"))) ;;
        self <- get_self ;;
        ret (is_empty (errors self))
    end.

(** The command line after [argparse]. *)
Record arguments : Type := {
  values_file : option string;
  environment : option string;
  strict : bool
}.

(** The validations [main] runs on a fresh validator, up to the
    report. *)
Definition run_validations (args : arguments) : M unit :=
  (* Validate chart structure *)
  validate_chart_structure ;;
  (* Validate Kind configuration *)
  validate_kind_config ;;
  (* Validate values files *)
  match values_file args with
  | Some file => validate_helm_values file ;; ret tt
  | None =>
      match environment args with
      | Some env =>
          validator <- get_self ;;
          validate_helm_values
            (path_join (helm_chart_dir validator) ("values-" ++ env ++ ".yaml")) ;;
          (* Also validate base values *)
          validate_helm_values (path_join (helm_chart_dir validator) "values.yaml") ;;
          ret tt
      | None =>
          (* Validate all values files *)
          validator <- get_self ;;
          for_each (glob fs (helm_chart_dir validator) "values*.yaml")
            (fun file => validate_helm_values file ;; ret tt)
      end
  end.

(** [main]: the status passed to [sys.exit], or the exception that
    escaped. The report is printed before the exit and changes
    nothing. *)
Definition main (root : string) (args : arguments) : outcome Z * ConfigValidator :=
  (run_validations args ;;
   validator <- get_self ;;
   (* Exit with appropriate code *)
   let has_errors := negb (is_empty (errors validator)) in
   let has_warnings := negb (is_empty (warnings validator)) in
   if has_errors || (strict args && has_warnings) then ret 1 else ret 0)
    (new_validator root).

End Validators.

(** ** The report *)

(** [s * n] for a string [s]. *)
Definition times (s : string) (n : nat) : string := concat "" (repeat s n).

(** The line feed, written [\n] in the source. *)
Definition line_feed : string := String "010" "".

(** Generate validation report: [report_lines] is the list [report]
    when the method joins it. The report holds characters outside
    ASCII; a text is kept here as the bytes of its UTF-8 encoding,
    which is what [print] writes. *)
Definition report_lines (self : ConfigValidator) : list string :=
  let report := [times "=" 60] in
  let report := List.app report ["GameMaster's Companion Configuration Validation Report"] in
  let report := List.app report [times "=" 60] in
  let report :=
    if negb (is_empty (errors self)) then
      List.app
        (List.app report
           [line_feed ++ "❌ ERRORS (" ++ PyInt.to_str (Z.of_nat (List.length (errors self)))
              ++ "):"])
        (map (fun error => "  • " ++ error) (errors self))
    else report in
  let report :=
    if negb (is_empty (warnings self)) then
      List.app
        (List.app report
           [line_feed ++ "⚠️  WARNINGS (" ++ PyInt.to_str (Z.of_nat (List.length (warnings self)))
              ++ "):"])
        (map (fun warning => "  • " ++ warning) (warnings self))
    else report in
  let report :=
    if is_empty (errors self) && is_empty (warnings self) then
      List.app report [line_feed ++ "✅ All validations passed!"]
    else report in
  List.app report [line_feed ++ times "=" 60].

Definition generate_report (self : ConfigValidator) : string :=
  PyStr.join line_feed (report_lines self).


(** ** Vocabulary of the statements *)

(** A text that ends, whatever its case, in none of the unit
    suffixes the size parsers know. *)
Definition unsuffixed (s : string) : bool :=
  let u := PyStr.upper s in
  negb (PyStr.endswith u "MI" || PyStr.endswith u "GI"
        || PyStr.endswith u "M" || PyStr.endswith u "G").

(** The characters of a text that [int] accepts. *)
Definition numeric_char (c : ascii) : bool :=
  PyStr.is_digit c || Ascii.eqb c "_" || Ascii.eqb c "-" || Ascii.eqb c "+".

(** [l'] is [l] followed by zero or more further elements. *)
Definition prefix {A : Type} (l l' : list A) : Prop := exists k, l' = (l ++ k)%list.

(** The validator object [self'] holds every finding of [self], in
    the same order and under the same severity, possibly followed by
    new ones. *)
Definition extends (self self' : ConfigValidator) : Prop :=
  prefix (errors self) (errors self') /\ prefix (warnings self) (warnings self').

(** A method that only appends findings, whether it returns or
    raises. *)
Definition appends_only {A : Type} (m : M A) : Prop :=
  forall self, extends self (snd (m self)).

(** The validator object [self] with the errors [es] and the
    warnings [ws] appended. *)
Definition with_findings (self : ConfigValidator) (es ws : list string) : ConfigValidator :=
  {| errors := errors self ++ es;
     warnings := warnings self ++ ws;
     project_root := project_root self;
     helm_chart_dir := helm_chart_dir self |}.


Definition is_some {A : Type} (o : option A) : bool :=
  match o with
  | Some _ => true
  | None => false
  end.

(** The Error of the ratio check: a limit below the request. *)
Definition ratio_errors (service label : string) (c : option (value * value * Z * Z))
  : list string :=
  match c with
  | Some (rv, lv, r, l) =>
      if l <? r then
        [service ++ ": " ++ label ++ " limit (" ++ py_str lv
           ++ ") is less than request (" ++ py_str rv ++ ")"]
      else []
  | None => []
  end.

(** The Warning of the ratio check: a limit that is not below the
    request and is above four times the request. *)
Definition ratio_warnings (service label : string) (c : option (value * value * Z * Z))
  : list string :=
  match c with
  | Some (_, _, r, l) =>
      if (r <=? l) && (4 * r <? l) then
        [service ++ ": " ++ label ++ " limit is much higher than request - consider adjusting"]
      else []
  | None => []
  end.

(** [d.get(k, default)] on a dict. *)
Definition get_or (d : dict) (k : string) (default : value) : value :=
  match lookup k d with
  | Some v => v
  | None => default
  end.

(** Whether the database validator rejects the configured size: an
    empty or absent size, a size that parses to [None], and a size
    that parses to zero are rejected; a size on which the parser
    raises is not (the exception escapes instead). *)
Definition size_rejected (size : value) : bool :=
  match (if truthy size then _parse_storage_size size else Ok None) with
  | Ok None => true
  | Ok (Some n) => n =? 0
  | Raise _ => false
  end.

(** A method that leaves the errors as they are. *)
Definition keeps_errors {A : Type} (m : M A) : Prop :=
  forall self, errors (snd (m self)) = errors self.

(** The section [k] of the dict [d]: absent, or a dict. *)
Definition section_of (d : dict) (k : string) (s : option dict) : Prop :=
  match lookup k d with
  | None => s = None
  | Some (VDict x) => s = Some x
  | Some _ => False
  end.

(** The part [sub] of the section [k] of [values]
    ([postgresql.primary], [redis.master]): absent when the section
    or the part is. *)
Definition subsection_of (values : dict) (k sub : string) (s : option dict) : Prop :=
  exists section, section_of values k section /\
    match section with
    | None => s = None
    | Some x => section_of x sub s
    end.

(** What a service adds to the totals of the capacity check: the
    CPU request in millicores and the memory request in MB of its
    [resources.requests]; nothing when the service, its resources or
    its requests block is absent. An absent [cpu] or [memory] entry
    reads as the text 0. *)
Inductive contributes : option dict -> Z -> Z -> Prop :=
| contributes_absent : contributes None 0 0
| contributes_no_resources (holder : dict) :
    lookup "resources" holder = None ->
    contributes (Some holder) 0 0
| contributes_no_requests (holder resources : dict) :
    lookup "resources" holder = Some (VDict resources) ->
    lookup "requests" resources = None ->
    contributes (Some holder) 0 0
| contributes_requests (holder resources requests : dict) (cpu memory : Z) :
    lookup "resources" holder = Some (VDict resources) ->
    lookup "requests" resources = Some (VDict requests) ->
    _parse_cpu_value (get_or requests "cpu" (VStr "0")) = Ok cpu ->
    _parse_memory_size (get_or requests "memory" (VStr "0")) = Ok memory ->
    contributes (Some holder) cpu memory.

(** The warnings of the capacity check for given totals. *)
Definition capacity_warnings (cpu memory : Z) : list string :=
  List.app
    (if cpu >? 4000 then
       ["Total CPU requests (" ++ PyInt.to_str cpu
          ++ "m) may exceed development machine capacity"]
     else [])
    (if memory >? 8192 then
       ["Total memory requests (" ++ PyInt.to_str memory
          ++ "Mi) may exceed development machine capacity"]
     else []).

(** Whether [values] holds an [ai.vllm] section. *)
Definition vllm_present (values : dict) (present : bool) : Prop :=
  match lookup "ai" values with
  | None => present = false
  | Some ai => py_in "vllm" ai = Ok present
  end.

(** The global storage class of [values]; the empty text when none
    is given. *)
Definition storage_class_of (values : dict) (storage_class : value) : Prop :=
  match lookup "global" values with
  | None => storage_class = VStr ""
  | Some (VDict g) => storage_class = get_or g "storageClass" (VStr "")
  | Some _ => False
  end.

(** [a / b] written with one decimal place: the nearest tenth, a
    tie going to the even one. *)
Definition one_decimal (a b : Z) : string :=
  let n := PyFloat.round_half_even (10 * a) b in
  PyInt.to_str (n / 10) ++ "." ++ PyInt.to_str (n mod 10).

(** The Warning of the storage check about the storage class. *)
Definition class_warning (storage_class : value) : list string :=
  if truthy storage_class then [] else ["Global storage class not specified"].

(** The Warning of the storage check about a total in MB, as the
    code writes it: the float quotient by 1024 with one decimal. *)
Definition size_warning (total : Z) : outcome (list string) :=
  if total >? 100 * 1024 then
    (gb <~ PyFloat.int_truediv total 1024 ;;
     Ok ["Total storage requests (" ++ PyFloat.format_1f gb
           ++ "GB) are quite large for development"])%outcome
  else Ok [].

(** The path of the cluster-bootstrap document. *)
Definition kind_config_path (self : ConfigValidator) : string :=
  path_join (path_join (project_root self) "infrastructure") "kind-cluster-config.yaml".

(** The nodes a cluster document declares: none when it has no
    [nodes] entry, else the dicts of the list it gives. *)
Definition nodes_of (config : dict) (nodes : list dict) : Prop :=
  match lookup "nodes" config with
  | None => nodes = []
  | Some v => v = VList (map VDict nodes)
  end.

(** A node with the control-plane role. *)
Definition control_plane (node : dict) : bool :=
  eq_str (get_or node "role" VNone) "control-plane".

(** A node without any port-mapping entry. *)
Definition lacks_port_mappings (node : dict) : bool :=
  negb (truthy (get_or node "extraPortMappings" (VList []))).

(** The Errors of the cluster-bootstrap check on a document that was
    read and parsed. *)
Definition kind_errors (config : dict) (nodes : list dict) : list string :=
  List.app
    (if eq_str (get_or config "kind" VNone) "Cluster" then []
     else ["Kind config must be of type 'Cluster'"])
    (List.app
       (if is_empty nodes then ["At least one node must be defined"] else [])
       (if existsb control_plane nodes then []
        else ["At least one control-plane node must be defined"])).

(** Its Warnings: one for each control-plane node without port
    mappings. *)
Definition kind_warnings (nodes : list dict) : list string :=
  map (fun _ => "No port mappings defined for control plane - services won't be accessible")
    (filter (fun node => control_plane node && lacks_port_mappings node) nodes).

(** A validator whose returned boolean says whether the validator
    object holds no error at the moment of return. *)
Definition returns_no_errors (m : M bool) : Prop :=
  forall self b self', m self = (Ok b, self') -> b = is_empty (errors self').

(** The status the process ends with: the argument of [sys.exit], or
    1 when an exception leaves [main] (the interpreter prints the
    traceback and exits with status 1). *)
Definition exit_status (o : outcome Z) : Z :=
  match o with
  | Ok code => code
  | Raise _ => 1
  end.

(** The names of [names] that do not exist in the directory [dir]. *)
Definition missing (fs : filesystem) (dir : string) (names : list string) : list string :=
  filter (fun name => negb (path_exists fs (path_join dir name))) names.


(** ** Further vocabulary *)

(** The characters of the decimal text of an int: digits, and the
    minus sign of a negative number. *)
Definition numeral_char (c : ascii) : bool := PyStr.is_digit c || Ascii.eqb c "-".

(** The keys under which the persistence block of a service is kept
    in the values; none for a name that is no service with storage. *)
Definition storage_path (service : string) : option (list string) :=
  if String.eqb service "postgresql" then Some ["postgresql"; "primary"; "persistence"]
  else if String.eqb service "redis" then Some ["redis"; "master"; "persistence"]
  else if String.eqb service "vllm" then Some ["ai"; "vllm"; "persistence"]
  else None.

(** [d.get(k1, {}).get(k2, {})...] along a path of keys: the dict
    reached, which is the empty dict from the first absent key on;
    nothing when an entry met on the way is no dict, so that it has
    no [get]. *)
Fixpoint dig (d : dict) (path : list string) : option dict :=
  match path with
  | [] => Some d
  | k :: r =>
      match lookup k d with
      | None => Some []
      | Some (VDict x) => dig x r
      | Some _ => None
      end
  end.

(** A method that leaves the warnings as they are. *)
Definition keeps_warnings {A : Type} (m : M A) : Prop :=
  forall self, warnings (snd (m self)) = warnings self.

(** The Error of the API validator about the replica count. *)
Definition replica_errors (too_few : bool) : list string :=
  if too_few then ["API replica count must be at least 1"] else [].

(** The Warning of the API validator about the health check: the
    check is enabled and names no path. *)
Definition health_warnings (health_check : option dict) : list string :=
  match health_check with
  | Some h =>
      if truthy (get_or h "enabled" VNone) && negb (truthy (get_or h "path" VNone))
      then ["Health check path not specified for API"] else []
  | None => []
  end.

(** The Warnings of the database validator about authentication. *)
Definition auth_warnings (auth : dict) : list string :=
  List.app
    (if truthy (get_or auth "database" VNone) then [] else ["Database name not specified"])
    (if eq_str (get_or auth "postgresPassword" (VStr "")) "changeme"
     then ["Default database password detected - change for production"] else []).

(** The memory the model-serving service requests, in MB: nothing
    when it has no resources, no requests block, or no memory entry
    (or an empty one). *)
Inductive requested_memory (vllm : dict) : option Z -> Prop :=
| requested_no_resources :
    lookup "resources" vllm = None ->
    requested_memory vllm None
| requested_no_requests (resources : dict) :
    lookup "resources" vllm = Some (VDict resources) ->
    lookup "requests" resources = None ->
    requested_memory vllm None
| requested_no_memory (resources requests : dict) :
    lookup "resources" vllm = Some (VDict resources) ->
    lookup "requests" resources = Some (VDict requests) ->
    truthy (get_or requests "memory" (VStr "")) = false ->
    requested_memory vllm None
| requested_some (resources requests : dict) (mb : Z) :
    lookup "resources" vllm = Some (VDict resources) ->
    lookup "requests" resources = Some (VDict requests) ->
    truthy (get_or requests "memory" (VStr "")) = true ->
    _parse_memory_size (get_or requests "memory" (VStr "")) = Ok mb ->
    requested_memory vllm (Some mb).

(** Whether a section is there and enabled. *)
Definition enabled_section (s : option dict) : bool :=
  match s with
  | Some d => truthy (get_or d "enabled" VNone)
  | None => false
  end.

(** The Error of the AI validator: the model-serving service is
    enabled and names no model. *)
Definition vllm_errors (vllm : option dict) : list string :=
  match vllm with
  | Some v =>
      if enabled_section vllm && negb (truthy (get_or v "model" (VStr "")))
      then ["vLLM model not specified"] else []
  | None => []
  end.

(** The Warnings of the AI validator about the model-serving
    service, when it is enabled: a memory request below 1024 MB, and
    persistence that is not enabled. *)
Definition vllm_warnings (vllm : option dict) (memory : option Z) (persistence : dict)
  : list string :=
  if enabled_section vllm then
    List.app
      (match memory with
       | Some mb =>
           if mb <? 1024 then ["vLLM memory request may be too low for model loading"] else []
       | None => []
       end)
      (if truthy (get_or persistence "enabled" VNone) then []
       else ["vLLM persistence disabled - models will be re-downloaded on restart"])
  else [].

(** The Warning of the AI validator about the audio processor: it
    is enabled and its environment names no model. *)
Definition audio_warnings (audio : option dict) (env : dict) : list string :=
  if enabled_section audio && negb (truthy (get_or env "DIART_MODEL" VNone))
  then ["Audio processor model not specified"] else [].

(** The report of a validator that holds no finding. *)
Definition clean_report : string :=
  PyStr.join line_feed
    [times "=" 60;
     "GameMaster's Companion Configuration Validation Report";
     times "=" 60;
     line_feed ++ "✅ All validations passed!";
     line_feed ++ times "=" 60].

(** The text [t] holds [line] as a full line that is neither its
    first nor its last. *)
Definition has_line (t line : string) : Prop :=
  exists before after, t = before ++ line_feed ++ line ++ line_feed ++ after.

(** The validator object [self] with the errors [es] and the
    warnings [ws] put before its own. *)
Definition under (es ws : list string) (self : ConfigValidator) : ConfigValidator :=
  {| errors := es ++ errors self;
     warnings := ws ++ warnings self;
     project_root := project_root self;
     helm_chart_dir := helm_chart_dir self |}.

(** The validator object [self] without its findings. *)
Definition cleared (self : ConfigValidator) : ConfigValidator :=
  {| errors := [];
     warnings := [];
     project_root := project_root self;
     helm_chart_dir := helm_chart_dir self |}.

(** The exception an outcome carries. *)
Definition raised {A : Type} (o : outcome A) : option exn :=
  match o with
  | Ok _ => None
  | Raise e => Some e
  end.

(** Two validator objects of the same checkout. *)
Definition same_paths (a b : ConfigValidator) : Prop :=
  project_root a = project_root b /\ helm_chart_dir a = helm_chart_dir b.

(** A method that neither reads nor changes the findings recorded
    before the call: it returns or raises the same, and appends the
    same, whatever they are; and it leaves the directories of the
    validator object as they are. *)
Definition framed {A : Type} (m : M A) : Prop :=
  forall es ws self,
    m (under es ws self) = (fst (m self), under es ws (snd (m self)))
    /\ same_paths self (snd (m self)).

(** The same of a method whose returned value may depend on the
    findings recorded before: what it appends, and whether and what
    it raises, does not. *)
Definition framed_state {A : Type} (m : M A) : Prop :=
  forall es ws self,
    snd (m (under es ws self)) = under es ws (snd (m self))
    /\ raised (fst (m (under es ws self))) = raised (fst (m self))
    /\ same_paths self (snd (m self)).

(** What a method appends, and whether and what it raises, is what
    it appends and raises on a validator without findings. *)
Definition history_free {A : Type} (m : M A) : Prop :=
  forall self,
    snd (m self) =
      with_findings self (errors (snd (m (cleared self)))) (warnings (snd (m (cleared self))))
    /\ raised (fst (m self)) = raised (fst (m (cleared self))).

(** The values files [main] validates, in the order in which it
    validates them. *)
Definition selected_files (fs : filesystem) (root : string) (args : arguments) : list string :=
  let dir := helm_chart_dir (new_validator root) in
  match values_file args with
  | Some file => [file]
  | None =>
      match environment args with
      | Some env => [path_join dir ("values-" ++ env ++ ".yaml"); path_join dir "values.yaml"]
      | None => glob fs dir "values*.yaml"
      end
  end.

(** One turn of the loop of [main] over the values files: the
    boolean [validate_helm_values] returns is dropped. *)
Definition validate_file (fs : filesystem) (file : string) : M unit :=
  bind (validate_helm_values fs file) (fun _ => ret tt).

(** The file system [fs] in which the chart directory lists its
    values files in the order [listing]. *)
Definition listing_as (fs : filesystem) (listing : list string) : filesystem :=
  {| path_exists := path_exists fs;
     load_yaml := load_yaml fs;
     glob := fun _ _ => listing |}.

(** The file system [fs] in which files read as [load] says. *)
Definition reading_as (fs : filesystem) (load : string -> string + value) : filesystem :=
  {| path_exists := path_exists fs;
     load_yaml := load;
     glob := glob fs |}.
(** ** Inputs the statements are tried on *)

Module Examples.

(** A fresh validator of a checkout at [/repo]. *)
Definition fresh : ConfigValidator := new_validator "/repo".

(** A file system in which every path exists, the cluster document
    parses to [kind] and every other file parses to [values]. *)
Definition files (kind values : value) : filesystem :=
  {| path_exists := fun _ => true;
     load_yaml := fun path =>
       inr (if PyStr.endswith path "kind-cluster-config.yaml" then kind else values);
     glob := fun _ _ => [] |}.




(** A database section with persistence enabled and the given size. *)
Definition database (size : string) : dict :=
  [("primary", VDict [("persistence", VDict [("enabled", VBool true); ("size", VStr size)])]);
   ("auth", VDict [("database", VStr "gmc")])].

(** A resources holder that requests the given CPU and memory. *)
Definition requesting (cpu memory : string) : dict :=
  [("resources", VDict [("requests", VDict [("cpu", VStr cpu); ("memory", VStr memory)])])].

(** Values whose four services request the given CPU amounts and
    1Gi of memory each. *)
Definition services (api frontend database cache : string) : dict :=
  [("api", VDict (requesting api "1Gi"));
   ("frontend", VDict (requesting frontend "1Gi"));
   ("postgresql", VDict [("primary", VDict (requesting database "1Gi"))]);
   ("redis", VDict [("master", VDict (requesting cache "1Gi"))])].

(** A persistence block. *)
Definition persistence (enabled : bool) (size : string) : value :=
  VDict [("enabled", VBool enabled); ("size", VStr size)].

(** Values with a storage class, 60Gi of database storage, 20Gi of
    cache storage, and a model-serving service, enabled or not, with
    persistent storage of the given size. *)
Definition stores (vllm_enabled : bool) (vllm_size : string) : dict :=
  [("global", VDict [("storageClass", VStr "standard")]);
   ("postgresql", VDict [("primary", VDict [("persistence", persistence true "60Gi")])]);
   ("redis", VDict [("master", VDict [("persistence", persistence true "20Gi")])]);
   ("ai", VDict [("vllm", VDict [("enabled", VBool vllm_enabled);
                                 ("model", VStr "llama");
                                 ("persistence", persistence true vllm_size)])])].

(** A cluster document with one control-plane node and no port
    mappings. *)
Definition one_control_plane : dict :=
  [("kind", VStr "Cluster");
   ("nodes", VList [VDict [("role", VStr "control-plane")]])].

(** A cluster document with nothing to report. *)
Definition sound_cluster : value :=
  VDict [("kind", VStr "Cluster");
         ("nodes", VList [VDict [("role", VStr "control-plane");
                                 ("extraPortMappings",
                                   VList [VDict [("containerPort", VInt 80)]])]])].

(** A values file with nothing to report. *)
Definition clean_values : value :=
  VDict [("global", VDict [("storageClass", VStr "standard")]);
         ("api", VDict [("replicaCount", VInt 1)]);
         ("postgresql", VDict [("auth", VDict [("database", VStr "gmc")])]);
         ("redis", VDict [])].

(** A values file that only draws a Warning: no storage class. *)
Definition warned_values : value :=
  VDict [("api", VDict [("replicaCount", VInt 1)]);
         ("postgresql", VDict [("auth", VDict [("database", VStr "gmc")])]);
         ("redis", VDict [])].

(** A values file whose api memory request is not a quantity. *)
Definition malformed_values : value :=
  VDict [("global", VDict [("storageClass", VStr "standard")]);
         ("api", VDict (requesting "500m" "lots"));
         ("postgresql", VDict [("auth", VDict [("database", VStr "gmc")])]);
         ("redis", VDict [])].

(** A chart directory that lacks [values-production.yaml] and, among
    the templates, [configmap.yaml]. *)
Definition incomplete_chart : filesystem :=
  {| path_exists := fun path =>
       negb (PyStr.endswith path "values-production.yaml"
             || PyStr.endswith path "configmap.yaml");
     load_yaml := fun _ => inl "unreadable";
     glob := fun _ _ => [] |}.

(** [--values-file values.yaml], with or without [--strict]. *)
Definition one_file (strict : bool) : arguments :=
  {| values_file := Some "values.yaml"; environment := None; strict := strict |}.

(** An api section with no replica and a health check without
    path. *)
Definition idle_api : dict :=
  [("replicaCount", VInt 0);
   ("healthCheck", VDict [("enabled", VBool true)])].

(** A database section that keeps the default password and names no
    database. *)
Definition default_password : dict :=
  [("auth", VDict [("postgresPassword", VStr "changeme")])].

(** An enabled model-serving service without model, persistence or
    enough memory. *)
Definition bare_vllm : dict :=
  [("enabled", VBool true);
   ("resources", VDict [("requests", VDict [("memory", VStr "512Mi")])])].

(** An ai section with that service and an audio processor without
    model. *)
Definition bare_ai : dict :=
  [("vllm", VDict bare_vllm);
   ("audioProcessor", VDict [("enabled", VBool true)])].

(** A chart directory that lists the given values files: the base
    file has nothing to report, any other draws a Warning. *)
Definition listed (listing : list string) : filesystem :=
  {| path_exists := fun _ => true;
     load_yaml := fun path =>
       inr (if PyStr.endswith path "kind-cluster-config.yaml" then sound_cluster
            else if PyStr.endswith path "values.yaml" then clean_values
            else warned_values);
     glob := fun _ _ => listing |}.

(** No [--values-file] and no [--environment]. *)
Definition all_files : arguments :=
  {| values_file := None; environment := None; strict := false |}.

End Examples.
(** * Properties *)

(** ** Facts about strings *)

Module PyStrFacts.
Import PyStr.

Lemma chars_app (a b : string) : chars (a ++ b) = (chars a ++ chars b)%list.
Proof.
  unfold chars. induction a as [|c a IH]; simpl; [reflexivity|].
  now rewrite IH.
Qed.

Lemma of_chars_chars (s : string) : of_chars (chars s) = s.
Proof. apply string_of_list_ascii_of_string. Qed.

Lemma map_chars_app (f : ascii -> ascii) (a b : string) :
  map_chars f (a ++ b) = map_chars f a ++ map_chars f b.
Proof.
  induction a as [|c a IH]; simpl; [reflexivity|].
  now rewrite IH.
Qed.

Lemma upper_app (a b : string) : upper (a ++ b) = upper a ++ upper b.
Proof. apply map_chars_app. Qed.

Lemma lower_app (a b : string) : lower (a ++ b) = lower a ++ lower b.
Proof. apply map_chars_app. Qed.

Lemma list_prefix_app (p l : list ascii) : list_prefix p (p ++ l) = true.
Proof.
  induction p as [|c p IH]; simpl; [reflexivity|].
  now rewrite Ascii.eqb_refl.
Qed.

Lemma endswith_app (a suffix : string) : endswith (a ++ suffix) suffix = true.
Proof.
  unfold endswith. rewrite chars_app, rev_app_distr. apply list_prefix_app.
Qed.

Lemma drop_last_app (a suffix : string) :
  drop_last (String.length suffix) (a ++ suffix) = a.
Proof.
  unfold drop_last. rewrite chars_app, length_app.
  replace (String.length suffix) with (List.length (chars suffix)).
  - rewrite Nat.add_sub, firstn_app, Nat.sub_diag, firstn_all. simpl.
    rewrite app_nil_r. apply of_chars_chars.
  - unfold chars. clear. induction suffix; simpl; congruence.
Qed.

Lemma app_not_empty (a b : string) : b <> "" -> String.eqb (a ++ b) "" = false.
Proof.
  intros Hb. destruct a; simpl; [|reflexivity].
  destruct b; [congruence | reflexivity].
Qed.

(** A suffix test on a text with a known ending is decided by that
    ending when the ending is at least as long as the suffix. *)
Lemma endswith_ending (a ending suffix : string) :
  endswith (a ++ ending) suffix =
  list_prefix (rev (chars suffix)) (rev (chars ending) ++ rev (chars a)).
Proof. unfold endswith. now rewrite chars_app, rev_app_distr. Qed.

End PyStrFacts.

(** ** Numbers are read the same in either case *)

Module PyIntFacts.
Import PyStr PyInt.

(** Putting a text in upper or in lower case changes nothing of what
    the number reader looks at. *)
Section CaseChange.

Variable f : ascii -> ascii.

Hypothesis f_reads : forall c,
  is_space (f c) = is_space c
  /\ is_digit (f c) = is_digit c
  /\ Ascii.eqb (f c) "_" = Ascii.eqb c "_"
  /\ Ascii.eqb (f c) "-" = Ascii.eqb c "-"
  /\ Ascii.eqb (f c) "+" = Ascii.eqb c "+"
  /\ (is_digit c = true -> f c = c).

Lemma chars_map_chars (s : string) : chars (map_chars f s) = map f (chars s).
Proof.
  unfold chars. induction s as [|c s IH]; simpl; [reflexivity|].
  now rewrite IH.
Qed.

Lemma drop_spaces_map (l : list ascii) : drop_spaces (map f l) = map f (drop_spaces l).
Proof.
  induction l as [|c l IH]; [reflexivity|]. cbn [map drop_spaces].
  destruct (f_reads c) as (-> & _). now destruct (is_space c).
Qed.

Lemma strip_map (l : list ascii) : strip (map f l) = map f (strip l).
Proof.
  unfold strip. now rewrite drop_spaces_map, <- map_rev, drop_spaces_map, <- map_rev.
Qed.

Lemma digitpart_map (l : list ascii) (acc : Z) (prev : bool) :
  digitpart acc prev (map f l) = digitpart acc prev l.
Proof.
  revert acc prev. induction l as [|c l IH]; intros acc prev; [reflexivity|].
  cbn [map digitpart].
  destruct (f_reads c) as (_ & -> & -> & _ & _ & Hd).
  destruct (is_digit c).
  - now rewrite (Hd eq_refl), IH.
  - destruct (Ascii.eqb c "_"); [|reflexivity]. destruct prev; [apply IH | reflexivity].
Qed.

Lemma signed_digitpart_map (l : list ascii) :
  signed_digitpart (map f l) = signed_digitpart l.
Proof.
  destruct l as [|c l]; [reflexivity|]. unfold signed_digitpart. cbn [map].
  destruct (f_reads c) as (_ & _ & _ & -> & -> & _).
  destruct (Ascii.eqb c "-"); [now rewrite digitpart_map|].
  destruct (Ascii.eqb c "+"); [now rewrite digitpart_map|].
  apply (digitpart_map (c :: l)).
Qed.

Lemma of_str_map_chars (s : string) : of_str (map_chars f s) = of_str s.
Proof.
  unfold of_str. now rewrite chars_map_chars, strip_map, signed_digitpart_map.
Qed.

End CaseChange.

Lemma upper_char_reads (c : ascii) :
  is_space (upper_char c) = is_space c
  /\ is_digit (upper_char c) = is_digit c
  /\ Ascii.eqb (upper_char c) "_" = Ascii.eqb c "_"
  /\ Ascii.eqb (upper_char c) "-" = Ascii.eqb c "-"
  /\ Ascii.eqb (upper_char c) "+" = Ascii.eqb c "+"
  /\ (is_digit c = true -> upper_char c = c).
Proof.
  destruct c as [b0 b1 b2 b3 b4 b5 b6 b7].
  destruct b0, b1, b2, b3, b4, b5, b6, b7; vm_compute; intuition congruence.
Qed.

Lemma lower_char_reads (c : ascii) :
  is_space (lower_char c) = is_space c
  /\ is_digit (lower_char c) = is_digit c
  /\ Ascii.eqb (lower_char c) "_" = Ascii.eqb c "_"
  /\ Ascii.eqb (lower_char c) "-" = Ascii.eqb c "-"
  /\ Ascii.eqb (lower_char c) "+" = Ascii.eqb c "+"
  /\ (is_digit c = true -> lower_char c = c).
Proof.
  destruct c as [b0 b1 b2 b3 b4 b5 b6 b7].
  destruct b0, b1, b2, b3, b4, b5, b6, b7; vm_compute; intuition congruence.
Qed.

(** [int(s.upper())] and [int(s.lower())] are [int(s)]. *)
Lemma of_str_upper (s : string) : of_str (upper s) = of_str s.
Proof. exact (of_str_map_chars upper_char upper_char_reads s). Qed.

Lemma of_str_lower (s : string) : of_str (lower s) = of_str s.
Proof. exact (of_str_map_chars lower_char lower_char_reads s). Qed.

Lemma digitpart_chars (l : list ascii) (acc : Z) (prev : bool) (n : Z) :
  digitpart acc prev l = Some n -> forall c, In c l -> numeric_char c = true.
Proof.
  revert acc prev. induction l as [|d l IH]; intros acc prev H c Hc; [contradiction|].
  cbn [digitpart] in H. destruct Hc as [<-|Hc].
  - unfold numeric_char. destruct (is_digit d); [reflexivity|].
    destruct (Ascii.eqb d "_"); [reflexivity | discriminate].
  - destruct (is_digit d); [eauto|].
    destruct (Ascii.eqb d "_"); [|discriminate]. destruct prev; [eauto | discriminate].
Qed.

Lemma signed_digitpart_chars (l : list ascii) (n : Z) :
  signed_digitpart l = Some n -> forall c, In c l -> numeric_char c = true.
Proof.
  destruct l as [|d l]; [discriminate|]. unfold signed_digitpart.
  destruct (Ascii.eqb d "-") eqn:Hminus; [|destruct (Ascii.eqb d "+") eqn:Hplus].
  - destruct (digitpart 0 false l) as [k|] eqn:Hk; [|discriminate].
    intros _ c [<-|Hc]; [|eauto using digitpart_chars].
    unfold numeric_char. rewrite Hminus. now rewrite !orb_true_r.
  - intros H c [<-|Hc]; [|eauto using digitpart_chars].
    unfold numeric_char. rewrite Hplus. now rewrite !orb_true_r.
  - intros H c Hc. eauto using digitpart_chars.
Qed.

Lemma drop_spaces_keeps (l : list ascii) (c : ascii) :
  In c l -> is_space c = false -> In c (drop_spaces l).
Proof.
  induction l as [|d l IH]; [contradiction|]. intros Hc Hs. cbn [drop_spaces].
  destruct (is_space d) eqn:Hd; [|exact Hc].
  destruct Hc as [->|Hc]; [congruence | auto].
Qed.

Lemma strip_keeps (l : list ascii) (c : ascii) :
  In c l -> is_space c = false -> In c (strip l).
Proof.
  intros Hc Hs. unfold strip. apply -> in_rev.
  apply drop_spaces_keeps; [|exact Hs]. apply -> in_rev.
  now apply drop_spaces_keeps.
Qed.

(** A text that [int] accepts holds no character other than blanks,
    digits, underscores and signs. *)
Lemma of_str_chars (s : string) (n : Z) (c : ascii) :
  of_str s = Ok n -> In c (chars s) -> is_space c = false -> numeric_char c = true.
Proof.
  unfold of_str. destruct (signed_digitpart (strip (chars s))) as [k|] eqn:Hk; [|discriminate].
  intros _ Hc Hs. eauto using signed_digitpart_chars, strip_keeps.
Qed.

(** A text ends with the last character of each of its suffixes. *)
Lemma endswith_last_char (u suffix : string) (c : ascii) (r : list ascii) :
  rev (chars suffix) = c :: r -> endswith u suffix = true -> In c (chars u).
Proof.
  unfold endswith. intros ->. destruct (rev (chars u)) as [|d t] eqn:Hu; [discriminate|].
  cbn [list_prefix]. intros H. apply andb_prop in H as [H _].
  apply Ascii.eqb_eq in H. subst d. apply in_rev. rewrite Hu. now left.
Qed.

End PyIntFacts.

(** ** Unit parsers *)

Section ParserFacts.
Import PyStr PyStrFacts PyIntFacts.

Lemma upper_suffix_not_empty (suffix u : string) :
  upper suffix = u -> u <> "" -> suffix <> "".
Proof. intros Hu Hne ->. now apply Hne. Qed.

Lemma unsuffixed_tests (s : string) :
  unsuffixed s = true ->
  endswith (upper s) "MI" = false /\ endswith (upper s) "GI" = false
  /\ endswith (upper s) "M" = false /\ endswith (upper s) "G" = false.
Proof.
  unfold unsuffixed. rewrite negb_true_iff, !orb_false_iff. tauto.
Qed.

(** A text that [int] accepts ends in no unit suffix. *)
Lemma numeric_unsuffixed (s : string) (n : Z) : PyInt.of_str s = Ok n -> unsuffixed s = true.
Proof.
  intros Hn. rewrite <- of_str_upper in Hn.
  assert (Hletter : forall suffix c r,
            rev (chars suffix) = c :: r -> is_space c = false -> numeric_char c = false ->
            endswith (upper s) suffix = false).
  { intros suffix c r Hlast Hspace Hnum.
    destruct (endswith (upper s) suffix) eqn:Hend; [|reflexivity].
    apply (endswith_last_char _ _ _ _ Hlast) in Hend.
    apply (of_str_chars _ _ _ Hn) in Hend; congruence. }
  unfold unsuffixed. cbv zeta.
  rewrite (Hletter "MI" "I"%char ["M"%char]), (Hletter "GI" "I"%char ["G"%char]),
    (Hletter "M" "M"%char []), (Hletter "G" "G"%char []); reflexivity.
Qed.

(** [_parse_memory_size] on a text with a suffix in any case. *)
Lemma parse_memory_suffixed (s suffix u : string) :
  upper suffix = u -> u <> "" ->
  _parse_memory_size (VStr (s ++ suffix)) =
    (let t := upper s ++ u in
     if endswith t "MI" then PyInt.of_str (drop_last 2 t)
     else if endswith t "GI" then obind (PyInt.of_str (drop_last 2 t)) (fun n => Ok (n * 1024))
     else if endswith t "M" then PyInt.of_str (drop_last 1 t)
     else if endswith t "G" then obind (PyInt.of_str (drop_last 1 t)) (fun n => Ok (n * 1024))
     else PyInt.of_str t).
Proof.
  intros Hu Hne. unfold _parse_memory_size. simpl truthy.
  rewrite app_not_empty by eauto using upper_suffix_not_empty.
  simpl. now rewrite upper_app, Hu.
Qed.

Ltac suffix_case u :=
  let suffix := fresh "suffix" in
  let Hu := fresh "Hu" in
  intros suffix Hu;
  rewrite (parse_memory_suffixed _ suffix u Hu) by discriminate;
  cbv zeta; rewrite !endswith_ending; simpl list_prefix; cbv iota;
  change (drop_last ?k (?a ++ u)) with (drop_last (String.length u) (a ++ u));
  rewrite drop_last_app.

(** C4. [_parse_memory_size] reads a suffix whatever its case: a
    number followed by Mi or M is that many MB, followed by Gi or G
    it is 1024 times as many; a number with no suffix is taken as MB;
    the empty text gives 0. *)
Theorem parse_memory_size_spec (s : string) (n : Z) :
  PyInt.of_str s = Ok n ->
  (forall suffix, upper suffix = "MI" -> _parse_memory_size (VStr (s ++ suffix)) = Ok n)
  /\ (forall suffix, upper suffix = "GI" ->
        _parse_memory_size (VStr (s ++ suffix)) = Ok (n * 1024))
  /\ (forall suffix, upper suffix = "M" -> _parse_memory_size (VStr (s ++ suffix)) = Ok n)
  /\ (forall suffix, upper suffix = "G" ->
        _parse_memory_size (VStr (s ++ suffix)) = Ok (n * 1024))
  /\ _parse_memory_size (VStr s) = Ok n
  /\ _parse_memory_size (VStr "") = Ok 0.
Proof.
  intros Hn. pose proof (numeric_unsuffixed s n Hn) as Hs.
  rewrite <- of_str_upper in Hn. repeat split; try reflexivity.
  - suffix_case "MI". exact Hn.
  - suffix_case "GI". now rewrite Hn.
  - suffix_case "M". exact Hn.
  - suffix_case "G". now rewrite Hn.
  - apply unsuffixed_tests in Hs as (H1 & H2 & H3 & H4).
    unfold _parse_memory_size. simpl truthy.
    destruct (String.eqb s "") eqn:He.
    + apply String.eqb_eq in He. subst s. discriminate Hn.
    + simpl. now rewrite H1, H2, H3, H4.
Qed.

(** At most one of the four suffix tests succeeds, so the order in
    which a parser tries them does not change its result. *)
Lemma suffix_tests_exclusive (u : string) :
  match endswith u "MI", endswith u "GI", endswith u "M", endswith u "G" with
  | true, false, false, false
  | false, true, false, false
  | false, false, true, false
  | false, false, false, true
  | false, false, false, false => True
  | _, _, _, _ => False
  end.
Proof.
  unfold endswith. cbn [chars list_ascii_of_string rev app].
  destruct (rev (chars u)) as [|c [|d r]]; cbn [list_prefix andb]; trivial;
    repeat match goal with
           | |- context [Ascii.eqb ?x ?y] =>
               destruct (Ascii.eqb_spec x y); try subst; try discriminate;
               cbn [list_prefix andb]
           end; trivial.
Qed.

(** C3. [_parse_storage_size] never raises on a text without a unit
    suffix: it returns the number [int] reads, and [None] when [int]
    rejects the text, the empty text included; a number without
    suffix is taken as MB; wherever [_parse_memory_size] gives a
    number, for a text with a suffix too, [_parse_storage_size] gives
    the same; no size and a size of zero are told apart. *)
Theorem parse_storage_size_total :
  (forall s, unsuffixed s = true ->
     _parse_storage_size (VStr s) =
       Ok (match PyInt.of_str s with Ok n => Some n | Raise _ => None end))
  /\ (forall s n, PyInt.of_str s = Ok n -> _parse_storage_size (VStr s) = Ok (Some n))
  /\ (forall v n, truthy v = true -> _parse_memory_size v = Ok n ->
        _parse_storage_size v = Ok (Some n))
  /\ _parse_storage_size (VStr "") = Ok None
  /\ _parse_storage_size (VStr "garbage") = Ok None
  /\ _parse_storage_size (VStr "10Gi") = Ok (Some 10240)
  /\ _parse_storage_size (VStr "500") = Ok (Some 500)
  /\ _parse_storage_size (VStr "0") = Ok (Some 0).
Proof.
  assert (Hplain : forall s, unsuffixed s = true ->
            _parse_storage_size (VStr s) =
              Ok (match PyInt.of_str s with Ok n => Some n | Raise _ => None end)).
  { intros s Hs. apply unsuffixed_tests in Hs as (H1 & H2 & H3 & H4).
    unfold _parse_storage_size. simpl truthy.
    destruct (String.eqb s "") eqn:He.
    - apply String.eqb_eq in He. now subst s.
    - simpl. rewrite H1, H2, H3, H4, of_str_upper.
      destruct (PyInt.of_str s) as [n|e] eqn:Hn; [reflexivity|].
      unfold PyInt.of_str in Hn.
      destruct (PyInt.signed_digitpart _); [discriminate|].
      now injection Hn as <-. }
  repeat apply conj; try reflexivity.
  - exact Hplain.
  - intros s n Hn. rewrite Hplain by eauto using numeric_unsuffixed. now rewrite Hn.
  - intros v n Hv. unfold _parse_memory_size, _parse_storage_size. rewrite Hv. simpl.
    set (u := upper (py_str v)).
    pose proof (suffix_tests_exclusive u) as Hx.
    destruct (endswith u "MI"), (endswith u "GI"), (endswith u "M"), (endswith u "G");
      try contradiction; simpl;
      destruct (PyInt.of_str _) as [k|e]; simpl; intros Hk;
      try discriminate; injection Hk as <-; reflexivity.
Qed.

End ParserFacts.

(** ** Findings are only appended *)

Section AppendOnly.
Local Open Scope method_scope.

Lemma prefix_refl {A : Type} (l : list A) : prefix l l.
Proof. exists []. now rewrite app_nil_r. Qed.

Lemma prefix_trans {A : Type} (l1 l2 l3 : list A) :
  prefix l1 l2 -> prefix l2 l3 -> prefix l1 l3.
Proof. intros [k ->] [k' ->]. exists (k ++ k')%list. now rewrite app_assoc. Qed.

Lemma prefix_snoc {A : Type} (l : list A) (x : A) : prefix l (l ++ [x]).
Proof. now exists [x]. Qed.

Lemma extends_refl (self : ConfigValidator) : extends self self.
Proof. split; apply prefix_refl. Qed.

Lemma extends_trans (a b c : ConfigValidator) :
  extends a b -> extends b c -> extends a c.
Proof. intros [? ?] [? ?]. split; eauto using prefix_trans. Qed.

Lemma appends_only_ret {A : Type} (a : A) : appends_only (ret a).
Proof. intros self. apply extends_refl. Qed.

Lemma appends_only_lift {A : Type} (o : outcome A) : appends_only (lift o).
Proof. intros self. apply extends_refl. Qed.

Lemma appends_only_get_self : appends_only get_self.
Proof. intros self. apply extends_refl. Qed.

Lemma appends_only_errors_append (msg : string) : appends_only (errors_append msg).
Proof. intros self. split; simpl; [apply prefix_snoc | apply prefix_refl]. Qed.

Lemma appends_only_warnings_append (msg : string) : appends_only (warnings_append msg).
Proof. intros self. split; simpl; [apply prefix_refl | apply prefix_snoc]. Qed.

Lemma appends_only_bind {A B : Type} (m : M A) (k : A -> M B) :
  appends_only m -> (forall a, appends_only (k a)) -> appends_only (bind m k).
Proof.
  intros Hm Hk self. unfold bind. specialize (Hm self).
  destruct (m self) as [[a|e] self']; simpl in *; [|exact Hm].
  eapply extends_trans; [exact Hm | apply Hk].
Qed.

Lemma appends_only_when (b : bool) (m : M unit) :
  appends_only m -> appends_only (when b m).
Proof. destruct b; simpl; auto using appends_only_ret. Qed.

Lemma appends_only_and_then (a b : M bool) :
  appends_only a -> appends_only b -> appends_only (and_then a b).
Proof.
  intros Ha Hb. apply appends_only_bind; [exact Ha|].
  intros []; auto using appends_only_ret.
Qed.

Lemma appends_only_for_each {A : Type} (l : list A) (body : A -> M unit) :
  (forall x, appends_only (body x)) -> appends_only (for_each l body).
Proof.
  intros Hb. induction l as [|x l IH]; simpl.
  - apply appends_only_ret.
  - apply appends_only_bind; auto.
Qed.

Lemma appends_only_for_fold {A S : Type} (l : list A) (body : A -> S -> M S) (s : S) :
  (forall x t, appends_only (body x t)) -> appends_only (for_fold l body s).
Proof.
  intros Hb. revert s. induction l as [|x l IH]; intros s; simpl.
  - apply appends_only_ret.
  - apply appends_only_bind; auto.
Qed.

End AppendOnly.

Create HintDb findings.
#[export] Hint Resolve appends_only_ret appends_only_lift appends_only_get_self
  appends_only_errors_append appends_only_warnings_append : findings.

(** One step of a proof that a method only appends: follow the
    structure of its body. *)
Ltac append_only_step :=
  first
    [ solve [auto with findings]
    | apply appends_only_bind; [|intro]
    | apply appends_only_when
    | apply appends_only_and_then
    | apply appends_only_for_each; intro
    | apply appends_only_for_fold; intros
    | match goal with
      | |- appends_only (if ?b then _ else _) => destruct b
      | |- appends_only (match ?x with _ => _ end) => destruct x
      end
    | progress cbv zeta ].

Ltac append_only := repeat append_only_step.

Section ValidatorsAppendOnly.

Lemma ratio_appends_only (resources : value) (service : string) :
  appends_only (_validate_resource_ratio resources service).
Proof. unfold _validate_resource_ratio. append_only. Qed.

Hint Resolve ratio_appends_only : findings.

Lemma api_appends_only (api_config : value) : appends_only (_validate_api_config api_config).
Proof. unfold _validate_api_config. append_only. Qed.

Lemma database_appends_only (db_config : value) :
  appends_only (_validate_database_config db_config).
Proof. unfold _validate_database_config. append_only. Qed.

Lemma ai_appends_only (ai_config : value) : appends_only (_validate_ai_config ai_config).
Proof. unfold _validate_ai_config. append_only. Qed.

Lemma add_requests_appends_only (resources : value) (totals : Z * Z) :
  appends_only (add_requests resources totals).
Proof. unfold add_requests. append_only. Qed.

Hint Resolve add_requests_appends_only : findings.

Lemma limits_appends_only (values : value) : appends_only (_validate_resource_limits values).
Proof. unfold _validate_resource_limits. append_only. Qed.

Lemma storage_appends_only (values : value) : appends_only (_validate_storage_config values).
Proof. unfold _validate_storage_config. append_only. Qed.

Hint Resolve api_appends_only database_appends_only ai_appends_only
  limits_appends_only storage_appends_only : findings.

Variable fs : filesystem.

Lemma helm_values_appends_only (file : string) : appends_only (validate_helm_values fs file).
Proof. unfold validate_helm_values. append_only. Qed.

Lemma chart_structure_appends_only : appends_only (validate_chart_structure fs).
Proof. unfold validate_chart_structure. append_only. Qed.

Lemma control_plane_of_appends_only (nodes : list value) :
  appends_only (control_plane_of nodes).
Proof.
  induction nodes as [|n r IH]; simpl; [auto with findings|].
  unfold is_control_plane. append_only.
Qed.

Hint Resolve control_plane_of_appends_only : findings.

Lemma kind_config_appends_only : appends_only (validate_kind_config fs).
Proof. unfold validate_kind_config, is_control_plane. append_only. Qed.

Hint Resolve helm_values_appends_only chart_structure_appends_only
  kind_config_appends_only : findings.

Lemma run_validations_appends_only (args : arguments) :
  appends_only (run_validations fs args).
Proof. unfold run_validations. append_only. Qed.

(** C9. Every validator only appends to the errors and to the
    warnings: after a call, whether it returned or raised, the
    errors before it are a prefix of the errors after it, and
    likewise the warnings. *)
Theorem validators_append_only :
  (forall resources service, appends_only (_validate_resource_ratio resources service))
  /\ (forall api_config, appends_only (_validate_api_config api_config))
  /\ (forall db_config, appends_only (_validate_database_config db_config))
  /\ (forall ai_config, appends_only (_validate_ai_config ai_config))
  /\ (forall values, appends_only (_validate_resource_limits values))
  /\ (forall values, appends_only (_validate_storage_config values))
  /\ (forall file, appends_only (validate_helm_values fs file))
  /\ appends_only (validate_chart_structure fs)
  /\ appends_only (validate_kind_config fs)
  /\ (forall args, appends_only (run_validations fs args)).
Proof.
  repeat refine (conj _ _).
  - exact ratio_appends_only.
  - exact api_appends_only.
  - exact database_appends_only.
  - exact ai_appends_only.
  - exact limits_appends_only.
  - exact storage_appends_only.
  - exact helm_values_appends_only.
  - exact chart_structure_appends_only.
  - exact kind_config_appends_only.
  - exact run_validations_appends_only.
Qed.

End ValidatorsAppendOnly.

(** ** Running methods *)

Section Running.

Lemma with_findings_nil (self : ConfigValidator) : with_findings self [] [] = self.
Proof. destruct self. unfold with_findings. simpl. now rewrite !app_nil_r. Qed.

Lemma with_findings_twice (self : ConfigValidator) (es ws es' ws' : list string) :
  with_findings (with_findings self es ws) es' ws' = with_findings self (es ++ es') (ws ++ ws').
Proof. unfold with_findings. simpl. now rewrite !app_assoc. Qed.

Lemma errors_append_run (msg : string) (self : ConfigValidator) :
  errors_append msg self = (Ok tt, with_findings self [msg] []).
Proof. unfold errors_append, with_findings. now rewrite app_nil_r. Qed.

Lemma warnings_append_run (msg : string) (self : ConfigValidator) :
  warnings_append msg self = (Ok tt, with_findings self [] [msg]).
Proof. unfold warnings_append, with_findings. now rewrite app_nil_r. Qed.

Lemma bind_run {A B : Type} (m : M A) (k : A -> M B) (self self' : ConfigValidator) (a : A) :
  m self = (Ok a, self') -> bind m k self = k a self'.
Proof. intros H. unfold bind. now rewrite H. Qed.

Lemma lift_run {A : Type} (o : outcome A) (a : A) (self : ConfigValidator) :
  o = Ok a -> lift o self = (Ok a, self).
Proof. now intros ->. Qed.

Lemma and_then_true_run (m : M bool) (self : ConfigValidator) r :
  m self = r -> and_then (ret true) m self = r.
Proof. now intros <-. Qed.

Lemma and_then_false_run (m : M bool) (self : ConfigValidator) :
  and_then (ret false) m self = (Ok false, self).
Proof. reflexivity. Qed.

End Running.

(** [bind_step H]: the first statement of the method runs as [H]
    says. *)
Ltac bind_step H :=
  match goal with
  | |- context [bind ?m ?k ?self] => rewrite (bind_run m k self _ _ H)
  end.

(** [lift_step H]: the first statement is a read whose result [H]
    gives. *)
Ltac lift_step H :=
  match goal with
  | |- context [bind (lift ?o) ?k ?self] =>
      rewrite (bind_run (lift o) k self _ _ (lift_run o _ self H))
  end.

Section ResourceRatio.




End ResourceRatio.

(** ** The database validator *)

Section Database.
Local Open Scope method_scope.

Lemma keeps_errors_ret {A : Type} (a : A) : keeps_errors (ret a).
Proof. now intros self. Qed.

Lemma keeps_errors_lift {A : Type} (o : outcome A) : keeps_errors (lift o).
Proof. now intros self. Qed.

Lemma keeps_errors_warnings_append (msg : string) : keeps_errors (warnings_append msg).
Proof. now intros self. Qed.

Lemma keeps_errors_bind {A B : Type} (m : M A) (k : A -> M B) :
  keeps_errors m -> (forall a, keeps_errors (k a)) -> keeps_errors (bind m k).
Proof.
  intros Hm Hk self. unfold bind. specialize (Hm self).
  destruct (m self) as [[a|e] self']; simpl in *; [|exact Hm].
  now rewrite Hk.
Qed.

Lemma keeps_errors_when (b : bool) (m : M unit) : keeps_errors m -> keeps_errors (when b m).
Proof. destruct b; simpl; auto using keeps_errors_ret. Qed.

(** Statements that keep the errors can be dropped from the end of a
    method when only the errors are read. *)
Lemma errors_before_tail {A B : Type} (m : M A) (k : A -> M B) (self : ConfigValidator) :
  (forall a, keeps_errors (k a)) ->
  errors (snd (bind m k self)) = errors (snd (m self)).
Proof.
  intros Hk. unfold bind. destruct (m self) as [[a|e] self']; simpl; [|reflexivity].
  apply Hk.
Qed.

(** The authentication checks of the database validator only warn. *)
Lemma auth_checks_keep_errors (db_config : value) :
  keeps_errors
    (auth <- lift (py_get db_config "auth" (VDict [])) ;;
     database <- lift (py_get auth "database" VNone) ;;
     when (negb (truthy database)) (warnings_append "Database name not specified") ;;
     password <- lift (py_get auth "postgresPassword" (VStr "")) ;;
     when (eq_str password "changeme")
       (warnings_append "Default database password detected - change for production")).
Proof.
  repeat first [ apply keeps_errors_bind; [|intro]
               | apply keeps_errors_when
               | apply keeps_errors_lift
               | apply keeps_errors_warnings_append ].
Qed.

(** C2, as the code has it. With database persistence enabled, the
    Error "Invalid database storage size" is appended exactly when
    the configured size is empty or absent, or parses to an absent
    result, or parses to zero; a size that parses to a number other
    than zero appends no such Error. *)
Theorem validate_database_config_size
    (db_config primary persistence : dict) (enabled : value) (self : ConfigValidator) :
  lookup "primary" db_config = Some (VDict primary) ->
  lookup "persistence" primary = Some (VDict persistence) ->
  lookup "enabled" persistence = Some enabled ->
  truthy enabled = true ->
  errors (snd (_validate_database_config (VDict db_config) self)) =
    (errors self ++
       (if size_rejected (get_or persistence "size" (VStr ""))
        then ["Invalid database storage size"] else []))%list.
Proof.
  intros Hprimary Hpers Hen Htrue.
  unfold _validate_database_config.
  assert (Hfirst :
    and_then (lift (py_in "primary" (VDict db_config)))
      (primary <- lift (py_getitem (VDict db_config) "primary") ;;
       lift (py_in "persistence" primary)) self = (Ok true, self)).
  { unfold and_then, bind, lift, ret, py_in, py_getitem.
    now rewrite Hprimary, Hpers. }
  bind_step Hfirst.
  rewrite errors_before_tail by (intros _; apply auth_checks_keep_errors).
  unfold when at 1, bind, lift, ret, py_getitem, py_get.
  rewrite Hprimary, Hpers, Hen, Htrue. cbn [when].
  fold (get_or persistence "size" (VStr "")). unfold size_rejected.
  destruct (truthy (get_or persistence "size" (VStr ""))).
  - cbn [negb]. destruct (_parse_storage_size _) as [[n|]|e]; cbn [truthy_opt negb snd when].
    + destruct (n =? 0); cbn [negb when]; [reflexivity|]. simpl. now rewrite app_nil_r.
    + reflexivity.
    + simpl. now rewrite app_nil_r.
  - reflexivity.
Qed.

End Database.

(** ** The capacity check *)

Section Capacity.
Local Open Scope method_scope.

(** The requests of a resources holder are added to the totals. *)
Lemma add_requests_run (holder : dict) (cpu memory : Z) (totals : Z * Z)
    (self : ConfigValidator) :
  contributes (Some holder) cpu memory ->
  (resources <- lift (py_get (VDict holder) "resources" (VDict [])) ;;
   add_requests resources totals) self
  = (Ok (fst totals + cpu, snd totals + memory), self).
Proof.
  intros H. inversion H as [|h Hres|h res Hres Hreq|h res req c m Hres Hreq Hcpu Hmem]; subst;
    unfold add_requests, bind, lift, ret, py_get, py_in, py_getitem; rewrite Hres; cbn [lookup].
  - rewrite !Z.add_0_r. now destruct totals.
  - rewrite Hreq, !Z.add_0_r. now destruct totals.
  - rewrite Hreq. fold (get_or req "cpu" (VStr "0")). rewrite Hcpu.
    fold (get_or req "memory" (VStr "0")). now rewrite Hmem.
Qed.

Lemma section_of_in (d : dict) (k : string) (s : option dict) :
  section_of d k s -> py_in k (VDict d) = Ok (is_some s).
Proof.
  unfold section_of, py_in. destruct (lookup k d) as [[]|]; try contradiction;
    now intros ->.
Qed.

Lemma section_of_getitem (d : dict) (k : string) (x : dict) :
  section_of d k (Some x) -> py_getitem (VDict d) k = Ok (VDict x).
Proof.
  unfold section_of, py_getitem. destruct (lookup k d) as [[]|]; try contradiction;
    try discriminate. now intros [= ->].
Qed.

(** One turn of the first loop: a top-level service. *)
Lemma service_turn (d : dict) (service : string) (s : option dict) (cpu memory : Z)
    (totals : Z * Z) (self : ConfigValidator) :
  section_of d service s ->
  contributes s cpu memory ->
  (present <- lift (py_in service (VDict d)) ;;
   if present then
     section <- lift (py_getitem (VDict d) service) ;;
     resources <- lift (py_get section "resources" (VDict [])) ;;
     add_requests resources totals
   else ret totals) self
  = (Ok (fst totals + cpu, snd totals + memory), self).
Proof.
  intros Hs Hc. lift_step (section_of_in _ _ _ Hs).
  destruct s as [x|]; cbn [is_some].
  - lift_step (section_of_getitem _ _ _ Hs). now apply add_requests_run.
  - inversion Hc; subst. rewrite !Z.add_0_r. now destruct totals.
Qed.

(** The resources holder of a database or cache service, read as the
    second loop reads it. *)
Lemma subsection_of_reads (d : dict) (k sub : string) (s : option dict) :
  subsection_of d k sub s ->
  exists present : bool,
    py_in k (VDict d) = Ok present /\
    (present = false -> s = None) /\
    (present = true ->
       exists x, py_getitem (VDict d) k = Ok (VDict x)
                 /\ py_in sub (VDict x) = Ok (is_some s)
                 /\ forall h, s = Some h -> py_getitem (VDict x) sub = Ok (VDict h)).
Proof.
  intros (section & Hsec & Hsub). exists (is_some section).
  split; [now apply section_of_in|].
  destruct section as [x|]; cbn [is_some]; split; try discriminate; intros _; [|exact Hsub].
  exists x. split; [now apply section_of_getitem|].
  split; [now apply section_of_in|].
  intros h ->. now apply section_of_getitem.
Qed.

(** C5, as the code has it. For values in which the api, frontend,
    postgresql and redis sections, the primary and master parts of
    the last two, and the resources and requests entries of these
    services are each absent or a mapping, and in which every cpu
    and memory request given is a quantity the unit parsers read:
    the capacity check adds up the CPU and the memory requests of
    the api and frontend sections, of postgresql.primary and of
    redis.master, a service that is absent or has no resources entry
    or no requests entry adding nothing; it appends one Warning that
    shows the CPU total when that total is above 4000 millicores,
    one Warning when the memory total is above 8192 MB, and nothing
    else. *)
Theorem validate_resource_limits_spec
    (values : dict) (self : ConfigValidator)
    (api frontend primary master : option dict)
    (c1 m1 c2 m2 c3 m3 c4 m4 : Z) :
  section_of values "api" api ->
  section_of values "frontend" frontend ->
  subsection_of values "postgresql" "primary" primary ->
  subsection_of values "redis" "master" master ->
  contributes api c1 m1 ->
  contributes frontend c2 m2 ->
  contributes primary c3 m3 ->
  contributes master c4 m4 ->
  _validate_resource_limits (VDict values) self =
    (Ok tt,
     with_findings self []
       (capacity_warnings (c1 + c2 + c3 + c4) (m1 + m2 + m3 + m4))).
Proof.
  intros Hapi Hfe Hpg Hrd C1 C2 C3 C4.
  unfold _validate_resource_limits.
  match goal with
  | |- context [for_fold ["api"; "frontend"] ?body ?t] =>
      assert (Hloop1 : for_fold ["api"; "frontend"] body t self
                       = (Ok (c1 + c2, m1 + m2), self))
  end.
  { cbn [for_fold].
    bind_step (service_turn values "api" api c1 m1 (0, 0) self Hapi C1).
    bind_step (service_turn values "frontend" frontend c2 m2 (0 + c1, 0 + m1) self Hfe C2).
    reflexivity. }
  bind_step Hloop1.
  match goal with
  | |- context [for_fold ["postgresql"; "redis"] ?body ?t] =>
      assert (Hloop2 : for_fold ["postgresql"; "redis"] body t self
                       = (Ok (c1 + c2 + c3 + c4, m1 + m2 + m3 + m4), self))
  end.
  { apply subsection_of_reads in Hpg as (p1 & Hin1 & Hno1 & Hyes1).
    apply subsection_of_reads in Hrd as (p2 & Hin2 & Hno2 & Hyes2).
    match goal with
    | |- for_fold _ ?body _ _ = _ =>
        assert (Hturn1 : forall t, body "postgresql" t self
                                   = (Ok (fst t + c3, snd t + m3), self));
        [ intros t; cbv beta
        | assert (Hturn2 : forall t, body "redis" t self
                                     = (Ok (fst t + c4, snd t + m4), self));
          [ intros t; cbv beta | ] ]
    end.
    - lift_step Hin1. destruct p1.
      + destruct (Hyes1 eq_refl) as (x & Hget & Hsub & Hh).
        assert (Hcond :
          (section <- lift (py_getitem (VDict values) "postgresql") ;;
           lift (py_in "primary" section)) self = (Ok (is_some primary), self)).
        { lift_step Hget. now apply lift_run. }
        bind_step (and_then_true_run _ _ _ Hcond).
        destruct primary as [h|]; cbn [is_some].
        * lift_step Hget. lift_step (Hh h eq_refl). now apply add_requests_run.
        * bind_step (and_then_false_run
                       (section <- lift (py_getitem (VDict values) "postgresql") ;;
                        lift (py_in "master" section)) self).
          inversion C3; subst. unfold ret. rewrite !Z.add_0_r. now destruct t.
      + rewrite (Hno1 eq_refl) in C3. inversion C3; subst.
        unfold ret. rewrite !Z.add_0_r. now destruct t.
    - lift_step Hin2. destruct p2.
      + destruct (Hyes2 eq_refl) as (x & Hget & Hsub & Hh).
        bind_step (and_then_false_run
                     (section <- lift (py_getitem (VDict values) "redis") ;;
                      lift (py_in "primary" section)) self).
        assert (Hcond :
          (section <- lift (py_getitem (VDict values) "redis") ;;
           lift (py_in "master" section)) self = (Ok (is_some master), self)).
        { lift_step Hget. now apply lift_run. }
        bind_step (and_then_true_run _ _ _ Hcond).
        destruct master as [h|]; cbn [is_some].
        * lift_step Hget. lift_step (Hh h eq_refl). now apply add_requests_run.
        * inversion C4; subst. unfold ret. rewrite !Z.add_0_r. now destruct t.
      + rewrite (Hno2 eq_refl) in C4. inversion C4; subst.
        unfold ret. rewrite !Z.add_0_r. now destruct t.
    - cbn [for_fold].
      bind_step (Hturn1 (c1 + c2, m1 + m2)).
      bind_step (Hturn2 (fst (c1 + c2, m1 + m2) + c3, snd (c1 + c2, m1 + m2) + m3)).
      reflexivity. }
  bind_step Hloop2. cbn [fst snd].
  unfold capacity_warnings.
  destruct (c1 + c2 + c3 + c4 >? 4000), (m1 + m2 + m3 + m4 >? 8192);
    unfold when, bind, ret;
    rewrite ?warnings_append_run, ?with_findings_twice, ?with_findings_nil;
    reflexivity.
Qed.

End Capacity.

(** ** Division by 1024 and its text *)

Module PyFloatFacts.
Import PyFloat.

Lemma round_half_even_scale (a b c : Z) :
  0 < b -> 0 < c -> round_half_even (a * c) (b * c) = round_half_even a b.
Proof.
  intros Hb Hc. unfold round_half_even.
  rewrite Z.div_mul_cancel_r, Z.mul_mod_distr_r by lia.
  replace (2 * (a mod b * c) ?= b * c) with (2 * (a mod b) ?= b); [reflexivity|].
  destruct (Z.compare_spec (2 * (a mod b)) b) as [H|H|H]; symmetry.
  - apply Z.compare_eq_iff. nia.
  - apply Z.compare_lt_iff. nia.
  - apply Z.compare_gt_iff. nia.
Qed.

Lemma round_half_even_exact (a b : Z) : 0 < b -> round_half_even (a * b) b = a.
Proof.
  intros Hb. unfold round_half_even. rewrite Z.mod_mul, Z.div_mul by lia.
  simpl. now destruct b.
Qed.

(** For an int below [2^53], true division by 1024 is exact. *)
Lemma of_ratio_1024 (p : Z) :
  0 < p < 2 ^ 53 ->
  of_ratio false p 1024 = Finite false (p * 2 ^ (52 - Z.log2 p)) (Z.log2 p - 62).
Proof.
  intros Hp. pose proof (Z.log2_nonneg p) as Hl0.
  assert (Hl : Z.log2 p < 53) by (apply Z.log2_lt_pow2; lia).
  destruct (Z.log2_spec p) as [Hlow _]; [lia|].
  unfold of_ratio. destruct (Z.eqb_spec p 0); [lia|].
  change (Z.log2 1024) with 10.
  assert (Hbelow : (if 0 <=? Z.log2 p - 10 then p <? 1024 * 2 ^ (Z.log2 p - 10)
                    else p * 2 ^ (- (Z.log2 p - 10)) <? 1024) = false).
  { destruct (Z.leb_spec 0 (Z.log2 p - 10)).
    - apply Z.ltb_ge. change 1024 with (2 ^ 10). rewrite <- Z.pow_add_r by lia.
      now replace (10 + (Z.log2 p - 10)) with (Z.log2 p) by lia.
    - apply Z.ltb_ge. change 1024 with (2 ^ 10).
      replace 10 with (Z.log2 p + (- (Z.log2 p - 10))) at 1 by lia.
      rewrite Z.pow_add_r by lia. apply Z.mul_le_mono_nonneg_r; [|exact Hlow].
      apply Z.pow_nonneg. lia. }
  rewrite Hbelow. cbv zeta.
  replace (Z.max (Z.log2 p - 10 - 52) (-1074)) with (Z.log2 p - 62) by lia.
  destruct (Z.leb_spec 0 (Z.log2 p - 62)); [lia|]. cbn [andb].
  replace (- (Z.log2 p - 62)) with (52 - Z.log2 p + 10) by lia.
  rewrite Z.pow_add_r by lia. change (2 ^ 10) with 1024.
  now rewrite Z.mul_assoc, round_half_even_exact.
Qed.

(** Below [2^53] MB the text of a total in GB is its exact quotient
    by 1024 to one decimal place. *)
Lemma truediv_one_decimal (total : Z) :
  0 < total < 2 ^ 53 ->
  exists gb, int_truediv total 1024 = Ok gb /\ format_1f gb = one_decimal total 1024.
Proof.
  intros Ht. pose proof (Z.log2_nonneg total) as Hl0.
  assert (Hl : Z.log2 total < 53) by (apply Z.log2_lt_pow2; lia).
  unfold int_truediv. change (1024 =? 0) with false. change (1024 <? 0) with false.
  destruct (Z.ltb_spec total 0); [lia|]. cbn [xorb].
  rewrite Z.abs_eq by lia. change (Z.abs 1024) with 1024.
  rewrite of_ratio_1024 by exact Ht.
  eexists. split; [reflexivity|].
  unfold format_1f, one_decimal.
  destruct (Z.leb_spec 0 (Z.log2 total - 62)); [lia|].
  replace (- (Z.log2 total - 62)) with (10 + (52 - Z.log2 total)) by lia.
  rewrite Z.pow_add_r by lia. change (2 ^ 10) with 1024.
  replace (total * 2 ^ (52 - Z.log2 total) * 10)
    with (10 * total * 2 ^ (52 - Z.log2 total)) by ring.
  rewrite round_half_even_scale; [reflexivity | lia | apply Z.pow_pos_nonneg; lia].
Qed.

End PyFloatFacts.

(** ** The storage check *)

Section Storage.
Local Open Scope method_scope.

Lemma add_if_nonzero (total size : Z) :
  (if negb (size =? 0) then total + size else total) = total + size.
Proof. destruct (Z.eqb_spec size 0) as [->|]; simpl; lia. Qed.

(** A service whose persistence is not enabled takes no storage. *)
Lemma storage_size_disabled (values : dict) (section part : string) (a b p : dict) :
  (section, part) = ("postgresql", "primary") \/ (section, part) = ("redis", "master") ->
  lookup section values = Some (VDict a) ->
  lookup part a = Some (VDict b) ->
  lookup "persistence" b = Some (VDict p) ->
  truthy (get_or p "enabled" VNone) = false ->
  _get_service_storage_size (VDict values) section = Ok 0.
Proof.
  intros [[= -> ->]|[= -> ->]] Ha Hb Hp He;
    unfold _get_service_storage_size; cbn [String.eqb Ascii.eqb Bool.eqb obind py_get];
    rewrite Ha; cbn [obind py_get]; rewrite Hb; cbn [obind py_get]; rewrite Hp;
    cbn [obind py_get]; fold (get_or p "enabled" VNone); now rewrite He.
Qed.

(** C8, as the code has it. For values whose global entry is absent
    or a mapping, whose ai entry is absent or answers the membership
    test, and from which the storage of each counted service is read
    without an exception: the storage check warns when no global
    storage class is set; it adds up the storage of the database and
    cache services and, when the values hold an ai.vllm section, of
    the model-serving service, each counted while its persistence is
    enabled; a total above 100 x 1024 MB appends one Warning that
    shows the total in GB with one decimal, unless the quotient by
    1024 is beyond the floats, in which case the check raises
    [OverflowError] and appends no size warning; no other total
    appends a size warning. Below 2^53 MB the decimal shown is the
    exact quotient by 1024 rounded to the nearest tenth. *)
Theorem validate_storage_config_spec
    (values : dict) (self : ConfigValidator) (storage_class : value) (has_vllm : bool)
    (db cache vllm : Z) :
  storage_class_of values storage_class ->
  vllm_present values has_vllm ->
  _get_service_storage_size (VDict values) "postgresql" = Ok db ->
  _get_service_storage_size (VDict values) "redis" = Ok cache ->
  (has_vllm = true -> _get_service_storage_size (VDict values) "vllm" = Ok vllm) ->
  let total := db + cache + (if has_vllm then vllm else 0) in
  _validate_storage_config (VDict values) self =
    match size_warning total with
    | Ok ws => (Ok tt, with_findings self [] (class_warning storage_class ++ ws))
    | Raise e => (Raise e, with_findings self [] (class_warning storage_class))
    end
  /\ (total < 2 ^ 53 ->
      size_warning total =
        Ok (if total >? 100 * 1024 then
              ["Total storage requests (" ++ one_decimal total 1024
                 ++ "GB) are quite large for development"]
            else []))
  /\ (forall e, size_warning total = Raise e -> e = OverflowError /\ 100 * 1024 < total)
  /\ (forall ws, size_warning total = Ok ws ->
        if total >? 100 * 1024 then exists text, ws = [text] else ws = []).
Proof.
  intros Hclass Hvllm Hdb Hcache Hv total. split; [|repeat apply conj].
  2: { intros Hbound. unfold size_warning.
       destruct (total >? 100 * 1024) eqn:Hbig; [|reflexivity].
       apply Z.gtb_gt in Hbig.
       destruct (PyFloatFacts.truediv_one_decimal total) as (gb & Hdiv & Htext); [lia|].
       rewrite Hdiv. cbn [obind]. now rewrite Htext. }
  2: { intros e. unfold size_warning.
       destruct (total >? 100 * 1024) eqn:Hbig; [|discriminate].
       apply Z.gtb_gt in Hbig. unfold PyFloat.int_truediv.
       change (1024 =? 0) with false. cbv iota.
       destruct (PyFloat.of_ratio _ _ _); cbn [obind]; try discriminate.
       intros [= <-]. split; [reflexivity | lia]. }
  2: { intros ws. unfold size_warning.
       destruct (total >? 100 * 1024); [|now intros [= <-]].
       destruct (PyFloat.int_truediv total 1024); cbn [obind]; [|discriminate].
       intros [= <-]. eauto. }
  unfold _validate_storage_config.
  assert (Hsc : exists g, py_get (VDict values) "global" (VDict []) = Ok (VDict g)
                          /\ py_get (VDict g) "storageClass" (VStr "") = Ok storage_class).
  { unfold storage_class_of in Hclass. unfold py_get.
    destruct (lookup "global" values) as [[]|]; try contradiction; subst; eauto. }
  destruct Hsc as (g & Hg & Hsc).
  lift_step Hg. lift_step Hsc.
  assert (Hwarn :
    when (negb (truthy storage_class)) (warnings_append "Global storage class not specified")
      self
    = (Ok tt, with_findings self [] (class_warning storage_class))).
  { unfold class_warning. destruct (truthy storage_class); cbn [negb when].
    - unfold ret. now rewrite with_findings_nil.
    - apply warnings_append_run. }
  bind_step Hwarn.
  set (self1 := with_findings self [] _).
  assert (Hhas :
    and_then (lift (py_in "ai" (VDict values)))
      (ai <- lift (py_getitem (VDict values) "ai") ;; lift (py_in "vllm" ai)) self1
    = (Ok has_vllm, self1)).
  { unfold vllm_present in Hvllm. unfold and_then, bind, lift, ret, py_in at 1, py_getitem.
    destruct (lookup "ai" values); [now rewrite Hvllm | now subst]. }
  bind_step Hhas. cbv zeta.
  match goal with
  | |- context [for_fold ?l ?body 0] =>
      assert (Hturn : forall service size t,
                _get_service_storage_size (VDict values) service = Ok size ->
                body service t self1 = (Ok (t + size), self1));
      [ intros service size t Hsize; cbv beta; lift_step Hsize;
        unfold ret; now rewrite add_if_nonzero
      | assert (Hloop : for_fold l body 0 self1 = (Ok total, self1)) ]
  end.
  { subst total. destruct has_vllm; cbn [app for_fold].
    - bind_step (Hturn "postgresql" db 0 Hdb).
      bind_step (Hturn "redis" cache (0 + db) Hcache).
      bind_step (Hturn "vllm" vllm (0 + db + cache) (Hv eq_refl)).
      reflexivity.
    - bind_step (Hturn "postgresql" db 0 Hdb).
      bind_step (Hturn "redis" cache (0 + db) Hcache).
      unfold ret. now rewrite Z.add_0_r. }
  bind_step Hloop.
  unfold size_warning.
  destruct (total >? 100 * 1024); cbn [when].
  - unfold bind, lift. destruct (PyFloat.int_truediv total 1024) as [gb|e]; cbn [obind].
    + rewrite warnings_append_run. subst self1. now rewrite with_findings_twice.
    + reflexivity.
  - unfold ret. subst self1. now rewrite app_nil_r.
Qed.

End Storage.

(** ** The cluster-bootstrap check *)

Section KindConfig.
Local Open Scope method_scope.

Lemma is_control_plane_run (node : dict) (self : ConfigValidator) :
  is_control_plane (VDict node) self = (Ok (control_plane node), self).
Proof. reflexivity. Qed.

Lemma control_plane_of_run (nodes : list dict) (self : ConfigValidator) :
  control_plane_of (map VDict nodes) self
  = (Ok (map VDict (filter control_plane nodes)), self).
Proof.
  induction nodes as [|n r IH]; [reflexivity|].
  cbn [map control_plane_of filter].
  bind_step (is_control_plane_run n self). bind_step IH.
  unfold ret. now destruct (control_plane n).
Qed.

Lemma no_control_plane (nodes : list dict) :
  is_empty (map VDict (filter control_plane nodes)) = negb (existsb control_plane nodes).
Proof.
  induction nodes as [|n r IH]; [reflexivity|].
  cbn [filter existsb]. now destruct (control_plane n).
Qed.

Lemma port_mappings_loop (nodes : list dict) (self : ConfigValidator) :
  for_each (map VDict nodes) (fun node =>
    cp <- is_control_plane node ;;
    when cp (
      port_mappings <- lift (py_get node "extraPortMappings" (VList [])) ;;
      when (negb (truthy port_mappings))
        (warnings_append
           "No port mappings defined for control plane - services won't be accessible")))
    self
  = (Ok tt, with_findings self [] (kind_warnings nodes)).
Proof.
  revert self. induction nodes as [|n r IH]; intros self.
  - unfold kind_warnings. cbn [map filter for_each]. unfold ret.
    now rewrite with_findings_nil.
  - cbn [map for_each].
    assert (Hturn :
      (cp <- is_control_plane (VDict n) ;;
       when cp (
         port_mappings <- lift (py_get (VDict n) "extraPortMappings" (VList [])) ;;
         when (negb (truthy port_mappings))
           (warnings_append
              "No port mappings defined for control plane - services won't be accessible")))
        self
      = (Ok tt, with_findings self []
                  (kind_warnings [n]))).
    { bind_step (is_control_plane_run n self).
      unfold kind_warnings, lacks_port_mappings. cbn [filter].
      destruct (control_plane n); cbn [when andb map].
      - unfold bind, lift, py_get. fold (get_or n "extraPortMappings" (VList [])).
        destruct (truthy (get_or n "extraPortMappings" (VList []))); cbn [negb when map].
        + unfold ret. now rewrite with_findings_nil.
        + apply warnings_append_run.
      - unfold ret. now rewrite with_findings_nil. }
    bind_step Hturn. rewrite IH, with_findings_twice.
    unfold kind_warnings. cbn [filter app].
    destruct (control_plane n && lacks_port_mappings n); reflexivity.
Qed.

Lemma nodes_of_get (config : dict) (nodes : list dict) :
  nodes_of config nodes ->
  py_get (VDict config) "nodes" (VList []) = Ok (VList (map VDict nodes)).
Proof.
  unfold nodes_of, py_get. destruct (lookup "nodes" config); now intros ->.
Qed.

(** C7, as the code has it. The cluster-bootstrap check: a missing
    file appends one Error and returns at once; a file that does not
    parse appends one Error and returns at once; a document that
    parsed to a mapping whose nodes entry is absent or a list of
    mappings gets an Error when its kind is not "Cluster", an Error
    when it declares no node, an Error when no node has the
    control-plane role, and one Warning for each control-plane node
    without port mappings. *)
Theorem validate_kind_config_spec (fs : filesystem) (self : ConfigValidator) :
  (path_exists fs (kind_config_path self) = false ->
   validate_kind_config fs self
   = (Ok false, with_findings self ["Missing Kind cluster configuration file"] []))
  /\ (forall e,
        path_exists fs (kind_config_path self) = true ->
        load_yaml fs (kind_config_path self) = inl e ->
        validate_kind_config fs self
        = (Ok false, with_findings self ["Failed to parse Kind config: " ++ e] []))
  /\ (forall config nodes,
        path_exists fs (kind_config_path self) = true ->
        load_yaml fs (kind_config_path self) = inr (VDict config) ->
        nodes_of config nodes ->
        validate_kind_config fs self
        = (Ok (is_empty (errors self ++ kind_errors config nodes)),
           with_findings self (kind_errors config nodes) (kind_warnings nodes))).
Proof.
  unfold validate_kind_config.
  bind_step (eq_refl (Ok self, self)). cbv zeta.
  change (path_join (path_join (project_root self) "infrastructure")
            "kind-cluster-config.yaml") with (kind_config_path self).
  repeat split.
  - intros ->. cbn [negb]. now rewrite (bind_run _ _ _ _ _ (errors_append_run _ self)).
  - intros e -> ->. cbn [negb].
    now rewrite (bind_run _ _ _ _ _ (errors_append_run _ self)).
  - intros config nodes -> -> Hnodes. cbn [negb].
    lift_step (eq_refl (Ok (get_or config "kind" VNone))).
    assert (Hkind :
      when (negb (eq_str (get_or config "kind" VNone) "Cluster"))
        (errors_append "Kind config must be of type 'Cluster'") self
      = (Ok tt, with_findings self
                  (if eq_str (get_or config "kind" VNone) "Cluster" then []
                   else ["Kind config must be of type 'Cluster'"]) [])).
    { destruct (eq_str _ "Cluster"); cbn [negb when];
        [unfold ret; now rewrite with_findings_nil | apply errors_append_run]. }
    bind_step Hkind. set (self1 := with_findings self _ []).
    lift_step (nodes_of_get _ _ Hnodes).
    assert (Hnone :
      when (negb (truthy (VList (map VDict nodes))))
        (errors_append "At least one node must be defined") self1
      = (Ok tt, with_findings self1
                  (if is_empty nodes then ["At least one node must be defined"] else []) [])).
    { destruct nodes; cbn [map truthy negb when is_empty];
        [apply errors_append_run | unfold ret; now rewrite with_findings_nil]. }
    bind_step Hnone. set (self2 := with_findings self1 _ []).
    lift_step (eq_refl (Ok (map VDict nodes))).
    bind_step (control_plane_of_run nodes self2).
    assert (Hcp :
      when (is_empty (map VDict (filter control_plane nodes)))
        (errors_append "At least one control-plane node must be defined") self2
      = (Ok tt, with_findings self2
                  (if existsb control_plane nodes then []
                   else ["At least one control-plane node must be defined"]) [])).
    { rewrite no_control_plane. destruct (existsb control_plane nodes); cbn [negb when];
        [unfold ret; now rewrite with_findings_nil | apply errors_append_run]. }
    bind_step Hcp. set (self3 := with_findings self2 _ []).
    lift_step (eq_refl (Ok (map VDict nodes))).
    bind_step (port_mappings_loop nodes self3).
    unfold bind, get_self, ret. subst self3 self2 self1.
    rewrite !with_findings_twice. cbn [app].
    unfold kind_errors. cbn [with_findings errors]. now rewrite !app_nil_r.
Qed.

End KindConfig.

(** ** Returned booleans and the exit status *)

Section Returns.
Local Open Scope method_scope.

Lemma bind_ok_inv {A B : Type} (m : M A) (k : A -> M B)
    (self self' : ConfigValidator) (b : B) :
  bind m k self = (Ok b, self') ->
  exists a s, m self = (Ok a, s) /\ k a s = (Ok b, self').
Proof.
  unfold bind. destruct (m self) as [[a|e] s]; [eauto | discriminate].
Qed.

Lemma returns_no_errors_bind {A : Type} (m : M A) (k : A -> M bool) :
  (forall a, returns_no_errors (k a)) -> returns_no_errors (bind m k).
Proof.
  intros Hk self b self' H. apply bind_ok_inv in H as (a & s & _ & H).
  exact (Hk a s b self' H).
Qed.

Lemma returns_no_errors_last :
  returns_no_errors (self <- get_self ;; ret (is_empty (errors self))).
Proof. intros self b self' [= <- <-]. reflexivity. Qed.

Lemma is_empty_snoc {A : Type} (l : list A) (x : A) : is_empty (l ++ [x]) = false.
Proof. now destruct l. Qed.

Lemma returns_no_errors_failed (msg : string) :
  returns_no_errors (errors_append msg ;; ret false).
Proof.
  intros self b self' H. unfold bind, errors_append, ret in H.
  injection H as <- <-. simpl. now rewrite is_empty_snoc.
Qed.

Variable fs : filesystem.

Lemma helm_values_returns_no_errors (file : string) :
  returns_no_errors (validate_helm_values fs file).
Proof.
  unfold validate_helm_values. destruct (load_yaml fs file).
  - apply returns_no_errors_failed.
  - repeat first [apply returns_no_errors_last | apply returns_no_errors_bind; intro].
Qed.

Lemma chart_structure_returns_no_errors : returns_no_errors (validate_chart_structure fs).
Proof.
  unfold validate_chart_structure.
  repeat first [apply returns_no_errors_last | apply returns_no_errors_bind; intro].
Qed.

Lemma kind_config_returns_no_errors : returns_no_errors (validate_kind_config fs).
Proof.
  unfold validate_kind_config. apply returns_no_errors_bind. intros self.
  cbv zeta. destruct (negb _); [apply returns_no_errors_failed|].
  destruct (load_yaml fs _); [apply returns_no_errors_failed|].
  repeat first [apply returns_no_errors_last | apply returns_no_errors_bind; intro].
Qed.

Lemma prefix_not_empty {A : Type} (l l' : list A) :
  prefix l l' -> l <> [] -> is_empty l' = false.
Proof. intros [k ->] Hl. destruct l; [contradiction | reflexivity]. Qed.

(** C10. The boolean a validator returns is true exactly when the
    validator object holds no error at all at the moment of return,
    whichever call recorded it; so a values file validated after an
    earlier Error returns false, however clean the file is. *)
Theorem returned_boolean_is_cumulative :
  (forall file, returns_no_errors (validate_helm_values fs file))
  /\ returns_no_errors (validate_chart_structure fs)
  /\ returns_no_errors (validate_kind_config fs)
  /\ (forall file self b self',
        errors self <> [] ->
        validate_helm_values fs file self = (Ok b, self') ->
        b = false).
Proof.
  repeat refine (conj _ _).
  - exact helm_values_returns_no_errors.
  - exact chart_structure_returns_no_errors.
  - exact kind_config_returns_no_errors.
  - intros file self b self' Hne Hrun.
    rewrite (helm_values_returns_no_errors file self b self' Hrun).
    pose proof (helm_values_appends_only fs file self) as [Hpre _].
    rewrite Hrun in Hpre. simpl in Hpre. eauto using prefix_not_empty.
Qed.

(** C6, as the code has it. When no exception leaves the
    validations, [main] exits with status 1 if an Error was recorded
    or the strict flag is set and a Warning was recorded, and with
    status 0 otherwise; when a validation raises, the exception
    leaves [main] and the process ends with status 1, whatever was
    recorded. *)
Theorem main_exit_status (root : string) (args : arguments) :
  let run := run_validations fs args (new_validator root) in
  let validator := snd run in
  snd (main fs root args) = validator
  /\ match fst run with
     | Ok _ =>
         fst (main fs root args)
         = Ok (if negb (is_empty (errors validator))
                  || (strict args && negb (is_empty (warnings validator)))
               then 1 else 0)
     | Raise e =>
         fst (main fs root args) = Raise e
         /\ exit_status (fst (main fs root args)) = 1
     end.
Proof.
  cbv zeta. unfold main, bind.
  destruct (run_validations fs args (new_validator root)) as [[[]|e] validator];
    cbn [fst snd]; [|now repeat split].
  unfold get_self.
  now destruct (negb (is_empty (errors validator))
                || strict args && negb (is_empty (warnings validator))).
Qed.

End Returns.

(** ** Further properties of the parsers and of the structural checks *)

Section Further.
Import PyStr PyStrFacts PyIntFacts.
Local Open Scope method_scope.

(** X1. [_parse_cpu_value]: a number followed by m, in either case, is
    that many millicores; the empty text gives 0; a number of cores
    is multiplied by 1000. *)
Theorem parse_cpu_value_spec :
  (forall s n suffix,
     PyInt.of_str s = Ok n -> lower suffix = "m" ->
     _parse_cpu_value (VStr (s ++ suffix)) = Ok n)
  /\ _parse_cpu_value (VStr "") = Ok 0
  /\ _parse_cpu_value (VStr "500m") = Ok 500
  /\ _parse_cpu_value (VStr "2") = Ok 2000
  /\ _parse_cpu_value (VStr "0.5") = Ok 500.
Proof.
  split; [|repeat apply conj; vm_compute; reflexivity].
  intros s n suffix Hn Hm. unfold _parse_cpu_value. simpl truthy.
  rewrite app_not_empty by (intros ->; discriminate Hm).
  cbn [negb py_str]. rewrite lower_app, Hm, endswith_app.
  change 1%nat with (String.length "m"). now rewrite drop_last_app, of_str_lower.
Qed.

(** X2. The two size parsers differ on a text without suffix that is no
    number: [_parse_memory_size] raises, [_parse_storage_size]
    returns [None]. *)
Theorem malformed_size_asymmetry (s : string) :
  s <> "" ->
  unsuffixed s = true ->
  PyInt.of_str s = Raise ValueError ->
  _parse_memory_size (VStr s) = Raise ValueError
  /\ _parse_storage_size (VStr s) = Ok None.
Proof.
  intros Hne Hs Hbad. apply unsuffixed_tests in Hs as (H1 & H2 & H3 & H4).
  unfold _parse_memory_size, _parse_storage_size. simpl truthy.
  destruct (String.eqb_spec s ""); [contradiction|]. cbn [negb py_str].
  now rewrite H1, H2, H3, H4, of_str_upper, Hbad.
Qed.

Variable fs : filesystem.

(** A loop that records an Error for every element that fails a test. *)
Lemma errors_loop (l : list string) (failing : string -> bool) (msg : string -> string)
    (self : ConfigValidator) :
  for_each l (fun x => when (failing x) (errors_append (msg x))) self
  = (Ok tt, with_findings self (map msg (filter failing l)) []).
Proof.
  revert self. induction l as [|x l IH]; intros self; cbn [for_each filter map].
  - unfold ret. now rewrite with_findings_nil.
  - destruct (failing x); cbn [when map].
    + bind_step (errors_append_run (msg x) self). now rewrite IH, with_findings_twice.
    + bind_step (eq_refl (Ok tt, self)). apply IH.
Qed.

Lemma warnings_loop (l : list string) (failing : string -> bool) (msg : string -> string)
    (self : ConfigValidator) :
  for_each l (fun x => when (failing x) (warnings_append (msg x))) self
  = (Ok tt, with_findings self [] (map msg (filter failing l))).
Proof.
  revert self. induction l as [|x l IH]; intros self; cbn [for_each filter map].
  - unfold ret. now rewrite with_findings_nil.
  - destruct (failing x); cbn [when map].
    + bind_step (warnings_append_run (msg x) self). now rewrite IH, with_findings_twice.
    + bind_step (eq_refl (Ok tt, self)). apply IH.
Qed.

(** X3. The chart-structure check never raises. It appends one Error for
    each required file that is missing, in the order of the list,
    and one Error when the templates directory is missing; when that
    directory exists it appends one Warning for each expected
    template that is missing; it returns whether the validator holds
    no Error. *)
Theorem validate_chart_structure_spec (self : ConfigValidator) :
  let dir := helm_chart_dir self in
  let templates := path_join dir "templates" in
  let es :=
    List.app
      (map (fun name => "Missing required file: " ++ path_join dir name)
         (missing fs dir
            ["Chart.yaml"; "values.yaml"; "values-development.yaml"; "values-production.yaml"]))
      (if path_exists fs templates then [] else ["Missing templates directory"]) in
  let ws :=
    if path_exists fs templates then
      map (fun name => "Missing template file: " ++ name)
        (missing fs templates ["deployment.yaml"; "service.yaml"; "configmap.yaml"])
    else [] in
  validate_chart_structure fs self
  = (Ok (is_empty (errors self ++ es)), with_findings self es ws).
Proof.
  cbv zeta. unfold validate_chart_structure.
  bind_step (eq_refl (Ok self, self)).
  bind_step (errors_loop
               ["Chart.yaml"; "values.yaml"; "values-development.yaml"; "values-production.yaml"]
               (fun name => negb (path_exists fs (path_join (helm_chart_dir self) name)))
               (fun name => "Missing required file: " ++ path_join (helm_chart_dir self) name)
               self).
  fold (missing fs (helm_chart_dir self)
          ["Chart.yaml"; "values.yaml"; "values-development.yaml"; "values-production.yaml"]).
  set (self1 := with_findings self _ []).
  destruct (path_exists fs (path_join (helm_chart_dir self) "templates")); cbn [negb].
  - bind_step (warnings_loop ["deployment.yaml"; "service.yaml"; "configmap.yaml"]
                 (fun name => negb (path_exists fs
                    (path_join (path_join (helm_chart_dir self) "templates") name)))
                 (fun name => "Missing template file: " ++ name) self1).
    unfold bind, get_self, ret. subst self1. rewrite with_findings_twice.
    cbn [with_findings errors app]. now rewrite !app_nil_r.
  - bind_step (errors_append_run "Missing templates directory" self1).
    unfold bind, get_self, ret. subst self1. rewrite with_findings_twice.
    reflexivity.
Qed.

(** X4. A values file that cannot be read or parsed: one Error that
    names the file and quotes the exception, [False] is returned, and
    no further check runs. *)
Theorem validate_helm_values_unreadable (file e : string) (self : ConfigValidator) :
  load_yaml fs file = inl e ->
  validate_helm_values fs file self
  = (Ok false, with_findings self ["Failed to parse " ++ file ++ ": " ++ e] []).
Proof.
  intros Hload. unfold validate_helm_values. rewrite Hload.
  now rewrite (bind_run _ _ _ _ _ (errors_append_run _ self)).
Qed.

(** The loop over the required sections of a values file. *)
Lemma required_sections_loop (values : dict) (file : string) (l : list string)
    (self : ConfigValidator) :
  for_each l (fun section =>
    present <- lift (py_in section (VDict values)) ;;
    when (negb present)
      (errors_append ("Missing required section '" ++ section ++ "' in " ++ file))) self
  = (Ok tt,
     with_findings self
       (map (fun section => "Missing required section '" ++ section ++ "' in " ++ file)
          (filter (fun section => negb (is_some (lookup section values))) l)) []).
Proof.
  revert self. induction l as [|x l IH]; intros self; cbn [for_each filter map].
  - unfold ret. now rewrite with_findings_nil.
  - assert (Hturn :
      (present <- lift (py_in x (VDict values)) ;;
       when (negb present)
         (errors_append ("Missing required section '" ++ x ++ "' in " ++ file))) self
      = (Ok tt, with_findings self
                  (if negb (is_some (lookup x values))
                   then ["Missing required section '" ++ x ++ "' in " ++ file] else []) [])).
    { unfold bind, lift, py_in, is_some. destruct (lookup x values); cbn [negb when].
      - unfold ret. now rewrite with_findings_nil.
      - apply errors_append_run. }
    bind_step Hturn. rewrite IH, with_findings_twice.
    now destruct (negb (is_some (lookup x values))).
Qed.

(** X5. A values file that parses to a mapping gets one Error for each
    of the sections api, postgresql and redis that it lacks, in that
    order, before any other finding of the file. *)
Theorem required_sections_reported (values : dict) (file : string) (self : ConfigValidator) :
  load_yaml fs file = inr (VDict values) ->
  prefix
    (List.app (errors self)
       (map (fun section => "Missing required section '" ++ section ++ "' in " ++ file)
          (filter (fun section => negb (is_some (lookup section values)))
             ["api"; "postgresql"; "redis"])))
    (errors (snd (validate_helm_values fs file self))).
Proof.
  intros Hload. unfold validate_helm_values. rewrite Hload.
  bind_step (required_sections_loop values file ["api"; "postgresql"; "redis"] self).
  match goal with
  | |- prefix ?es (errors (snd (?m ?s))) =>
      assert (Hrest : appends_only m); [append_only | destruct (Hrest s) as [Hpre _]]
  end.
  exact Hpre.
Qed.

End Further.

(** ** The statements at concrete inputs *)

Section Instances.
Import Examples.

(** The canonical memory quantities of the specification. *)
Lemma parse_memory_size_examples :
  _parse_memory_size (VStr "512Mi") = Ok 512
  /\ _parse_memory_size (VStr "2Gi") = Ok 2048
  /\ _parse_memory_size (VStr "1G") = Ok 1024
  /\ _parse_memory_size (VStr "100M") = Ok 100
  /\ _parse_memory_size (VStr "300") = Ok 300.
Proof.
  repeat apply conj.
  - destruct (parse_memory_size_spec "512" 512 eq_refl) as (Hmi & _).
    exact (Hmi "Mi" eq_refl).
  - destruct (parse_memory_size_spec "2" 2 eq_refl) as (_ & Hgi & _).
    exact (Hgi "Gi" eq_refl).
  - destruct (parse_memory_size_spec "1" 1 eq_refl) as (_ & _ & _ & Hg & _).
    exact (Hg "G" eq_refl).
  - destruct (parse_memory_size_spec "100" 100 eq_refl) as (_ & _ & Hm & _).
    exact (Hm "M" eq_refl).
  - destruct (parse_memory_size_spec "300" 300 eq_refl) as (_ & _ & _ & _ & Hplain & _).
    exact Hplain.
Defined.

(** A text without suffix that is no number gives [None], also in
    lower case and with blanks around it. *)
Lemma parse_storage_size_examples :
  _parse_storage_size (VStr "garbage") = Ok None
  /\ _parse_storage_size (VStr " 12 ") = Ok (Some 12)
  /\ _parse_storage_size (VStr "2gi") = Ok (Some 2048).
Proof.
  destruct parse_storage_size_total as (Hplain & _ & Hsuffix & _).
  repeat apply conj.
  - apply (Hplain "garbage"). reflexivity.
  - apply (Hplain " 12 "). reflexivity.
  - apply (Hsuffix (VStr "2gi") 2048); reflexivity.
Defined.


(** A limit of five times a positive request: one Warning, no
    Error, whatever the texts. *)
Lemma five_times_request (service label : string) (rv lv : value) (r : Z) :
  0 < r ->
  ratio_errors service label (Some (rv, lv, r, 5 * r)) = []
  /\ ratio_warnings service label (Some (rv, lv, r, 5 * r))
     = [service ++ ": " ++ label ++ " limit is much higher than request - consider adjusting"].
Proof.
  intros Hr. unfold ratio_errors, ratio_warnings.
  destruct (Z.ltb_spec (5 * r) r); [lia|].
  destruct (Z.leb_spec r (5 * r)); [|lia].
  destruct (Z.ltb_spec (4 * r) (5 * r)); [|lia].
  now split.
Qed.


(** A size of 10Gi is accepted; a text that is no size is rejected. *)
Lemma database_size_examples :
  errors (snd (_validate_database_config (VDict (database "10Gi")) fresh)) = []
  /\ errors (snd (_validate_database_config (VDict (database "garbage")) fresh))
     = ["Invalid database storage size"].
Proof.
  split.
  - apply (validate_database_config_size (database "10Gi")
             [("persistence", persistence true "10Gi")]
             [("enabled", VBool true); ("size", VStr "10Gi")] (VBool true) fresh);
      reflexivity.
  - apply (validate_database_config_size (database "garbage")
             [("persistence", persistence true "garbage")]
             [("enabled", VBool true); ("size", VStr "garbage")] (VBool true) fresh);
      reflexivity.
Defined.

(** Against C2 as stated: the sizes 0 and 0Gi parse to the number
    zero, not to an absent result, and the Error is appended. *)
Lemma database_size_zero_rejected :
  _parse_storage_size (VStr "0") = Ok (Some 0)
  /\ errors (snd (_validate_database_config (VDict (database "0")) fresh))
     = ["Invalid database storage size"]
  /\ _parse_storage_size (VStr "0Gi") = Ok (Some 0)
  /\ errors (snd (_validate_database_config (VDict (database "0Gi")) fresh))
     = ["Invalid database storage size"].
Proof. repeat apply conj; vm_compute; reflexivity. Qed.

Lemma requesting_contributes (cpu memory : string) (c m : Z) :
  _parse_cpu_value (VStr cpu) = Ok c ->
  _parse_memory_size (VStr memory) = Ok m ->
  contributes (Some (requesting cpu memory)) c m.
Proof.
  intros Hc Hm.
  now apply (contributes_requests (requesting cpu memory)
               [("requests", VDict [("cpu", VStr cpu); ("memory", VStr memory)])]
               [("cpu", VStr cpu); ("memory", VStr memory)]).
Qed.

(** Requests of 2000m, 1 core, 1500m and 500m add up to 5000m: one
    Warning that shows 5000m. Requests that add up to 3000m: no
    Warning. *)
Lemma resource_limits_examples :
  _validate_resource_limits (VDict (services "2000m" "1" "1500m" "500m")) fresh
  = (Ok tt, with_findings fresh []
              ["Total CPU requests (5000m) may exceed development machine capacity"])
  /\ _validate_resource_limits (VDict (services "1000m" "1" "500m" "500m")) fresh
     = (Ok tt, fresh).
Proof.
  split.
  - apply (validate_resource_limits_spec (services "2000m" "1" "1500m" "500m") fresh
             (Some (requesting "2000m" "1Gi")) (Some (requesting "1" "1Gi"))
             (Some (requesting "1500m" "1Gi")) (Some (requesting "500m" "1Gi"))
             2000 1024 1000 1024 1500 1024 500 1024);
      try reflexivity;
      try (apply requesting_contributes; vm_compute; reflexivity).
    + exists (Some [("primary", VDict (requesting "1500m" "1Gi"))]). now split.
    + exists (Some [("master", VDict (requesting "500m" "1Gi"))]). now split.
  - apply (validate_resource_limits_spec (services "1000m" "1" "500m" "500m") fresh
             (Some (requesting "1000m" "1Gi")) (Some (requesting "1" "1Gi"))
             (Some (requesting "500m" "1Gi")) (Some (requesting "500m" "1Gi"))
             1000 1024 1000 1024 500 1024 500 1024);
      try reflexivity;
      try (apply requesting_contributes; vm_compute; reflexivity).
    + exists (Some [("primary", VDict (requesting "500m" "1Gi"))]). now split.
    + exists (Some [("master", VDict (requesting "500m" "1Gi"))]). now split.
Defined.

(** Against C5 as stated: an api section whose resources entry is
    left empty has no requests block, and a frontend section left
    empty has none either; neither adds 0 to the totals, the check
    raises. *)
Lemma capacity_check_on_empty_entries :
  _validate_resource_limits (VDict [("api", VDict [("resources", VNone)])]) fresh
  = (Raise TypeError, fresh)
  /\ _validate_resource_limits (VDict [("frontend", VNone)]) fresh
     = (Raise AttributeError, fresh).
Proof. split; reflexivity. Qed.

(** A document of kind Cluster with one control-plane node and no
    port mappings: no Error, one Warning, and [True] is returned. *)
Lemma kind_config_example :
  validate_kind_config (files (VDict one_control_plane) clean_values) fresh
  = (Ok true,
     with_findings fresh []
       ["No port mappings defined for control plane - services won't be accessible"]).
Proof.
  destruct (validate_kind_config_spec (files (VDict one_control_plane) clean_values) fresh)
    as (_ & _ & Hparsed).
  apply (Hparsed one_control_plane [[("role", VStr "control-plane")]]); reflexivity.
Defined.

(** Against C7 as stated: a cluster document that exists and parses
    but is empty records none of the three Errors, the check raises;
    a document of kind Cluster whose nodes entry is left empty
    records that no node is defined and raises before it looks for a
    control-plane node. *)
Lemma kind_config_on_empty_entries :
  validate_kind_config (files VNone clean_values) fresh = (Raise AttributeError, fresh)
  /\ validate_kind_config
       (files (VDict [("kind", VStr "Cluster"); ("nodes", VNone)]) clean_values) fresh
     = (Raise TypeError, with_findings fresh ["At least one node must be defined"] []).
Proof. split; reflexivity. Qed.

(** 60Gi, 20Gi and 120Gi add up to 200 GB: one Warning that shows
    200.0GB. With 10Gi for the model-serving service the total is
    90 GB: no Warning. *)
Lemma storage_config_examples :
  _validate_storage_config (VDict (stores true "120Gi")) fresh
  = (Ok tt, with_findings fresh []
              ["Total storage requests (200.0GB) are quite large for development"])
  /\ _validate_storage_config (VDict (stores true "10Gi")) fresh = (Ok tt, fresh).
Proof.
  split.
  - pose proof (validate_storage_config_spec (stores true "120Gi") fresh (VStr "standard")
                  true 61440 20480 122880 eq_refl eq_refl eq_refl eq_refl (fun _ => eq_refl))
      as (Hrun & Htext & _).
    rewrite Hrun, Htext by reflexivity. reflexivity.
  - pose proof (validate_storage_config_spec (stores true "10Gi") fresh (VStr "standard")
                  true 61440 20480 10240 eq_refl eq_refl eq_refl eq_refl (fun _ => eq_refl))
      as (Hrun & Htext & _).
    rewrite Hrun, Htext by reflexivity. reflexivity.
Defined.

(** Against C8 as stated: the model-serving service is not enabled,
    and its 120Gi are counted all the same. *)
Lemma storage_counts_disabled_service :
  lookup "enabled" [("enabled", VBool false); ("model", VStr "llama");
                    ("persistence", persistence true "120Gi")] = Some (VBool false)
  /\ _get_service_storage_size (VDict (stores false "120Gi")) "postgresql" = Ok 61440
  /\ _get_service_storage_size (VDict (stores false "120Gi")) "redis" = Ok 20480
  /\ (61440 + 20480 >? 100 * 1024) = false
  /\ _validate_storage_config (VDict (stores false "120Gi")) fresh
     = (Ok tt, with_findings fresh []
                 ["Total storage requests (200.0GB) are quite large for development"]).
Proof. repeat apply conj; vm_compute; reflexivity. Qed.

(** What the statement of the storage check leaves out: a global
    entry left empty raises before any Warning; a total whose
    quotient by 1024 is beyond the floats (here a database size of
    10^320 Gi) raises after the storage class was looked at. *)
Lemma storage_check_raises_examples :
  _validate_storage_config (VDict [("global", VNone)]) fresh = (Raise AttributeError, fresh)
  /\ _validate_storage_config
       (VDict [("global", VDict [("storageClass", VStr "standard")]);
               ("postgresql",
                 VDict [("primary",
                          VDict [("persistence",
                                   persistence true ("1" ++ times "0" 320 ++ "Gi"))])])])
       fresh
     = (Raise OverflowError, fresh).
Proof. split; vm_compute; reflexivity. Qed.

(** A clean values file returns [True] on a fresh validator and
    [False] on a validator that already holds an Error. *)
Lemma returned_boolean_examples :
  validate_helm_values (files sound_cluster clean_values) "values.yaml" fresh
  = (Ok true, fresh)
  /\ validate_helm_values (files sound_cluster clean_values) "values.yaml"
       (with_findings fresh ["Missing templates directory"] [])
     = (Ok false, with_findings fresh ["Missing templates directory"] []).
Proof.
  pose proof (returned_boolean_is_cumulative (files sound_cluster clean_values))
    as (Hcumulative & _ & _ & Hearlier).
  split.
  - destruct (validate_helm_values (files sound_cluster clean_values) "values.yaml" fresh)
      as [[b|e] self'] eqn:Hrun.
    + rewrite (Hcumulative "values.yaml" fresh b self' Hrun).
      vm_compute in Hrun. now injection Hrun as _ <-.
    + vm_compute in Hrun. discriminate Hrun.
  - destruct (validate_helm_values (files sound_cluster clean_values) "values.yaml"
                (with_findings fresh ["Missing templates directory"] []))
      as [[b|e] self'] eqn:Hrun.
    + rewrite (Hearlier "values.yaml"
                 (with_findings fresh ["Missing templates directory"] []) b self'
                 ltac:(vm_compute; discriminate) Hrun).
      vm_compute in Hrun. now injection Hrun as _ <-.
    + vm_compute in Hrun. discriminate Hrun.
Defined.

(** Warnings only: status 0 without the strict flag, status 1 with
    it. *)
Lemma exit_status_examples :
  fst (main (files sound_cluster warned_values) "/repo" (one_file false)) = Ok 0
  /\ fst (main (files sound_cluster warned_values) "/repo" (one_file true)) = Ok 1.
Proof.
  split.
  - pose proof (main_exit_status (files sound_cluster warned_values) "/repo" (one_file false))
      as [_ Hstatus].
    vm_compute in Hstatus. vm_compute. exact Hstatus.
  - pose proof (main_exit_status (files sound_cluster warned_values) "/repo" (one_file true))
      as [_ Hstatus].
    vm_compute in Hstatus. vm_compute. exact Hstatus.
Defined.

(** Against C6 as stated: a values file whose memory request is no
    quantity makes [_parse_memory_size] raise; the exception leaves
    [main], so the process ends with status 1 although no Error and
    no Warning was recorded and the strict flag is not set. *)
Lemma exit_status_after_exception :
  _parse_memory_size (VStr "lots") = Raise ValueError
  /\ main (files sound_cluster malformed_values) "/repo" (one_file false)
     = (Raise ValueError, fresh)
  /\ errors fresh = [] /\ warnings fresh = []
  /\ strict (one_file false) = false
  /\ exit_status (fst (main (files sound_cluster malformed_values) "/repo" (one_file false)))
     = 1.
Proof. repeat apply conj; vm_compute; reflexivity. Qed.

(** The text garbage: the memory parser raises, the storage parser
    returns [None]. *)
Lemma malformed_size_asymmetry_example :
  _parse_memory_size (VStr "garbage") = Raise ValueError
  /\ _parse_storage_size (VStr "garbage") = Ok None.
Proof. apply malformed_size_asymmetry; [discriminate | reflexivity | reflexivity]. Defined.


(** A chart without [values-production.yaml] and without the
    [configmap.yaml] template: one Error, one Warning, [False]. *)
Lemma chart_structure_example :
  validate_chart_structure incomplete_chart fresh
  = (Ok false,
     with_findings fresh
       ["Missing required file: /repo/infrastructure/helm/gmc-dev/values-production.yaml"]
       ["Missing template file: configmap.yaml"]).
Proof. exact (validate_chart_structure_spec incomplete_chart fresh). Defined.

(** A values file that cannot be read. *)
Lemma unreadable_values_example :
  validate_helm_values incomplete_chart "values.yaml" fresh
  = (Ok false, with_findings fresh ["Failed to parse values.yaml: unreadable"] []).
Proof.
  exact (validate_helm_values_unreadable incomplete_chart "values.yaml" "unreadable" fresh
           eq_refl).
Defined.

(** A values file with nothing but an api section lacks postgresql
    and redis. *)
Lemma required_sections_example :
  prefix
    ["Missing required section 'postgresql' in values.yaml";
     "Missing required section 'redis' in values.yaml"]
    (errors (snd (validate_helm_values
                    (files sound_cluster (VDict [("api", VDict [])])) "values.yaml" fresh))).
Proof.
  exact (required_sections_reported (files sound_cluster (VDict [("api", VDict [])]))
           [("api", VDict [])] "values.yaml" fresh eq_refl).
Defined.

End Instances.

(** ** Numbers written and read back *)

Module PyIntRoundTrip.
Import PyStr PyInt PyStrFacts.

Lemma digits_of_uint (d : Decimal.uint) (c : ascii) :
  In c (chars (NilEmpty.string_of_uint d)) -> is_digit c = true.
Proof.
  induction d; cbn [NilEmpty.string_of_uint chars list_ascii_of_string In];
    try contradiction; intros [<-|H]; auto.
Qed.

Lemma digit_not_space (c : ascii) : is_digit c = true -> is_space c = false.
Proof.
  destruct c as [b0 b1 b2 b3 b4 b5 b6 b7].
  destruct b0, b1, b2, b3, b4, b5, b6, b7; vm_compute; congruence.
Qed.

Lemma drop_spaces_none (l : list ascii) :
  (forall c, In c l -> is_space c = false) -> drop_spaces l = l.
Proof.
  destruct l as [|c l]; [reflexivity|]. intros H. cbn [drop_spaces].
  now rewrite (H c (or_introl eq_refl)).
Qed.

(** A text without blanks is read as it stands. *)
Lemma strip_none (l : list ascii) :
  (forall c, In c l -> is_space c = false) -> strip l = l.
Proof.
  intros H. unfold strip. rewrite (drop_spaces_none l H).
  rewrite drop_spaces_none; [apply rev_involutive|].
  intros c Hc. apply H. now apply in_rev.
Qed.

Lemma digitpart_of_uint_acc (d : Decimal.uint) (p : positive) :
  digitpart (Zpos p) true (chars (NilEmpty.string_of_uint d))
  = Some (Zpos (Pos.of_uint_acc d p)).
Proof.
  revert p. induction d; intros p;
    cbn [NilEmpty.string_of_uint chars list_ascii_of_string digitpart Pos.of_uint_acc];
    [reflexivity| ..];
    match goal with
    | |- context [is_digit ?c] => change (is_digit c) with true; cbv iota
    end;
    match goal with
    | |- digitpart ?a true _ = Some (Zpos (Pos.of_uint_acc _ ?q)) =>
        replace a with (Zpos q) by (unfold digit_val, code; simpl N_of_ascii; lia)
    end; apply IHd.
Qed.

Lemma digitpart_of_uint (d : Decimal.uint) (prev : bool) :
  d <> Decimal.Nil ->
  digitpart 0 prev (chars (NilEmpty.string_of_uint d)) = Some (Z.of_N (Pos.of_uint d)).
Proof.
  revert prev. induction d; intros prev Hd; [contradiction| ..];
    cbn [NilEmpty.string_of_uint chars list_ascii_of_string digitpart Pos.of_uint];
    match goal with
    | |- context [is_digit ?c] => change (is_digit c) with true; cbv iota
    end.
  1: { change (10 * 0 + digit_val "0") with 0.
       destruct d; [reflexivity | apply IHd; discriminate ..]. }
  all: match goal with
       | |- digitpart ?a true _ = _ =>
           let v := eval vm_compute in a in change a with v
       end; apply digitpart_of_uint_acc.
Qed.

(** [int(str(z))] is [z]. *)
Lemma of_str_to_str (z : Z) : of_str (to_str z) = Ok z.
Proof.
  unfold of_str, to_str. destruct z as [|p|p]; [reflexivity| |].
  - cbn [Z.to_int NilZero.string_of_int]. unfold NilZero.string_of_uint.
    pose proof (DecimalPos.Unsigned.to_uint_nonnil p) as Hnil.
    pose proof (DecimalPos.Unsigned.of_to p) as Hp.
    destruct (Pos.to_uint p) as [|d|d|d|d|d|d|d|d|d|d] eqn:Hd; [contradiction| ..];
      rewrite <- Hd in *;
      (rewrite strip_none by (intros c Hc; apply digit_not_space; eauto using digits_of_uint));
      (assert (Hsign : signed_digitpart (chars (NilEmpty.string_of_uint (Pos.to_uint p)))
                       = digitpart 0 false (chars (NilEmpty.string_of_uint (Pos.to_uint p))))
         by (rewrite Hd; reflexivity));
      rewrite Hsign, digitpart_of_uint, Hp by exact Hnil; reflexivity.
  - cbn [Z.to_int NilZero.string_of_int]. unfold NilZero.string_of_uint.
    pose proof (DecimalPos.Unsigned.to_uint_nonnil p) as Hnil.
    pose proof (DecimalPos.Unsigned.of_to p) as Hp.
    assert (Hform : NilZero.string_of_uint (Pos.to_uint p)
                    = NilEmpty.string_of_uint (Pos.to_uint p))
      by (unfold NilZero.string_of_uint; destruct (Pos.to_uint p); [contradiction|reflexivity ..]).
    fold (NilZero.string_of_uint (Pos.to_uint p)). rewrite Hform.
    cbn [chars list_ascii_of_string].
    rewrite strip_none.
    + cbn [signed_digitpart]. change (Ascii.eqb "-" "-") with true. cbv iota.
      fold (chars (NilEmpty.string_of_uint (Pos.to_uint p))).
      now rewrite digitpart_of_uint, Hp by exact Hnil.
    + intros c [<-|Hc]; [reflexivity|]. apply digit_not_space. eauto using digits_of_uint.
Qed.

End PyIntRoundTrip.

(** ** More on the unit parsers *)

Section ParsersOnNumbers.
Import PyStr PyStrFacts PyIntFacts PyIntRoundTrip.

(** Where the memory parser gives a number for a non-empty value, the
    storage parser gives the same. *)
Lemma storage_follows_memory (v : value) (n : Z) :
  truthy v = true -> _parse_memory_size v = Ok n -> _parse_storage_size v = Ok (Some n).
Proof.
  intros Hv. unfold _parse_memory_size, _parse_storage_size. rewrite Hv. simpl.
  set (u := upper (py_str v)).
  pose proof (suffix_tests_exclusive u) as Hx.
  destruct (endswith u "MI"), (endswith u "GI"), (endswith u "M"), (endswith u "G");
    try contradiction; simpl;
    destruct (PyInt.of_str _) as [k|e]; simpl; intros Hk;
    try discriminate; injection Hk as <-; reflexivity.
Qed.

Lemma to_str_not_empty (z : Z) : String.eqb (PyInt.to_str z) "" = false.
Proof.
  destruct (String.eqb_spec (PyInt.to_str z) "") as [H|]; [|reflexivity].
  pose proof (of_str_to_str z) as Hz. rewrite H in Hz. discriminate Hz.
Qed.

(** The memory parser on a number written in decimal and followed
    by a unit. *)
Lemma parse_memory_written (z : Z) (suffix u : string) :
  upper suffix = u -> u <> "" ->
  _parse_memory_size (VStr (PyInt.to_str z ++ suffix)) =
    (let t := upper (PyInt.to_str z) ++ u in
     if endswith t "MI" then PyInt.of_str (drop_last 2 t)
     else if endswith t "GI" then obind (PyInt.of_str (drop_last 2 t)) (fun n => Ok (n * 1024))
     else if endswith t "M" then PyInt.of_str (drop_last 1 t)
     else if endswith t "G" then obind (PyInt.of_str (drop_last 1 t)) (fun n => Ok (n * 1024))
     else PyInt.of_str t).
Proof. apply parse_memory_suffixed. Qed.

Ltac written_with suffix u :=
  rewrite (parse_memory_written _ suffix u eq_refl) by discriminate;
  cbv zeta; rewrite !endswith_ending; simpl list_prefix; cbv iota;
  change (drop_last ?k (?a ++ u)) with (drop_last (String.length u) (a ++ u));
  rewrite drop_last_app, of_str_upper, of_str_to_str.

(** X6. A size written as a decimal number and a unit is read back
    as that number of MB (Mi, M) or 1024 times it (Gi, G), by both
    size parsers; an int is read as that many MB, except that the
    storage parser gives [None] for the int 0. *)
Theorem sizes_read_back (n : Z) :
  _parse_memory_size (VInt n) = Ok n
  /\ _parse_storage_size (VInt n) = Ok (if n =? 0 then None else Some n)
  /\ _parse_memory_size (VStr (PyInt.to_str n)) = Ok n
  /\ _parse_memory_size (VStr (PyInt.to_str n ++ "Mi")) = Ok n
  /\ _parse_memory_size (VStr (PyInt.to_str n ++ "M")) = Ok n
  /\ _parse_memory_size (VStr (PyInt.to_str n ++ "Gi")) = Ok (n * 1024)
  /\ _parse_memory_size (VStr (PyInt.to_str n ++ "G")) = Ok (n * 1024)
  /\ _parse_storage_size (VStr (PyInt.to_str n)) = Ok (Some n)
  /\ _parse_storage_size (VStr (PyInt.to_str n ++ "Mi")) = Ok (Some n)
  /\ _parse_storage_size (VStr (PyInt.to_str n ++ "M")) = Ok (Some n)
  /\ _parse_storage_size (VStr (PyInt.to_str n ++ "Gi")) = Ok (Some (n * 1024))
  /\ _parse_storage_size (VStr (PyInt.to_str n ++ "G")) = Ok (Some (n * 1024)).
Proof.
  assert (Hplain : _parse_memory_size (VStr (PyInt.to_str n)) = Ok n).
  { pose proof (numeric_unsuffixed _ _ (of_str_to_str n)) as Hs.
    apply unsuffixed_tests in Hs as (H1 & H2 & H3 & H4).
    unfold _parse_memory_size. cbn [truthy py_str]. rewrite to_str_not_empty. cbn [negb].
    now rewrite H1, H2, H3, H4, of_str_upper, of_str_to_str. }
  assert (Hint : _parse_memory_size (VInt n) = Ok n).
  { unfold _parse_memory_size in *. cbn [truthy py_str py_repr] in *.
    rewrite to_str_not_empty in Hplain. cbn [negb] in Hplain.
    destruct (Z.eqb_spec n 0) as [->|]; [reflexivity | exact Hplain]. }
  assert (Hmi : _parse_memory_size (VStr (PyInt.to_str n ++ "Mi")) = Ok n)
    by (written_with "Mi" "MI"; reflexivity).
  assert (Hm : _parse_memory_size (VStr (PyInt.to_str n ++ "M")) = Ok n)
    by (written_with "M" "M"; reflexivity).
  assert (Hgi : _parse_memory_size (VStr (PyInt.to_str n ++ "Gi")) = Ok (n * 1024))
    by (written_with "Gi" "GI"; reflexivity).
  assert (Hg : _parse_memory_size (VStr (PyInt.to_str n ++ "G")) = Ok (n * 1024))
    by (written_with "G" "G"; reflexivity).
  assert (Hne : forall suffix, truthy (VStr (PyInt.to_str n ++ suffix)) = true).
  { intros suffix. cbn [truthy]. destruct (PyInt.to_str n) eqn:Hs; [|reflexivity].
    pose proof (to_str_not_empty n) as He. now rewrite Hs in He. }
  repeat apply conj; auto using storage_follows_memory.
  - unfold _parse_storage_size. cbn [truthy].
    destruct (Z.eqb_spec n 0) as [->|Hn]; [reflexivity|]. cbn [negb].
    assert (Hv : truthy (VInt n) = true) by (cbn [truthy]; now destruct (Z.eqb_spec n 0)).
    pose proof (storage_follows_memory (VInt n) n Hv Hint) as Hst.
    unfold _parse_storage_size in Hst. now rewrite Hv in Hst.
  - apply storage_follows_memory; [|exact Hplain].
    cbn [truthy]. now rewrite to_str_not_empty.
Qed.

End ParsersOnNumbers.

(** ** Whole numbers of cores *)

Module PyFloatOnIntegers.
Import PyStr PyFloat PyStrFacts PyIntRoundTrip PyFloatFacts.

(** The binary64 value of an integer ratio whose value [P] is an
    integer below [2^53]: no rounding takes place. *)
Lemma of_ratio_scaled (neg : bool) (P j : Z) :
  0 < P < 2 ^ 53 -> 0 <= j ->
  of_ratio neg (P * 2 ^ j) (2 ^ j) = Finite neg (P * 2 ^ (52 - Z.log2 P)) (Z.log2 P - 52).
Proof.
  intros HP Hj. pose proof (Z.log2_nonneg P) as Hl0.
  assert (Hl : Z.log2 P < 53) by (apply Z.log2_lt_pow2; lia).
  destruct (Z.log2_spec P) as [Hlow _]; [lia|].
  assert (Hpj : 0 < 2 ^ j) by (apply Z.pow_pos_nonneg; lia).
  unfold of_ratio. destruct (Z.eqb_spec (P * 2 ^ j) 0); [nia|].
  rewrite Z.log2_mul_pow2, Z.log2_pow2 by lia.
  replace (j + Z.log2 P - j) with (Z.log2 P) by lia.
  destruct (Z.leb_spec 0 (Z.log2 P)); [|lia].
  assert (Hbelow : (P * 2 ^ j <? 2 ^ j * 2 ^ Z.log2 P) = false) by (apply Z.ltb_ge; nia).
  rewrite Hbelow. cbv zeta.
  replace (Z.max (Z.log2 P - 52) (-1074)) with (Z.log2 P - 52) by lia.
  destruct (Z.leb_spec 0 (Z.log2 P - 52)).
  - replace (Z.log2 P - 52) with 0 by lia. replace (52 - Z.log2 P) with 0 by lia.
    change (2 ^ 0) with 1. rewrite !Z.mul_1_r, round_half_even_exact by lia.
    assert (Hsmall : (2 ^ 1024 <=? P) = false).
    { apply Z.leb_gt. apply Z.lt_le_trans with (2 ^ 53); [lia|].
      apply Z.pow_le_mono_r; lia. }
    now rewrite Hsmall.
  - cbn [andb]. replace (- (Z.log2 P - 52)) with (52 - Z.log2 P) by lia.
    replace (P * 2 ^ j * 2 ^ (52 - Z.log2 P)) with (P * 2 ^ (52 - Z.log2 P) * 2 ^ j) by ring.
    now rewrite round_half_even_exact.
Qed.

(** [int(x * 1000)] for the float [x] of an integer [N] with
    [1000 * N] below [2^53]. *)
Lemma thousandfold (neg : bool) (N : Z) :
  0 <= N -> 1000 * N < 2 ^ 53 ->
  to_int (mul_int (of_ratio neg (N * 10 ^ 0) 1) 1000) = Ok (if neg then - (1000 * N) else 1000 * N).
Proof.
  intros HN Hb. change (10 ^ 0) with 1. rewrite Z.mul_1_r.
  destruct (Z.eqb_spec N 0) as [->|Hnz]; [now destruct neg|].
  assert (HN53 : 0 < N < 2 ^ 53) by lia.
  pose proof (of_ratio_scaled neg N 0 HN53 (Z.le_refl 0)) as HfN.
  change (2 ^ 0) with 1 in HfN. rewrite Z.mul_1_r in HfN. rewrite HfN.
  pose proof (Z.log2_nonneg N) as Hl0.
  assert (Hl : Z.log2 N < 52).
  { apply Z.log2_lt_pow2; [lia|]. change (2 ^ 53) with (2 * 2 ^ 52) in Hb. lia. }
  unfold mul_int. destruct (Z.leb_spec 0 (Z.log2 N - 52)); [lia|].
  replace (- (Z.log2 N - 52)) with (52 - Z.log2 N) by lia.
  replace (N * 2 ^ (52 - Z.log2 N) * 1000) with (1000 * N * 2 ^ (52 - Z.log2 N)) by ring.
  rewrite of_ratio_scaled by lia.
  set (P := 1000 * N). pose proof (Z.log2_nonneg P) as HlP0.
  assert (HlP : Z.log2 P < 53) by (apply Z.log2_lt_pow2; lia).
  unfold to_int. destruct (Z.leb_spec 0 (Z.log2 P - 52)).
  - replace (Z.log2 P - 52) with 0 by lia. replace (52 - Z.log2 P) with 0 by lia.
    change (2 ^ 0) with 1. now rewrite !Z.mul_1_r.
  - replace (- (Z.log2 P - 52)) with (52 - Z.log2 P) by lia.
    rewrite Z.div_mul; [reflexivity|].
    apply Z.pow_nonzero; lia.
Qed.

End PyFloatOnIntegers.

Module PyFloatOnText.
Import PyStr PyFloat PyStrFacts PyIntFacts PyIntRoundTrip PyFloatFacts.

Lemma numeral_char_facts (c : ascii) :
  numeral_char c = true ->
  lower_char c = c /\ is_space c = false /\ Ascii.eqb c "_" = false
  /\ Ascii.eqb c "m" = false.
Proof.
  destruct c as [b0 b1 b2 b3 b4 b5 b6 b7].
  destruct b0, b1, b2, b3, b4, b5, b6, b7; vm_compute; intuition congruence.
Qed.

Lemma digit_facts (c : ascii) :
  is_digit c = true ->
  numeral_char c = true /\ Ascii.eqb c "-" = false /\ Ascii.eqb c "+" = false
  /\ Ascii.eqb c "i" = false /\ Ascii.eqb c "n" = false.
Proof.
  destruct c as [b0 b1 b2 b3 b4 b5 b6 b7].
  destruct b0, b1, b2, b3, b4, b5, b6, b7; vm_compute; intuition congruence.
Qed.

Lemma map_lower_numeral_char (l : list ascii) :
  (forall c, In c l -> numeral_char c = true) -> map lower_char l = l.
Proof.
  induction l as [|c l IH]; intros H; [reflexivity|]. cbn [map].
  destruct (numeral_char_facts c (H c (or_introl eq_refl))) as (-> & _).
  rewrite IH; [reflexivity|]. intros d Hd. apply H. now right.
Qed.

Lemma underscores_ok_numeral_char (l : list ascii) (prev : ascii) :
  Ascii.eqb prev "_" = false ->
  (forall c, In c l -> numeral_char c = true) -> underscores_ok prev l = true.
Proof.
  revert prev. induction l as [|c l IH]; intros prev Hprev H; cbn [underscores_ok].
  - now rewrite Hprev.
  - destruct (numeral_char_facts c (H c (or_introl eq_refl))) as (_ & _ & Hc & _).
    rewrite Hc, Hprev. cbn [negb orb andb]. apply IH; [exact Hc|].
    intros d Hd. apply H. now right.
Qed.

Lemma remove_underscores_numeral_char (l : list ascii) :
  (forall c, In c l -> numeral_char c = true) -> remove_underscores l = l.
Proof.
  induction l as [|c l IH]; intros H; [reflexivity|]. unfold remove_underscores in *.
  cbn [filter]. destruct (numeral_char_facts c (H c (or_introl eq_refl))) as (_ & _ & -> & _).
  cbn [negb]. rewrite IH; [reflexivity|]. intros d Hd. apply H. now right.
Qed.

(** The digits of a run of digits, read by the float reader as by
    the int reader. *)
Lemma take_digits_all (l : list ascii) :
  (forall c, In c l -> is_digit c = true) ->
  forall acc k v, PyInt.digitpart acc true l = Some v ->
  take_digits acc k l = (v, k + Z.of_nat (List.length l), []).
Proof.
  induction l as [|c l IH]; intros H acc k v Hv.
  - injection Hv as <-. cbn. now rewrite Z.add_0_r.
  - cbn [PyInt.digitpart take_digits] in *. rewrite (H c (or_introl eq_refl)) in *.
    rewrite (IH (fun d Hd => H d (or_intror Hd)) _ (k + 1) v Hv).
    f_equal. f_equal. cbn [List.length]. lia.
Qed.

(** [float] of a run of digits, with or without a minus sign. *)
Lemma of_str_digits (l : list ascii) (v : Z) (neg : bool) :
  l <> [] ->
  (forall c, In c l -> is_digit c = true) ->
  PyInt.digitpart 0 true l = Some v ->
  of_str (of_chars (if neg then "-"%char :: l else l)) = Ok (of_ratio neg (v * 10 ^ 0) 1).
Proof.
  intros Hne Hdigits Hv.
  assert (Hnumeral_char : forall c, In c (if neg then "-"%char :: l else l) -> numeral_char c = true).
  { destruct neg; [intros c [<-|Hc]; [reflexivity|]|intros c Hc];
      now apply digit_facts, Hdigits. }
  unfold of_str. unfold lower. rewrite chars_map_chars.
  unfold chars, of_chars. rewrite list_ascii_of_string_of_list_ascii.
  rewrite map_lower_numeral_char by exact Hnumeral_char.
  rewrite strip_none by (intros c Hc; now apply numeral_char_facts, Hnumeral_char).
  rewrite underscores_ok_numeral_char by (reflexivity || exact Hnumeral_char).
  rewrite remove_underscores_numeral_char by exact Hnumeral_char.
  destruct l as [|c r]; [contradiction|].
  destruct (digit_facts c (Hdigits c (or_introl eq_refl))) as (_ & Hm & Hp & Hi & Hn).
  destruct neg.
  - change (Ascii.eqb "-" "-") with true. cbv iota beta.
    cbn [string_of_list_ascii String.eqb]. rewrite Hi, Hn. cbn [orb].
    unfold decimal. rewrite (take_digits_all (c :: r) Hdigits 0 0 v Hv).
    cbn [List.length]. 
    destruct (Z.ltb_spec 0 (0 + Z.of_nat (S (List.length r)) + 0)); [|lia].
    unfold of_decimal. reflexivity.
  - rewrite Hm, Hp. cbv iota beta.
    cbn [string_of_list_ascii String.eqb]. rewrite Hi, Hn. cbn [orb].
    unfold decimal. rewrite (take_digits_all (c :: r) Hdigits 0 0 v Hv).
    cbn [List.length]. 
    destruct (Z.ltb_spec 0 (0 + Z.of_nat (S (List.length r)) + 0)); [|lia].
    unfold of_decimal. reflexivity.
Qed.

(** The text of an int: a run of digits that reads as its absolute
    value, after a minus sign when it is negative. *)
Lemma to_str_form (z : Z) :
  exists l, l <> [] /\ (forall c, In c l -> is_digit c = true)
            /\ PyInt.digitpart 0 true l = Some (Z.abs z)
            /\ PyInt.to_str z = of_chars (if z <? 0 then "-"%char :: l else l).
Proof.
  destruct z as [|p|p].
  - exists ["0"%char]. repeat split; [discriminate|]. now intros c [<-|[]].
  - pose proof (DecimalPos.Unsigned.to_uint_nonnil p) as Hnil.
    exists (chars (NilEmpty.string_of_uint (Pos.to_uint p))). repeat split.
    + destruct (Pos.to_uint p); [contradiction|discriminate ..].
    + apply digits_of_uint.
    + now rewrite digitpart_of_uint, DecimalPos.Unsigned.of_to by exact Hnil.
    + cbn [Z.ltb Z.compare]. rewrite of_chars_chars. unfold PyInt.to_str.
      cbn [Z.to_int NilZero.string_of_int]. unfold NilZero.string_of_uint.
      destruct (Pos.to_uint p); [contradiction|reflexivity ..].
  - pose proof (DecimalPos.Unsigned.to_uint_nonnil p) as Hnil.
    exists (chars (NilEmpty.string_of_uint (Pos.to_uint p))). repeat split.
    + destruct (Pos.to_uint p); [contradiction|discriminate ..].
    + apply digits_of_uint.
    + now rewrite digitpart_of_uint, DecimalPos.Unsigned.of_to by exact Hnil.
    + cbn [Z.ltb Z.compare of_chars string_of_list_ascii].
      fold (of_chars (chars (NilEmpty.string_of_uint (Pos.to_uint p)))).
      rewrite of_chars_chars. unfold PyInt.to_str.
      cbn [Z.to_int NilZero.string_of_int]. unfold NilZero.string_of_uint.
      destruct (Pos.to_uint p); [contradiction|reflexivity ..].
Qed.

Lemma to_str_numeral (z : Z) (c : ascii) :
  In c (chars (PyInt.to_str z)) -> numeral_char c = true.
Proof.
  destruct (to_str_form z) as (l & _ & Hd & _ & ->).
  unfold chars, of_chars. rewrite list_ascii_of_string_of_list_ascii.
  destruct (z <? 0); [intros [<-|Hc]; [reflexivity|]|intros Hc]; now apply digit_facts, Hd.
Qed.

Lemma lower_to_str (z : Z) : lower (PyInt.to_str z) = PyInt.to_str z.
Proof.
  rewrite <- (of_chars_chars (lower _)). unfold lower. rewrite chars_map_chars.
  rewrite map_lower_numeral_char by apply to_str_numeral. apply of_chars_chars.
Qed.

(** [float(str(z))] is the binary64 value nearest to [z]. *)
Lemma float_of_to_str (z : Z) :
  of_str (PyInt.to_str z) = Ok (of_ratio (z <? 0) (Z.abs z * 10 ^ 0) 1).
Proof.
  destruct (to_str_form z) as (l & Hne & Hd & Hv & ->).
  now apply of_str_digits.
Qed.

End PyFloatOnText.

Section CpuOnNumbers.
Import PyStr PyStrFacts PyIntFacts.

(** X7. A whole number of cores, given as an int or as its decimal
    text, is read as 1000 millicores each, as long as the product
    stays below [2^53] in absolute value; followed by m it is read as
    that many millicores. *)
Theorem whole_cores_read (n : Z) :
  - 2 ^ 53 < 1000 * n < 2 ^ 53 ->
  _parse_cpu_value (VInt n) = Ok (1000 * n)
  /\ _parse_cpu_value (VStr (PyInt.to_str n)) = Ok (1000 * n)
  /\ _parse_cpu_value (VStr (PyInt.to_str n ++ "m")) = Ok n.
Proof.
  intros Hb.
  assert (Htext : _parse_cpu_value (VStr (PyInt.to_str n)) = Ok (1000 * n)).
  { unfold _parse_cpu_value. cbn [truthy py_str]. rewrite to_str_not_empty. cbn [negb].
    rewrite PyFloatOnText.lower_to_str.
    destruct (endswith (PyInt.to_str n) "m") eqn:Hend.
    - apply (endswith_last_char _ "m" "m"%char [] eq_refl) in Hend.
      apply PyFloatOnText.to_str_numeral in Hend. discriminate Hend.
    - rewrite PyFloatOnText.float_of_to_str. cbn [obind].
      rewrite PyFloatOnIntegers.thousandfold by lia.
      destruct (Z.ltb_spec n 0); f_equal; lia. }
  repeat apply conj.
  - unfold _parse_cpu_value in *. cbn [truthy py_str py_repr] in *.
    rewrite to_str_not_empty in Htext. cbn [negb] in Htext.
    destruct (Z.eqb_spec n 0) as [->|]; [reflexivity | exact Htext].
  - exact Htext.
  - unfold _parse_cpu_value. cbn [truthy py_str].
    rewrite app_not_empty by discriminate. cbn [negb].
    rewrite lower_app, PyFloatOnText.lower_to_str. change (lower "m") with "m".
    rewrite endswith_app. change 1%nat with (String.length "m").
    now rewrite drop_last_app, PyIntRoundTrip.of_str_to_str.
Qed.

End CpuOnNumbers.

(** ** What the parsers raise *)

Section ParserExceptions.
Import PyStr.

Lemma int_raises (s : string) (e : exn) : PyInt.of_str s = Raise e -> e = ValueError.
Proof.
  unfold PyInt.of_str. destruct (PyInt.signed_digitpart _); [discriminate|].
  now intros [= <-].
Qed.

Lemma float_raises (s : string) (e : exn) : PyFloat.of_str s = Raise e -> e = ValueError.
Proof.
  unfold PyFloat.of_str. destruct (PyFloat.underscores_ok _ _); [|now intros [= <-]].
  destruct (match PyFloat.remove_underscores _ with [] => _ | _ :: _ => _ end) as [neg body].
  destruct (_ || _); [discriminate|]. destruct (String.eqb _ "nan"); [discriminate|].
  destruct (PyFloat.decimal body) as [[mant ex]|]; [discriminate|]. now intros [= <-].
Qed.

Lemma scaled_int_raises (s : string) (k : Z) (e : exn) :
  obind (PyInt.of_str s) (fun n => Ok (n * k)) = Raise e -> e = ValueError.
Proof.
  destruct (PyInt.of_str s) as [n|e'] eqn:Hs; [discriminate|].
  intros [= <-]. eauto using int_raises.
Qed.

(** X8. Whatever the value, the size parsers raise nothing but
    [ValueError], and the storage parser raises only on a text with a
    unit suffix; the CPU parser raises nothing but [ValueError] and,
    for an infinite number, [OverflowError]. *)
Theorem parsers_raise (v : value) :
  (forall e, _parse_memory_size v = Raise e -> e = ValueError)
  /\ (forall e, _parse_storage_size v = Raise e ->
        e = ValueError /\ unsuffixed (py_str v) = false)
  /\ (forall e, _parse_cpu_value v = Raise e -> e = ValueError \/ e = OverflowError).
Proof.
  repeat apply conj; intros e.
  - unfold _parse_memory_size. destruct (negb (truthy v)); [discriminate|].
    repeat match goal with
           | |- (if ?b then _ else _) = _ -> _ => destruct b
           end; eauto using int_raises, scaled_int_raises.
  - unfold _parse_storage_size, unsuffixed. destruct (negb (truthy v)); [discriminate|].
    cbv zeta. set (u := upper (py_str v)).
    destruct (endswith u "GI") eqn:Hgi; [rewrite orb_true_r | ];
      [|destruct (endswith u "G") eqn:Hg; [rewrite !orb_true_r |];
        [|destruct (endswith u "MI") eqn:Hmi; cbn [orb];
          [|destruct (endswith u "M") eqn:Hm; cbn [orb]]]];
      cbn [orb negb];
      try (destruct (PyInt.of_str _) as [n|e'] eqn:Hs; [discriminate|];
           apply int_raises in Hs; subst e'; cbn [obind]; intros [= <-]; now split).
  - unfold _parse_cpu_value. destruct (negb (truthy v)); [discriminate|].
    destruct (endswith _ "m"); [left; eauto using int_raises|].
    destruct (PyFloat.of_str _) as [x|e'] eqn:Hx; cbn [obind].
    + unfold PyFloat.to_int. destruct (PyFloat.mul_int x 1000); [discriminate| |];
        intros [= <-]; auto.
    + intros [= <-]. left. eauto using float_raises.
Qed.

End ParserExceptions.

(** ** The storage a service takes *)

Section ServiceStorage.

(** X9. The storage a service takes, in MB: 0 for a name that is no
    service with storage; 0 when its persistence block or a section
    above it is absent, and when the block is not enabled, whatever
    its size says; with persistence enabled, the number the storage
    parser reads, 0 when it reads none, and the parser's exception
    when it raises. An entry on the way that is no mapping raises
    [AttributeError]. *)
Theorem get_service_storage_size_spec (values : dict) (service : string) :
  _get_service_storage_size (VDict values) service =
    match storage_path service with
    | None => Ok 0
    | Some path =>
        match dig values path with
        | None => Raise AttributeError
        | Some p =>
            if truthy (get_or p "enabled" VNone) then
              match _parse_storage_size (get_or p "size" (VStr "")) with
              | Ok (Some n) => Ok n
              | Ok None => Ok 0
              | Raise e => Raise e
              end
            else Ok 0
        end
    end.
Proof.
  assert (Hblock : forall k1 k2 k3,
    obind
      (obind (py_get (VDict values) k1 (VDict [])) (fun a =>
         obind (py_get a k2 (VDict [])) (fun b =>
           obind (py_get b k3 (VDict [])) (fun c => Ok (Some c)))))
      (fun persistence =>
         match persistence with
         | None => Ok 0
         | Some persistence =>
             obind (py_get persistence "enabled" VNone) (fun enabled =>
               if truthy enabled then
                 obind (py_get persistence "size" (VStr "")) (fun size =>
                   obind (_parse_storage_size size) (fun parsed =>
                     Ok (if truthy_opt parsed
                         then match parsed with Some n => n | None => 0 end else 0)))
               else Ok 0)
         end)
    = match dig values [k1; k2; k3] with
      | None => Raise AttributeError
      | Some p =>
          if truthy (get_or p "enabled" VNone) then
            match _parse_storage_size (get_or p "size" (VStr "")) with
            | Ok (Some n) => Ok n
            | Ok None => Ok 0
            | Raise e => Raise e
            end
          else Ok 0
      end).
  { intros k1 k2 k3. cbn [dig py_get obind].
    destruct (lookup k1 values) as [[| | | | |a]|]; try reflexivity. cbn [py_get obind].
    destruct (lookup k2 a) as [[| | | | |b]|]; try reflexivity. cbn [py_get obind].
    destruct (lookup k3 b) as [[| | | | |p]|]; try reflexivity.
    - cbn [obind py_get]. fold (get_or p "enabled" VNone).
      destruct (truthy (get_or p "enabled" VNone)); [|reflexivity].
      fold (get_or p "size" (VStr "")).
      destruct (_parse_storage_size _) as [[n|]|e]; cbn [obind truthy_opt]; try reflexivity.
      destruct (Z.eqb_spec n 0) as [->|]; reflexivity. }
  unfold _get_service_storage_size, storage_path.
  destruct (String.eqb service "postgresql"); [apply Hblock|].
  destruct (String.eqb service "redis"); [apply Hblock|].
  destruct (String.eqb service "vllm"); [apply Hblock|].
  reflexivity.
Qed.

End ServiceStorage.

(** ** Checks that only warn *)

Section OnlyWarnings.
Local Open Scope method_scope.

Lemma keeps_errors_if {A : Type} (b : bool) (m1 m2 : M A) :
  keeps_errors m1 -> keeps_errors m2 -> keeps_errors (if b then m1 else m2).
Proof. now destruct b. Qed.

Lemma keeps_errors_and_then (a b : M bool) :
  keeps_errors a -> keeps_errors b -> keeps_errors (and_then a b).
Proof.
  intros Ha Hb. apply keeps_errors_bind; [exact Ha|].
  intros []; auto using keeps_errors_ret.
Qed.

Lemma keeps_errors_for_fold {A S : Type} (l : list A) (body : A -> S -> M S) (s : S) :
  (forall x t, keeps_errors (body x t)) -> keeps_errors (for_fold l body s).
Proof.
  intros Hb. revert s. induction l as [|x l IH]; intros s; simpl.
  - apply keeps_errors_ret.
  - apply keeps_errors_bind; auto.
Qed.

Ltac only_warns :=
  repeat first [ apply keeps_errors_bind; [|intro]
               | apply keeps_errors_when
               | apply keeps_errors_and_then
               | apply keeps_errors_for_fold; intros
               | apply keeps_errors_if
               | apply keeps_errors_lift
               | apply keeps_errors_ret
               | apply keeps_errors_warnings_append
               | progress cbv zeta ].

(** X10. The capacity check and the storage check never touch the
    errors: whatever the values are, and whether the check returns
    or raises, the errors after it are the errors before it. *)
Theorem capacity_and_storage_only_warn (values : value) :
  keeps_errors (_validate_resource_limits values)
  /\ keeps_errors (_validate_storage_config values).
Proof.
  split.
  - unfold _validate_resource_limits, add_requests. only_warns.
  - unfold _validate_storage_config. only_warns.
Qed.

End OnlyWarnings.

(** ** The section validators, statement by statement *)

Section SectionValidators.
Local Open Scope method_scope.

Lemma bind_cases {A B : Type} (m : M A) (k : A -> M B) (self : ConfigValidator) :
  bind m k self =
    match fst (m self) with
    | Ok a => k a (snd (m self))
    | Raise e => (Raise e, snd (m self))
    end.
Proof. unfold bind. now destruct (m self) as [[a|e] s]. Qed.

Lemma bind_assoc {A B C : Type} (m : M A) (k1 : A -> M B) (k2 : B -> M C)
    (self : ConfigValidator) :
  bind m (fun a => bind (k1 a) k2) self = bind (bind m k1) k2 self.
Proof. unfold bind. now destruct (m self) as [[a|e] s]. Qed.

Lemma dig_get (d x : dict) (k : string) :
  dig d [k] = Some x -> py_get (VDict d) k (VDict []) = Ok (VDict x).
Proof.
  cbn [dig py_get]. destruct (lookup k d) as [[| | | | |y]|]; try discriminate;
    now intros [= <-].
Qed.

Lemma when_errors_append (b : bool) (msg : string) (self : ConfigValidator) :
  when b (errors_append msg) self = (Ok tt, with_findings self (if b then [msg] else []) []).
Proof.
  destruct b; cbn [when]; [apply errors_append_run|].
  unfold ret. now rewrite with_findings_nil.
Qed.

Lemma when_warnings_append (b : bool) (msg : string) (self : ConfigValidator) :
  when b (warnings_append msg) self = (Ok tt, with_findings self [] (if b then [msg] else [])).
Proof.
  destruct b; cbn [when]; [apply warnings_append_run|].
  unfold ret. now rewrite with_findings_nil.
Qed.

(** Whether a section is there and enabled, as the validators ask. *)
Lemma enabled_section_run (d : dict) (k : string) (s : option dict) (self : ConfigValidator) :
  section_of d k s ->
  and_then (lift (py_in k (VDict d)))
    (x <- lift (py_getitem (VDict d) k) ;;
     enabled <- lift (py_get x "enabled" VNone) ;;
     ret (truthy enabled)) self
  = (Ok (enabled_section s), self).
Proof.
  unfold section_of, and_then, bind, lift, ret, py_in, py_getitem.
  destruct (lookup k d) as [[| | | | |x]|]; try contradiction; now intros ->.
Qed.

Lemma section_of_item (d x : dict) (k : string) :
  section_of d k (Some x) -> py_getitem (VDict d) k = Ok (VDict x).
Proof.
  unfold section_of, py_getitem.
  destruct (lookup k d) as [[| | | | |y]|]; try contradiction; try discriminate.
  now intros [= ->].
Qed.

(** X11. The API validator, for a section whose replica count is a
    number or absent (absent counts as 1), whose resources entry is
    a mapping or absent and whose healthCheck entry is a mapping or
    absent: a count below 1 appends one Error; the ratio check runs,
    under the name api, exactly when the resources hold both
    requests and limits; then a health check that is enabled and
    names no path appends one Warning. When the ratio check raises,
    the health check is not looked at. *)
Theorem validate_api_config_spec
    (api resources : dict) (too_few : bool) (health_check : option dict)
    (self : ConfigValidator) :
  py_lt (get_or api "replicaCount" (VInt 1)) 1 = Ok too_few ->
  dig api ["resources"] = Some resources ->
  section_of api "healthCheck" health_check ->
  let self1 := with_findings self (replica_errors too_few) [] in
  let checked :=
    if is_some (lookup "requests" resources) && is_some (lookup "limits" resources)
    then _validate_resource_ratio (VDict resources) "api" self1
    else (Ok tt, self1) in
  _validate_api_config (VDict api) self =
    match fst checked with
    | Ok _ => (Ok tt, with_findings (snd checked) [] (health_warnings health_check))
    | Raise e => (Raise e, snd checked)
    end.
Proof.
  intros Hlt Hres Hhc. cbv zeta. unfold _validate_api_config.
  lift_step (eq_refl (Ok (get_or api "replicaCount" (VInt 1)))).
  lift_step Hlt.
  bind_step (when_errors_append too_few "API replica count must be at least 1" self).
  fold (replica_errors too_few). set (self1 := with_findings self _ []).
  lift_step (dig_get _ _ _ Hres).
  assert (Hboth :
    and_then (lift (py_in "requests" (VDict resources)))
      (lift (py_in "limits" (VDict resources))) self1
    = (Ok (is_some (lookup "requests" resources) && is_some (lookup "limits" resources)),
       self1)).
  { unfold and_then, bind, lift, ret, py_in.
    now destruct (lookup "requests" resources), (lookup "limits" resources). }
  bind_step Hboth.
  assert (Hhealth : forall s,
    (checked <- and_then (lift (py_in "healthCheck" (VDict api)))
                  (hc <- lift (py_getitem (VDict api) "healthCheck") ;;
                   enabled <- lift (py_get hc "enabled" VNone) ;;
                   ret (truthy enabled)) ;;
     when checked (
       health_check <- lift (py_getitem (VDict api) "healthCheck") ;;
       path <- lift (py_get health_check "path" VNone) ;;
       when (negb (truthy path)) (warnings_append "Health check path not specified for API"))) s
    = (Ok tt, with_findings s [] (health_warnings health_check))).
  { intros s. bind_step (enabled_section_run api "healthCheck" health_check s Hhc).
    unfold health_warnings. destruct health_check as [h|]; cbn [enabled_section].
    - destruct (truthy (get_or h "enabled" VNone)); cbn [when andb].
      + lift_step (section_of_item _ _ _ Hhc).
        lift_step (eq_refl (Ok (get_or h "path" VNone))).
        apply when_warnings_append.
      + unfold ret. now rewrite with_findings_nil.
    - unfold ret. cbn [when]. now rewrite with_findings_nil. }
  rewrite bind_cases.
  destruct (is_some (lookup "requests" resources) && is_some (lookup "limits" resources));
    cbn [when].
  - destruct (fst (_validate_resource_ratio (VDict resources) "api" self1)) as [[]|e];
      [apply Hhealth | reflexivity].
  - cbn [ret fst snd]. apply Hhealth.
Qed.

Lemma keeps_warnings_ret {A : Type} (a : A) : keeps_warnings (ret a).
Proof. now intros self. Qed.

Lemma keeps_warnings_lift {A : Type} (o : outcome A) : keeps_warnings (lift o).
Proof. now intros self. Qed.

Lemma keeps_warnings_errors_append (msg : string) : keeps_warnings (errors_append msg).
Proof. now intros self. Qed.

Lemma keeps_warnings_bind {A B : Type} (m : M A) (k : A -> M B) :
  keeps_warnings m -> (forall a, keeps_warnings (k a)) -> keeps_warnings (bind m k).
Proof.
  intros Hm Hk self. unfold bind. specialize (Hm self).
  destruct (m self) as [[a|e] self']; simpl in *; [|exact Hm].
  now rewrite Hk.
Qed.

Lemma keeps_warnings_when (b : bool) (m : M unit) :
  keeps_warnings m -> keeps_warnings (when b m).
Proof. destruct b; simpl; auto using keeps_warnings_ret. Qed.

Lemma keeps_warnings_if {A : Type} (b : bool) (m1 m2 : M A) :
  keeps_warnings m1 -> keeps_warnings m2 -> keeps_warnings (if b then m1 else m2).
Proof. now destruct b. Qed.

Lemma keeps_warnings_and_then (a b : M bool) :
  keeps_warnings a -> keeps_warnings b -> keeps_warnings (and_then a b).
Proof.
  intros Ha Hb. apply keeps_warnings_bind; [exact Ha|].
  intros []; auto using keeps_warnings_ret.
Qed.

Ltac no_warning :=
  repeat first [ apply keeps_warnings_bind; [|intro]
               | apply keeps_warnings_when
               | apply keeps_warnings_and_then
               | apply keeps_warnings_if
               | apply keeps_warnings_lift
               | apply keeps_warnings_ret
               | apply keeps_warnings_errors_append
               | progress cbv zeta ].

(** X12. The warnings of the database validator, for a section whose
    [auth] entry is a mapping or absent: when the validator returns,
    it has appended "Database name not specified" if no database is
    named and then the default-password Warning if the password is
    the text changeme, and nothing else; when it raises (on the
    storage size), the authentication is not looked at and no
    Warning is appended. *)
Theorem validate_database_config_auth (db_config auth : dict) (self : ConfigValidator) :
  dig db_config ["auth"] = Some auth ->
  let run := _validate_database_config (VDict db_config) self in
  warnings (snd run) =
    List.app (warnings self)
      (match fst run with
       | Ok _ => auth_warnings auth
       | Raise _ => []
       end).
Proof.
  intros Hauth. cbv zeta. unfold _validate_database_config.
  match goal with
  | |- context [bind ?p (fun persistent => bind (when persistent ?x) ?rest) self] =>
      set (first_part := bind p (fun persistent => when persistent x));
      assert (Hsplit : bind p (fun persistent => bind (when persistent x) rest) self
                       = bind first_part rest self);
      [ exact (bind_assoc p (fun persistent => when persistent x) rest self)
      | assert (Hfirst : keeps_warnings first_part) by (unfold first_part; no_warning) ]
  end.
  rewrite Hsplit, bind_cases. specialize (Hfirst self).
  destruct (first_part self) as [[[]|e] s1]; cbn [fst snd] in *.
  2: { now rewrite app_nil_r. }
  lift_step (dig_get _ _ _ Hauth).
  lift_step (eq_refl (Ok (get_or auth "database" VNone))).
  bind_step (when_warnings_append (negb (truthy (get_or auth "database" VNone)))
               "Database name not specified" s1).
  lift_step (eq_refl (Ok (get_or auth "postgresPassword" (VStr "")))).
  rewrite when_warnings_append. cbn [fst snd with_findings warnings].
  rewrite Hfirst, <- app_assoc. unfold auth_warnings.
  now destruct (truthy (get_or auth "database" VNone)).
Qed.

(** The memory check of the model-serving service. *)
Lemma memory_check_run (vllm : dict) (memory : option Z) (self : ConfigValidator) :
  requested_memory vllm memory ->
  (resources <- lift (py_get (VDict vllm) "resources" (VDict [])) ;;
   has_requests <- lift (py_in "requests" resources) ;;
   when has_requests (
     requests <- lift (py_getitem resources "requests") ;;
     memory <- lift (py_get requests "memory" (VStr "")) ;;
     low <- (if truthy memory then
               mb <- lift (_parse_memory_size memory) ;; ret (mb <? 1024)
             else ret false) ;;
     when low (warnings_append "vLLM memory request may be too low for model loading"))) self
  = (Ok tt,
     with_findings self []
       (match memory with
        | Some mb =>
            if mb <? 1024 then ["vLLM memory request may be too low for model loading"] else []
        | None => []
        end)).
Proof.
  intros [Hres|res Hres Hreq|res req Hres Hreq Hmem|res req mb Hres Hreq Hmem Hmb];
    unfold bind, lift, ret, py_get, py_in, py_getitem; rewrite Hres; cbn [lookup when].
  - now rewrite with_findings_nil.
  - rewrite Hreq. cbn [when]. now rewrite with_findings_nil.
  - rewrite Hreq. cbn [when]. fold (get_or req "memory" (VStr "")). rewrite Hmem.
    cbn [when]. now rewrite with_findings_nil.
  - rewrite Hreq. cbn [when]. fold (get_or req "memory" (VStr "")). rewrite Hmem, Hmb.
    apply when_warnings_append.
Qed.

(** X13. The AI validator, for a section whose [vllm] and
    [audioProcessor] entries are mappings or absent, where the
    resources entry of an enabled model-serving service, the
    requests entry of these resources and the persistence entry of
    the service are each a mapping or absent, its memory request,
    when given and not empty, is a quantity the memory parser reads,
    and the env entry of an enabled audio processor is a mapping or
    absent. The validator returns. For an enabled model-serving
    service it has appended one Error when no model is named, one
    Warning when the memory request is below 1024 MB, one Warning
    when its persistence is not enabled; for an enabled audio
    processor, one Warning when its environment names no model. A
    service that is absent or not enabled appends nothing. *)
Theorem validate_ai_config_spec
    (ai : dict) (vllm audio : option dict) (memory : option Z) (persistence env : dict)
    (self : ConfigValidator) :
  section_of ai "vllm" vllm ->
  section_of ai "audioProcessor" audio ->
  (forall v, vllm = Some v -> enabled_section vllm = true ->
     requested_memory v memory /\ dig v ["persistence"] = Some persistence) ->
  (forall a, audio = Some a -> enabled_section audio = true -> dig a ["env"] = Some env) ->
  _validate_ai_config (VDict ai) self =
    (Ok tt,
     with_findings self (vllm_errors vllm)
       (vllm_warnings vllm memory persistence ++ audio_warnings audio env)).
Proof.
  intros Hvllm Haudio Hv Ha. unfold _validate_ai_config.
  bind_step (enabled_section_run ai "vllm" vllm self Hvllm).
  assert (Hfirst :
    when (enabled_section vllm) (
      vllm <- lift (py_getitem (VDict ai) "vllm") ;;
      model <- lift (py_get vllm "model" (VStr "")) ;;
      when (negb (truthy model)) (errors_append "vLLM model not specified") ;;
      resources <- lift (py_get vllm "resources" (VDict [])) ;;
      has_requests <- lift (py_in "requests" resources) ;;
      when has_requests (
        requests <- lift (py_getitem resources "requests") ;;
        memory <- lift (py_get requests "memory" (VStr "")) ;;
        low <- (if truthy memory then
                  mb <- lift (_parse_memory_size memory) ;; ret (mb <? 1024)
                else ret false) ;;
        when low (warnings_append "vLLM memory request may be too low for model loading")) ;;
      persistence <- lift (py_get vllm "persistence" (VDict [])) ;;
      enabled <- lift (py_get persistence "enabled" VNone) ;;
      when (negb (truthy enabled))
        (warnings_append
           "vLLM persistence disabled - models will be re-downloaded on restart")) self
    = (Ok tt, with_findings self (vllm_errors vllm) (vllm_warnings vllm memory persistence))).
  { unfold vllm_errors, vllm_warnings.
    destruct (enabled_section vllm) eqn:Hon; cbn [when].
    2: { destruct vllm; unfold ret; now rewrite with_findings_nil. }
    destruct vllm as [v|]; [|discriminate Hon].
    destruct (Hv v eq_refl eq_refl) as [Hmem Hpers].
    lift_step (section_of_item _ _ _ Hvllm).
    lift_step (eq_refl (Ok (get_or v "model" (VStr "")))).
    bind_step (when_errors_append (negb (truthy (get_or v "model" (VStr ""))))
                 "vLLM model not specified" self).
    set (s1 := with_findings self _ []).
    pose proof (memory_check_run v memory s1 Hmem) as Hcheck.
    unfold bind at 1 2 in Hcheck.
    unfold bind at 1 2.
    destruct (lift (py_get (VDict v) "resources" (VDict [])) s1) as [[res|e] s2];
      [|discriminate Hcheck].
    destruct (lift (py_in "requests" res) s2) as [[has|e] s3]; [|discriminate Hcheck].
    bind_step Hcheck.
    lift_step (dig_get _ _ _ Hpers).
    lift_step (eq_refl (Ok (get_or persistence "enabled" VNone))).
    rewrite when_warnings_append. subst s1. rewrite !with_findings_twice.
    cbn [andb app]. rewrite app_nil_r.
    now destruct (truthy (get_or persistence "enabled" VNone)). }
  bind_step Hfirst. set (s1 := with_findings self _ _).
  bind_step (enabled_section_run ai "audioProcessor" audio s1 Haudio).
  unfold audio_warnings. destruct (enabled_section audio) eqn:Hon; cbn [when andb].
  - destruct audio as [a|]; [|discriminate Hon].
    lift_step (section_of_item _ _ _ Haudio).
    lift_step (dig_get _ _ _ (Ha a eq_refl eq_refl)).
    lift_step (eq_refl (Ok (get_or env "DIART_MODEL" VNone))).
    rewrite when_warnings_append. subst s1. rewrite with_findings_twice.
    now rewrite app_nil_r.
  - unfold ret. subst s1. now rewrite app_nil_r.
Qed.

End SectionValidators.

(** ** Documents that are no mappings *)

Section NoMapping.
Local Open Scope method_scope.

Variable fs : filesystem.

(** A document that answers [in] and has neither items under text
    keys nor a [get]: a text or a list. *)
Section Container.

Variable values : value.
Variable holds : string -> bool.

Hypothesis values_in : forall k, py_in k values = Ok (holds k).
Hypothesis values_item : forall k, py_getitem values k = Raise TypeError.
Hypothesis values_get : forall k d, py_get values k d = Raise AttributeError.

Lemma container_raises (file : string) (self : ConfigValidator) :
  load_yaml fs file = inr values ->
  fst (validate_helm_values fs file self) = Raise TypeError
  \/ fst (validate_helm_values fs file self) = Raise AttributeError.
Proof.
  intros Hload. unfold validate_helm_values. rewrite Hload.
  unfold _validate_resource_limits, _validate_storage_config.
  cbn [for_each for_fold]. rewrite !values_in, !values_item, !values_get.
  unfold bind, lift, when, and_then, ret, errors_append.
  destruct (holds "api"), (holds "postgresql"), (holds "redis"), (holds "ai"),
    (holds "frontend"); cbn; auto.
Qed.

End Container.

(** On [None], a bool and an int the first membership test raises. *)
Lemma scalar_raises (file : string) (values : value) (self : ConfigValidator) :
  load_yaml fs file = inr values ->
  match values with
  | VNone | VBool _ | VInt _ =>
      validate_helm_values fs file self = (Raise TypeError, self)
  | _ => True
  end.
Proof. intros Hload. unfold validate_helm_values. rewrite Hload. now destruct values. Qed.

Lemma no_mapping_raises (file : string) (values : value) (self : ConfigValidator) :
  load_yaml fs file = inr values ->
  (forall d, values <> VDict d) ->
  fst (validate_helm_values fs file self) = Raise TypeError
  \/ fst (validate_helm_values fs file self) = Raise AttributeError.
Proof.
  intros Hload Hno. pose proof (scalar_raises file values self Hload) as Hearly.
  destruct values as [|b|z|s|l|d].
  - left. now rewrite Hearly.
  - left. now rewrite Hearly.
  - left. now rewrite Hearly.
  - now apply (container_raises (VStr s) (fun k => PyStr.is_substring k s)).
  - now apply (container_raises (VList l) (fun k => existsb (fun x => eq_str x k) l)).
  - now contradiction (Hno d).
Qed.

(** X14. A values file that parses to something other than a mapping
    is not reported: the validation raises. An empty file ([None]),
    a bool and an int raise [TypeError] at the first membership test,
    before anything is recorded; a text or a list raises [TypeError]
    or [AttributeError] further on. *)
Theorem values_not_a_mapping (file : string) (values : value) (self : ConfigValidator) :
  load_yaml fs file = inr values ->
  (forall d, values <> VDict d) ->
  (fst (validate_helm_values fs file self) = Raise TypeError
   \/ fst (validate_helm_values fs file self) = Raise AttributeError)
  /\ match values with
     | VNone | VBool _ | VInt _ =>
         validate_helm_values fs file self = (Raise TypeError, self)
     | _ => True
     end.
Proof.
  intros Hload Hno. split.
  - exact (no_mapping_raises file values self Hload Hno).
  - exact (scalar_raises file values self Hload).
Qed.

(** A node that is no mapping stops the search for control-plane
    nodes. *)
Lemma control_plane_of_raises (nodes : list value) (self : ConfigValidator) :
  (exists n, In n nodes /\ forall x, n <> VDict x) ->
  control_plane_of nodes self = (Raise AttributeError, self).
Proof.
  induction nodes as [|n r IH]; intros (bad & Hin & Hbad); [contradiction|].
  cbn [control_plane_of]. unfold is_control_plane.
  destruct n as [| | | | |x]; try reflexivity.
  destruct Hin as [<-|Hin]; [now contradiction (Hbad x)|].
  unfold bind at 1 2. cbn [lift py_get ret].
  unfold bind at 1. rewrite IH by eauto. reflexivity.
Qed.

Lemma kind_no_mapping_raises (config : value) (self : ConfigValidator) :
  path_exists fs (kind_config_path self) = true ->
  load_yaml fs (kind_config_path self) = inr config ->
  (forall d, config <> VDict d) ->
  validate_kind_config fs self = (Raise AttributeError, self).
Proof.
  intros Hexists Hload Hno. unfold kind_config_path in *. unfold validate_kind_config.
  bind_step (eq_refl (Ok self, self)). cbv zeta. rewrite Hexists, Hload. cbn [negb].
  destruct config as [| | | | |d]; try reflexivity. now contradiction (Hno d).
Qed.

(** X15. A cluster document that is read and parsed but is not what
    the check expects is not reported either. A document that is no
    mapping (an empty file, a list, a text) raises [AttributeError]
    before anything is recorded; a mapping whose [nodes] list holds
    an entry that is no mapping raises [AttributeError] after the
    check of the document's kind. *)
Theorem kind_config_malformed (config : value) (self : ConfigValidator) :
  path_exists fs (kind_config_path self) = true ->
  load_yaml fs (kind_config_path self) = inr config ->
  ((forall d, config <> VDict d) ->
   validate_kind_config fs self = (Raise AttributeError, self))
  /\ (forall d nodes,
        config = VDict d ->
        lookup "nodes" d = Some (VList nodes) ->
        (exists n, In n nodes /\ forall x, n <> VDict x) ->
        validate_kind_config fs self =
          (Raise AttributeError,
           with_findings self
             (if eq_str (get_or d "kind" VNone) "Cluster" then []
              else ["Kind config must be of type 'Cluster'"]) [])).
Proof.
  intros Hexists Hload. split; [now apply kind_no_mapping_raises|].
  unfold kind_config_path in *.
  intros d nodes -> Hnodes Hbad. unfold validate_kind_config.
    bind_step (eq_refl (Ok self, self)). cbv zeta. rewrite Hexists, Hload. cbn [negb].
    lift_step (eq_refl (Ok (get_or d "kind" VNone))).
    bind_step (when_errors_append (negb (eq_str (get_or d "kind" VNone) "Cluster"))
                 "Kind config must be of type 'Cluster'" self).
    set (s1 := with_findings self _ []).
    assert (Hget : py_get (VDict d) "nodes" (VList []) = Ok (VList nodes))
      by (cbn [py_get]; now rewrite Hnodes).
    lift_step Hget.
    assert (Hfull : truthy (VList nodes) = true).
    { destruct Hbad as (n & Hin & _). destruct nodes; [contradiction | reflexivity]. }
    rewrite Hfull. cbn [negb when].
    bind_step (eq_refl (Ok tt, s1)).
    lift_step (eq_refl (Ok nodes)).
    unfold bind at 1. rewrite control_plane_of_raises by exact Hbad.
    subst s1. now destruct (eq_str (get_or d "kind" VNone) "Cluster").
Qed.

End NoMapping.

(** ** The report *)

Section Report.
Import PyStr.

Lemma append_assoc (a b c : string) : (a ++ b) ++ c = a ++ b ++ c.
Proof. induction a as [|x a IH]; simpl; [reflexivity | now rewrite IH]. Qed.

Lemma append_inj_l (a x y : string) : a ++ x = a ++ y -> x = y.
Proof. induction a as [|c a IH]; simpl; [auto|]. intros [= H]. auto. Qed.

Lemma join_cons (sep x : string) (l : list string) :
  l <> [] -> join sep (x :: l) = x ++ sep ++ join sep l.
Proof. destruct l; [contradiction | reflexivity]. Qed.

Lemma join_app (sep : string) (l1 l2 : list string) :
  l1 <> [] -> l2 <> [] -> join sep (l1 ++ l2)%list = join sep l1 ++ sep ++ join sep l2.
Proof.
  intros H1 H2. induction l1 as [|x l1 IH]; [contradiction|].
  destruct l1 as [|y l1].
  - cbn [app]. now rewrite join_cons.
  - change ((x :: y :: l1) ++ l2)%list with (x :: ((y :: l1) ++ l2))%list.
    rewrite join_cons by discriminate. rewrite IH by discriminate.
    rewrite (join_cons sep x (y :: l1)) by discriminate.
    now rewrite !append_assoc.
Qed.

(** An element of a list that is neither its first nor its last
    is a full line of the joined text. *)
Lemma join_has_line (l1 l2 : list string) (x : string) :
  l1 <> [] -> l2 <> [] -> has_line (join line_feed (l1 ++ x :: l2)%list) x.
Proof.
  intros H1 H2. exists (join line_feed l1), (join line_feed l2).
  rewrite join_app by (assumption || discriminate).
  now rewrite join_cons.
Qed.

Lemma in_middle {A : Type} (x : A) (l a b : list A) :
  In x l -> a <> [] -> b <> [] ->
  exists l1 l2, (a ++ l ++ b = l1 ++ x :: l2)%list /\ l1 <> [] /\ l2 <> [].
Proof.
  intros Hx Ha Hb. apply in_split in Hx as (u & v & ->).
  exists (a ++ u)%list, (v ++ b)%list. repeat split.
  - now rewrite <- !app_assoc.
  - destruct a; [contradiction | discriminate].
  - destruct v; [exact Hb | discriminate].
Qed.

(** X16. No finding is left out of the report: every recorded Error
    and every recorded Warning stands in it as a line of its own,
    after a bullet. *)
Theorem report_lists_every_finding (self : ConfigValidator) (finding : string) :
  In finding (errors self) \/ In finding (warnings self) ->
  has_line (generate_report self) ("  • " ++ finding).
Proof.
  intros Hin. unfold generate_report, report_lines. cbv zeta.
  set (bullet := fun error : string => "  • " ++ error).
  change ("  • " ++ finding) with (bullet finding).
  set (head := (([times "=" 60] ++ ["GameMaster's Companion Configuration Validation Report"])
                  ++ [times "=" 60])%list).
  set (foot := [line_feed ++ times "=" 60]).
  assert (Hhead : head <> []) by discriminate.
  assert (Hfoot : foot <> []) by discriminate.
  destruct Hin as [Hin|Hin].
  - assert (Hb : In (bullet finding) (map bullet (errors self))) by now apply in_map.
    destruct (errors self) as [|e es] eqn:He; [contradiction|]. cbn [is_empty negb andb].
    set (eh := [line_feed ++ "❌ ERRORS (" ++ PyInt.to_str (Z.of_nat (List.length (e :: es)))
                  ++ "):"]) in *.
    set (rest := if negb (is_empty (warnings self)) then _ else _).
    assert (Hform : exists tail, tail <> [] /\
      (rest ++ foot = (head ++ eh) ++ map bullet (e :: es) ++ tail)%list).
    { subst rest. destruct (negb (is_empty (warnings self))).
      - eexists. split; [|rewrite <- !app_assoc; reflexivity]. 
        destruct (warnings self); discriminate.
      - exists foot. split; [exact Hfoot | now rewrite <- !app_assoc]. }
    destruct Hform as (tail & Htail & ->).
    destruct (in_middle _ _ (head ++ eh)%list tail Hb) as (l1 & l2 & -> & H1 & H2);
      [discriminate | exact Htail | now apply join_has_line].
  - assert (Hb : In (bullet finding) (map bullet (warnings self))) by now apply in_map.
    destruct (warnings self) as [|w ws] eqn:Hw; [contradiction|].
    rewrite andb_false_r. cbn [is_empty negb].
    set (before := if negb (is_empty (errors self)) then _ else _).
    set (wh := [line_feed ++ "⚠️  WARNINGS (" ++ PyInt.to_str (Z.of_nat (List.length (w :: ws)))
                  ++ "):"]) in *.
    assert (Hbefore : before <> []) by (subst before; destruct (negb _); discriminate).
    rewrite <- !app_assoc.
    replace (before ++ wh ++ map bullet (w :: ws) ++ foot)%list
      with ((before ++ wh) ++ map bullet (w :: ws) ++ foot)%list by now rewrite <- !app_assoc.
    destruct (in_middle _ _ (before ++ wh)%list foot Hb) as (l1 & l2 & -> & H1 & H2);
      [destruct before; [contradiction | discriminate] | exact Hfoot
      | now apply join_has_line].
Qed.

Lemma clean_report_iff (self : ConfigValidator) :
  generate_report self = clean_report <-> errors self = [] /\ warnings self = [].
Proof.
  unfold generate_report, report_lines, clean_report. cbv zeta.
  set (rule := times "=" 60).
  set (title := "GameMaster's Companion Configuration Validation Report").
  split.
  - destruct (errors self) as [|e es], (warnings self) as [|w ws]; [now split| ..];
      cbn [is_empty negb andb app map join]; intros H;
      repeat (apply append_inj_l in H);
      cbn [line_feed append] in H; discriminate H.
  - intros [-> ->]. reflexivity.
Qed.

(** X17. The report is the one that says that all validations
    passed exactly when the validator holds neither an Error nor a
    Warning. So, when [main] reaches its exit, such a report comes
    with status 0, and under the strict flag status 0 comes with no
    other report; without the flag, status 0 says only that no Error
    is held. *)
Theorem clean_report_and_exit_status :
  (forall self, generate_report self = clean_report <-> errors self = [] /\ warnings self = [])
  /\ (forall fs root args code,
        fst (main fs root args) = Ok code ->
        let report := generate_report (snd (main fs root args)) in
        (report = clean_report -> code = 0)
        /\ (strict args = true -> code = 0 -> report = clean_report)
        /\ (strict args = false -> code = 0 -> errors (snd (main fs root args)) = [])).
Proof.
  split; [exact clean_report_iff|].
  intros fs root args code. cbv zeta. rewrite clean_report_iff.
  unfold main, bind.
  destruct (run_validations fs args (new_validator root)) as [[[]|e] validator];
    [|discriminate].
  unfold get_self. cbv beta iota.
  destruct (negb (is_empty (errors validator))
            || strict args && negb (is_empty (warnings validator))) eqn:Hc;
    cbn [ret fst snd]; intros [= <-].
  - repeat split; try discriminate.
    intros [He Hw]. rewrite He, Hw in Hc. now destruct (strict args).
  - destruct (errors validator), (warnings validator), (strict args);
      try discriminate Hc; repeat split; intros; try reflexivity; discriminate.
Qed.

End Report.

(** ** Findings recorded before a call play no part in it *)

Section Frame.
Local Open Scope method_scope.

Lemma under_cleared (self : ConfigValidator) :
  under (errors self) (warnings self) (cleared self) = self.
Proof. destruct self. unfold under, cleared. cbn. now rewrite !app_nil_r. Qed.

Lemma same_paths_refl (a : ConfigValidator) : same_paths a a.
Proof. now split. Qed.

Lemma same_paths_trans (a b c : ConfigValidator) :
  same_paths a b -> same_paths b c -> same_paths a c.
Proof. intros [? ?] [? ?]. split; congruence. Qed.

Lemma framed_ret {A : Type} (a : A) : framed (ret a).
Proof. intros es ws self. split; [reflexivity | apply same_paths_refl]. Qed.

Lemma framed_lift {A : Type} (o : outcome A) : framed (lift o).
Proof. intros es ws self. split; [reflexivity | apply same_paths_refl]. Qed.

Lemma framed_errors_append (msg : string) : framed (errors_append msg).
Proof.
  intros es ws self. split; [|now split].
  unfold errors_append, under. cbn. now rewrite app_assoc.
Qed.

Lemma framed_warnings_append (msg : string) : framed (warnings_append msg).
Proof.
  intros es ws self. split; [|now split].
  unfold warnings_append, under. cbn. now rewrite app_assoc.
Qed.

Lemma framed_bind {A B : Type} (m : M A) (k : A -> M B) :
  framed m -> (forall a, framed (k a)) -> framed (bind m k).
Proof.
  intros Hm Hk es ws self. unfold bind. destruct (Hm es ws self) as [-> Hp].
  destruct (m self) as [[a|e] s]; cbn [fst snd] in *; [|now split].
  destruct (Hk a es ws s) as [-> Hp']. eauto using same_paths_trans.
Qed.

Lemma framed_when (b : bool) (m : M unit) : framed m -> framed (when b m).
Proof. destruct b; simpl; auto using framed_ret. Qed.

Lemma framed_if {A : Type} (b : bool) (m1 m2 : M A) :
  framed m1 -> framed m2 -> framed (if b then m1 else m2).
Proof. now destruct b. Qed.

Lemma framed_and_then (a b : M bool) : framed a -> framed b -> framed (and_then a b).
Proof.
  intros Ha Hb. apply framed_bind; [exact Ha|]. intros []; auto using framed_ret.
Qed.

Lemma framed_for_each {A : Type} (l : list A) (body : A -> M unit) :
  (forall x, framed (body x)) -> framed (for_each l body).
Proof.
  intros Hb. induction l as [|x l IH]; simpl; [apply framed_ret|].
  apply framed_bind; auto.
Qed.

Lemma framed_for_fold {A S : Type} (l : list A) (body : A -> S -> M S) (s : S) :
  (forall x t, framed (body x t)) -> framed (for_fold l body s).
Proof.
  intros Hb. revert s. induction l as [|x l IH]; intros s; simpl; [apply framed_ret|].
  apply framed_bind; auto.
Qed.

Ltac frame_step :=
  first
    [ apply framed_ret | apply framed_lift
    | apply framed_errors_append | apply framed_warnings_append
    | assumption
    | apply framed_bind; [|intro]
    | apply framed_when
    | apply framed_and_then
    | apply framed_for_each; intro
    | apply framed_for_fold; intros
    | apply framed_if
    | match goal with
      | |- framed (match ?x with _ => _ end) => destruct x
      end
    | progress cbv zeta ].

Ltac frame := repeat frame_step.

Lemma ratio_framed (resources : value) (service : string) :
  framed (_validate_resource_ratio resources service).
Proof. unfold _validate_resource_ratio. frame. Qed.

Lemma api_framed (api_config : value) : framed (_validate_api_config api_config).
Proof.
  unfold _validate_api_config. pose proof ratio_framed as Hratio.
  repeat first [apply Hratio | frame_step].
Qed.

Lemma database_framed (db_config : value) : framed (_validate_database_config db_config).
Proof. unfold _validate_database_config. frame. Qed.

Lemma ai_framed (ai_config : value) : framed (_validate_ai_config ai_config).
Proof. unfold _validate_ai_config. frame. Qed.

Lemma limits_framed (values : value) : framed (_validate_resource_limits values).
Proof. unfold _validate_resource_limits, add_requests. frame. Qed.

Lemma storage_framed (values : value) : framed (_validate_storage_config values).
Proof. unfold _validate_storage_config. frame. Qed.

Lemma control_plane_of_framed (nodes : list value) : framed (control_plane_of nodes).
Proof.
  induction nodes as [|n r IH]; simpl; [apply framed_ret|].
  unfold is_control_plane. frame.
Qed.

Lemma framed_state_of_framed {A : Type} (m : M A) : framed m -> framed_state m.
Proof.
  intros Hm es ws self. destruct (Hm es ws self) as [-> Hp].
  split; [reflexivity | split; [reflexivity | exact Hp]].
Qed.

(** A framed statement before statements whose returned value may
    depend on the findings. *)
Lemma framed_state_bind {A B : Type} (m : M A) (k : A -> M B) :
  framed m -> (forall a, framed_state (k a)) -> framed_state (bind m k).
Proof.
  intros Hm Hk es ws self. unfold bind. destruct (Hm es ws self) as [-> Hp].
  destruct (m self) as [[a|e] s]; cbn [fst snd] in *;
    [|split; [reflexivity | split; [reflexivity | exact Hp]]].
  destruct (Hk a es ws s) as (-> & -> & Hp'). eauto using same_paths_trans.
Qed.

(** A statement whose returned value is not used. *)
Lemma framed_state_seq {A B : Type} (m : M A) (k : M B) :
  framed_state m -> framed_state k -> framed_state (bind m (fun _ => k)).
Proof.
  intros Hm Hk es ws self. unfold bind. destruct (Hm es ws self) as (Hs & Hr & Hp).
  destruct (m (under es ws self)) as [[a|e] s], (m self) as [[a'|e'] s'];
    cbn [fst snd raised] in *; try discriminate; subst s.
  - destruct (Hk es ws s') as (-> & -> & Hp'). eauto using same_paths_trans.
  - split; [reflexivity | split; [exact Hr | exact Hp]].
Qed.

(** The validator object read only for its directories. *)
Lemma framed_state_get_self {B : Type} (k : ConfigValidator -> M B) :
  (forall es ws a, k (under es ws a) = k a) ->
  (forall a, framed_state (k a)) ->
  framed_state (bind get_self k).
Proof.
  intros Hsame Hk es ws self. unfold bind, get_self. rewrite Hsame. apply Hk.
Qed.

(** The last statement of a validator: whether it holds no error. *)
Lemma framed_state_last :
  framed_state (self <- get_self ;; ret (is_empty (errors self))).
Proof.
  intros es ws self. split; [reflexivity | split; [reflexivity | apply same_paths_refl]].
Qed.

Lemma framed_state_failed (msg : string) : framed_state (errors_append msg ;; ret false).
Proof.
  apply framed_state_of_framed. apply framed_bind; [apply framed_errors_append|].
  intros _. apply framed_ret.
Qed.

Variable fs : filesystem.

Lemma helm_values_framed (file : string) : framed_state (validate_helm_values fs file).
Proof.
  unfold validate_helm_values. destruct (load_yaml fs file) as [e|values].
  - apply framed_state_failed.
  - pose proof api_framed as Hapi. pose proof database_framed as Hdb.
    pose proof ai_framed as Hai. pose proof limits_framed as Hlim.
    pose proof storage_framed as Hst.
    repeat first
      [ apply framed_state_last
      | apply framed_state_bind; [repeat first [apply Hapi | apply Hdb | apply Hai
                                               | apply Hlim | apply Hst | frame_step]
                                 | intro ] ].
Qed.

Lemma chart_structure_framed : framed_state (validate_chart_structure fs).
Proof.
  unfold validate_chart_structure. apply framed_state_get_self; [reflexivity|].
  intros a. cbv zeta.
  repeat first [ apply framed_state_last
               | apply framed_state_bind; [frame | intro] ].
Qed.

Lemma kind_config_framed : framed_state (validate_kind_config fs).
Proof.
  unfold validate_kind_config. apply framed_state_get_self; [reflexivity|].
  intros a. cbv zeta. pose proof control_plane_of_framed as Hcp.
  destruct (negb _); [apply framed_state_failed|].
  destruct (load_yaml fs _); [apply framed_state_failed|].
  unfold is_control_plane.
  repeat first [ apply framed_state_last
               | apply framed_state_bind; [repeat first [apply Hcp | frame_step] | intro] ].
Qed.

Lemma framed_state_done {A : Type} (m : M A) :
  framed_state m -> framed_state (m ;; ret tt).
Proof.
  intros Hm. apply framed_state_seq; [exact Hm|].
  apply framed_state_of_framed, framed_ret.
Qed.

Lemma framed_state_for_each {A : Type} (l : list A) (body : A -> M unit) :
  (forall x, framed_state (body x)) -> framed_state (for_each l body).
Proof.
  intros Hb. induction l as [|x l IH]; simpl.
  - apply framed_state_of_framed, framed_ret.
  - apply framed_state_seq; auto.
Qed.

Lemma run_validations_framed (args : arguments) : framed_state (run_validations fs args).
Proof.
  unfold run_validations.
  apply framed_state_seq; [apply chart_structure_framed|].
  apply framed_state_seq; [apply kind_config_framed|].
  destruct (values_file args) as [file|].
  - apply framed_state_done, helm_values_framed.
  - destruct (environment args) as [env|].
    + apply framed_state_get_self; [reflexivity|]. intros a.
      apply framed_state_seq; [apply helm_values_framed|].
      apply framed_state_done, helm_values_framed.
    + apply framed_state_get_self; [reflexivity|]. intros a.
      apply framed_state_for_each. intros file.
      apply framed_state_done, helm_values_framed.
Qed.

Lemma history_free_of_framed_state {A : Type} (m : M A) : framed_state m -> history_free m.
Proof.
  intros Hm self.
  destruct (Hm (errors self) (warnings self) (cleared self)) as (Hs & Hr & Hp1 & Hp2).
  rewrite under_cleared in Hs, Hr. split; [|exact Hr].
  rewrite Hs. unfold under, with_findings. cbn [cleared project_root helm_chart_dir] in *.
  now rewrite <- Hp1, <- Hp2.
Qed.

(** X18. What a validator appends, and whether and what it raises,
    does not depend on the findings recorded before the call: it is
    what the same call appends and raises on a validator that holds
    no finding. This holds of the section validators, of the three
    validators [main] calls and of the whole sequence of validations
    (only the booleans returned depend on the earlier errors). *)
Theorem findings_independent_of_history :
  (forall resources service, history_free (_validate_resource_ratio resources service))
  /\ (forall api_config, history_free (_validate_api_config api_config))
  /\ (forall db_config, history_free (_validate_database_config db_config))
  /\ (forall ai_config, history_free (_validate_ai_config ai_config))
  /\ (forall values, history_free (_validate_resource_limits values))
  /\ (forall values, history_free (_validate_storage_config values))
  /\ (forall file, history_free (validate_helm_values fs file))
  /\ history_free (validate_chart_structure fs)
  /\ history_free (validate_kind_config fs)
  /\ (forall args, history_free (run_validations fs args)).
Proof.
  repeat refine (conj _ _); intros;
    apply history_free_of_framed_state;
    first [ apply helm_values_framed | apply chart_structure_framed
          | apply kind_config_framed | apply run_validations_framed
          | apply framed_state_of_framed;
            first [ apply ratio_framed | apply api_framed | apply database_framed
                  | apply ai_framed | apply limits_framed | apply storage_framed ] ].
Qed.

End Frame.

(** ** The driver *)

Section Driver.
Local Open Scope method_scope.

Variable fs : filesystem.

Lemma bind_congr {A B : Type} (m : M A) (k1 k2 : A -> M B) (self : ConfigValidator) :
  (forall a, k1 a (snd (m self)) = k2 a (snd (m self))) ->
  bind m k1 self = bind m k2 self.
Proof. intros H. unfold bind. destruct (m self) as [[a|e] s]; [apply H | reflexivity]. Qed.

Lemma validate_file_framed (file : string) : framed_state (validate_file fs file).
Proof. apply framed_state_done, helm_values_framed. Qed.

(** The values files of a run, as a loop over [selected_files]. *)
Lemma selected_files_run (root : string) (args : arguments) (self : ConfigValidator) :
  helm_chart_dir self = helm_chart_dir (new_validator root) ->
  match values_file args with
  | Some file => validate_helm_values fs file ;; ret tt
  | None =>
      match environment args with
      | Some env =>
          validator <- get_self ;;
          validate_helm_values fs
            (path_join (helm_chart_dir validator) ("values-" ++ env ++ ".yaml")) ;;
          validate_helm_values fs (path_join (helm_chart_dir validator) "values.yaml") ;;
          ret tt
      | None =>
          validator <- get_self ;;
          for_each (glob fs (helm_chart_dir validator) "values*.yaml")
            (fun file => validate_helm_values fs file ;; ret tt)
      end
  end self
  = for_each (selected_files fs root args) (validate_file fs) self.
Proof.
  intros Hdir. unfold selected_files, validate_file.
  destruct (values_file args) as [file|]; [|destruct (environment args) as [env|]].
  - cbn [for_each]. unfold bind, ret.
    now destruct (validate_helm_values fs file self) as [[b|e] s].
  - unfold bind at 1. cbn [get_self for_each]. rewrite Hdir.
    unfold bind, ret.
    destruct (validate_helm_values fs _ self) as [[b|e] s]; [|reflexivity].
    now destruct (validate_helm_values fs _ s) as [[b'|e] s'].
  - unfold bind at 1. cbn [get_self]. now rewrite Hdir.
Qed.

Lemma run_validations_files (root : string) (args : arguments) :
  run_validations fs args (new_validator root)
  = (validate_chart_structure fs ;;
     validate_kind_config fs ;;
     for_each (selected_files fs root args) (validate_file fs)) (new_validator root).
Proof.
  unfold run_validations.
  apply bind_congr. intros _.
  destruct (chart_structure_framed fs [] [] (new_validator root)) as (_ & _ & _ & Hdir1).
  apply bind_congr. intros _.
  destruct (kind_config_framed fs [] [] (snd (validate_chart_structure fs (new_validator root))))
    as (_ & _ & _ & Hdir2).
  apply selected_files_run. congruence.
Qed.

Lemma prefix_of_nil {A : Type} (l : list A) : prefix l [] -> l = [].
Proof. intros [k H]. symmetry in H. now apply app_eq_nil in H. Qed.

(** The chart-structure check, run. *)
Lemma chart_structure_run (self : ConfigValidator) :
  let dir := helm_chart_dir self in
  let templates := path_join dir "templates" in
  let es :=
    List.app
      (map (fun name => "Missing required file: " ++ path_join dir name)
         (missing fs dir
            ["Chart.yaml"; "values.yaml"; "values-development.yaml"; "values-production.yaml"]))
      (if path_exists fs templates then [] else ["Missing templates directory"]) in
  let ws :=
    if path_exists fs templates then
      map (fun name => "Missing template file: " ++ name)
        (missing fs templates ["deployment.yaml"; "service.yaml"; "configmap.yaml"])
    else [] in
  validate_chart_structure fs self
  = (Ok (is_empty (errors self ++ es)), with_findings self es ws).
Proof.
  cbv zeta. unfold validate_chart_structure.
  bind_step (eq_refl (Ok self, self)).
  bind_step (errors_loop
               ["Chart.yaml"; "values.yaml"; "values-development.yaml"; "values-production.yaml"]
               (fun name => negb (path_exists fs (path_join (helm_chart_dir self) name)))
               (fun name => "Missing required file: " ++ path_join (helm_chart_dir self) name)
               self).
  fold (missing fs (helm_chart_dir self)
          ["Chart.yaml"; "values.yaml"; "values-development.yaml"; "values-production.yaml"]).
  set (self1 := with_findings self _ []).
  destruct (path_exists fs (path_join (helm_chart_dir self) "templates")); cbn [negb].
  - bind_step (warnings_loop ["deployment.yaml"; "service.yaml"; "configmap.yaml"]
                 (fun name => negb (path_exists fs
                    (path_join (path_join (helm_chart_dir self) "templates") name)))
                 (fun name => "Missing template file: " ++ name) self1).
    unfold bind, get_self, ret. subst self1. rewrite with_findings_twice.
    cbn [with_findings errors app]. now rewrite !app_nil_r.
  - bind_step (errors_append_run "Missing templates directory" self1).
    unfold bind, get_self, ret. subst self1. rewrite with_findings_twice.
    reflexivity.
Qed.

(** A cluster-bootstrap check that returns without an error has
    found its document and read a mapping. *)
Lemma kind_config_clean (self self' : ConfigValidator) (b : bool) :
  validate_kind_config fs self = (Ok b, self') ->
  errors self' = [] ->
  path_exists fs (kind_config_path self) = true
  /\ exists config, load_yaml fs (kind_config_path self) = inr (VDict config).
Proof.
  intros Hrun Hclean.
  destruct (path_exists fs (kind_config_path self)) eqn:Hexists.
  - split; [reflexivity|].
    destruct (load_yaml fs (kind_config_path self)) as [e|config] eqn:Hload.
    + exfalso. unfold validate_kind_config, kind_config_path in *.
      rewrite (bind_run get_self _ self self self eq_refl) in Hrun.
      cbv zeta in Hrun. rewrite Hexists, Hload in Hrun. cbn [negb] in Hrun.
      rewrite (bind_run (errors_append _) _ _ _ _ (errors_append_run _ self)) in Hrun.
      injection Hrun as _ <-. cbn in Hclean. now destruct (errors self).
    + destruct config as [| | | | |d]; [| | | | |eauto];
        rewrite (kind_no_mapping_raises fs _ self Hexists Hload) in Hrun by discriminate;
        discriminate Hrun.
  - exfalso. unfold validate_kind_config, kind_config_path in *.
    rewrite (bind_run get_self _ self self self eq_refl) in Hrun.
    cbv zeta in Hrun. rewrite Hexists in Hrun. cbn [negb] in Hrun.
    rewrite (bind_run (errors_append _) _ _ _ _ (errors_append_run _ self)) in Hrun.
    injection Hrun as _ <-. cbn in Hclean. now destruct (errors self).
Qed.

(** A values file validated without an error, before or after, was
    read as a mapping. *)
Lemma validate_file_clean (file : string) (self self' : ConfigValidator) :
  validate_file fs file self = (Ok tt, self') ->
  errors self' = [] ->
  exists values, load_yaml fs file = inr (VDict values).
Proof.
  unfold validate_file. intros Hrun Hclean.
  apply bind_ok_inv in Hrun as (b & s & Hrun & [= <-]).
  destruct (load_yaml fs file) as [e|values] eqn:Hload.
  - exfalso. unfold validate_helm_values in Hrun. rewrite Hload in Hrun.
    rewrite (bind_run (errors_append _) _ _ _ _ (errors_append_run _ self)) in Hrun.
    injection Hrun as _ <-. cbn in Hclean. now destruct (errors self).
  - destruct values as [| | | | |d]; [| | | | |eauto];
      (destruct (no_mapping_raises fs file _ self Hload) as [H|H]; [discriminate| |]);
      rewrite Hrun in H; discriminate H.
Qed.

Lemma files_clean (l : list string) (self self' : ConfigValidator) :
  for_each l (validate_file fs) self = (Ok tt, self') ->
  errors self' = [] ->
  forall file, In file l -> exists values, load_yaml fs file = inr (VDict values).
Proof.
  revert self. induction l as [|f l IH]; intros self Hrun Hclean file Hin; [contradiction|].
  cbn [for_each] in Hrun. apply bind_ok_inv in Hrun as ([] & s & Hf & Hrest).
  assert (Hs : errors s = []).
  { assert (Hrest' : appends_only (for_each l (validate_file fs))).
    { apply appends_only_for_each. intros x. unfold validate_file.
      apply appends_only_bind; [apply helm_values_appends_only|].
      intros _. apply appends_only_ret. }
    destruct (Hrest' s) as [Hpre _]. rewrite Hrest in Hpre. cbn [snd] in Hpre.
    rewrite Hclean in Hpre.
    now apply prefix_of_nil. }
  destruct Hin as [<-|Hin]; [eauto using validate_file_clean | eauto].
Qed.

(** A chart-structure check that leaves no error has found the
    required files and the templates directory; when it leaves no
    warning either, it has found the expected templates. *)
Lemma chart_structure_clean (self self' : ConfigValidator) (b : bool) :
  validate_chart_structure fs self = (Ok b, self') ->
  errors self' = [] ->
  missing fs (helm_chart_dir self)
    ["Chart.yaml"; "values.yaml"; "values-development.yaml"; "values-production.yaml"] = []
  /\ path_exists fs (path_join (helm_chart_dir self) "templates") = true
  /\ (warnings self' = [] ->
      missing fs (path_join (helm_chart_dir self) "templates")
        ["deployment.yaml"; "service.yaml"; "configmap.yaml"] = [])
  /\ project_root self' = project_root self.
Proof.
  intros Hrun Hclean. pose proof (chart_structure_run self) as Hc. cbv zeta in Hc.
  rewrite Hc in Hrun. clear Hc.
  set (m1 := missing fs (helm_chart_dir self) _) in *.
  set (m2 := missing fs (path_join (helm_chart_dir self) "templates") _) in *.
  injection Hrun as _ <-. unfold with_findings in *. cbn [errors warnings project_root] in *.
  apply app_eq_nil in Hclean as [_ Hclean]. apply app_eq_nil in Hclean as [H1 H2].
  apply map_eq_nil in H1.
  destruct (path_exists fs (path_join (helm_chart_dir self) "templates"));
    [|discriminate H2].
  repeat apply conj; try reflexivity; [exact H1|].
  intros Hw. apply app_eq_nil in Hw as [_ Hw]. now apply map_eq_nil in Hw.
Qed.

(** X19. What status 0 certifies. When [main] exits with status 0,
    the chart directory holds the four required files and the
    templates directory, the cluster document exists and was read as
    a mapping, and every values file of the run was read as a
    mapping; under the strict flag the three expected templates
    exist too. *)
Theorem exit_zero_certifies (root : string) (args : arguments) :
  fst (main fs root args) = Ok 0 ->
  let validator := new_validator root in
  let dir := helm_chart_dir validator in
  missing fs dir
    ["Chart.yaml"; "values.yaml"; "values-development.yaml"; "values-production.yaml"] = []
  /\ path_exists fs (path_join dir "templates") = true
  /\ path_exists fs (kind_config_path validator) = true
  /\ (exists config, load_yaml fs (kind_config_path validator) = inr (VDict config))
  /\ (forall file, In file (selected_files fs root args) ->
        exists values, load_yaml fs file = inr (VDict values))
  /\ (strict args = true ->
        missing fs (path_join dir "templates")
          ["deployment.yaml"; "service.yaml"; "configmap.yaml"] = []).
Proof.
  intros Hexit. cbv zeta. set (s0 := new_validator root).
  unfold main in Hexit. fold s0 in Hexit. rewrite bind_cases in Hexit.
  destruct (run_validations fs args s0) as [[[]|e] s3] eqn:Hrun; cbn [fst snd] in Hexit;
    [|discriminate Hexit].
  unfold bind, get_self in Hexit.
  assert (Hclean : errors s3 = [] /\ (strict args = true -> warnings s3 = [])).
  { destruct (errors s3), (warnings s3), (strict args); cbn in Hexit;
      try discriminate Hexit; split; intros; (reflexivity || discriminate). }
  clear Hexit. destruct Hclean as [Herr Hwarn].
  unfold s0 in Hrun. rewrite run_validations_files in Hrun. fold s0 in Hrun.
  apply bind_ok_inv in Hrun as (b1 & s1 & Hchart & Hrun).
  apply bind_ok_inv in Hrun as (b2 & s2 & Hkind & Hfiles).
  assert (Hloop : appends_only (for_each (selected_files fs root args) (validate_file fs))).
  { apply appends_only_for_each. intros x. unfold validate_file.
    apply appends_only_bind; [apply helm_values_appends_only|].
    intros _. apply appends_only_ret. }
  destruct (Hloop s2) as [He32 Hw32]. rewrite Hfiles in He32, Hw32.
  destruct (kind_config_appends_only fs s1) as [He21 Hw21].
  rewrite Hkind in He21, Hw21.
  change (snd (?a, ?b)) with b in He32, Hw32, He21, Hw21.
  rewrite Herr in He32. apply prefix_of_nil in He32. rewrite He32 in He21.
  apply prefix_of_nil in He21.
  destruct (chart_structure_clean _ _ _ Hchart He21) as (Hm & Ht & Hw & Hroot).
  destruct (kind_config_clean _ _ _ Hkind He32) as [Hkp Hkl].
  unfold kind_config_path in *. rewrite Hroot in Hkp, Hkl.
  repeat apply conj; try assumption.
  - eauto using files_clean.
  - intros Hstrict. specialize (Hwarn Hstrict). rewrite Hwarn in Hw32.
    apply prefix_of_nil in Hw32. rewrite Hw32 in Hw21. apply prefix_of_nil in Hw21. auto.
Qed.

Lemma cleared_with_findings (self : ConfigValidator) (es ws : list string) :
  cleared (with_findings self es ws) = cleared self.
Proof. reflexivity. Qed.

Lemma validate_file_run (file : string) (self : ConfigValidator) :
  raised (fst (validate_file fs file (cleared self))) = None ->
  validate_file fs file self
  = (Ok tt,
     with_findings self
       (errors (snd (validate_file fs file (cleared self))))
       (warnings (snd (validate_file fs file (cleared self))))).
Proof.
  intros Hr.
  destruct (history_free_of_framed_state _ (validate_file_framed file) self) as [Hs Hr'].
  rewrite Hr in Hr'. destruct (validate_file fs file self) as [[[]|e] s]; [|discriminate Hr'].
  cbn [snd] in Hs. now rewrite Hs.
Qed.

Lemma validate_file_raises (file : string) (self : ConfigValidator) (e : exn) :
  raised (fst (validate_file fs file (cleared self))) = Some e ->
  fst (validate_file fs file self) = Raise e.
Proof.
  intros Hr.
  destruct (history_free_of_framed_state _ (validate_file_framed file) self) as [_ Hr'].
  rewrite Hr in Hr'. destruct (fst (validate_file fs file self)); [discriminate Hr'|].
  now injection Hr' as ->.
Qed.

(** The loop over the values files, from what each file gives on a
    validator without findings. *)
Lemma files_loop_returns (c : ConfigValidator) (l : list string) (self : ConfigValidator) :
  cleared self = c ->
  (forall f, In f l -> raised (fst (validate_file fs f c)) = None) ->
  for_each l (validate_file fs) self
  = (Ok tt,
     with_findings self
       (flat_map (fun f => errors (snd (validate_file fs f c))) l)
       (flat_map (fun f => warnings (snd (validate_file fs f c))) l)).
Proof.
  revert self. induction l as [|f l IH]; intros self Hc Hl; cbn [for_each flat_map].
  - unfold ret. now rewrite with_findings_nil.
  - assert (Hf : raised (fst (validate_file fs f (cleared self))) = None)
      by (rewrite Hc; apply Hl; now left).
    rewrite (bind_run _ _ _ _ _ (validate_file_run f self Hf)).
    rewrite IH; [|now rewrite cleared_with_findings | intros g Hg; apply Hl; now right].
    now rewrite with_findings_twice, Hc.
Qed.

Lemma files_loop_raises (c : ConfigValidator) (l : list string) (self : ConfigValidator) :
  cleared self = c ->
  (exists f, In f l /\ raised (fst (validate_file fs f c)) <> None) ->
  exists e, fst (for_each l (validate_file fs) self) = Raise e.
Proof.
  revert self. induction l as [|f l IH]; intros self Hc (g & Hg & Hbad); [contradiction|].
  cbn [for_each]. rewrite bind_cases.
  destruct (raised (fst (validate_file fs f c))) as [e|] eqn:Hf.
  - rewrite <- Hc in Hf. apply validate_file_raises in Hf. rewrite Hf. cbn [fst]. eauto.
  - rewrite <- Hc in Hf. rewrite (validate_file_run f self Hf). cbn [fst snd].
    apply IH; [now rewrite cleared_with_findings|].
    destruct Hg as [<-|Hg]; [|eauto]. rewrite Hc in Hf. contradiction.
Qed.

Lemma files_raise_or_not (c : ConfigValidator) (l : list string) :
  (forall f, In f l -> raised (fst (validate_file fs f c)) = None)
  \/ (exists f, In f l /\ raised (fst (validate_file fs f c)) <> None).
Proof.
  induction l as [|f l [IH|(g & Hg & Hbad)]].
  - left. intros f [].
  - destruct (raised (fst (validate_file fs f c))) eqn:Hf.
    + right. exists f. split; [now left | congruence].
    + left. intros g [<-|Hg]; auto.
  - right. exists g. split; [now right | exact Hbad].
Qed.

End Driver.

Section Listings.
Local Open Scope method_scope.

Lemma flat_map_permutation {A B : Type} (f : A -> list B) (l l' : list A) :
  Permutation l l' -> Permutation (flat_map f l) (flat_map f l').
Proof.
  induction 1; cbn [flat_map].
  - constructor.
  - now apply Permutation_app_head.
  - rewrite !app_assoc. apply Permutation_app_tail, Permutation_app_comm.
  - eauto using Permutation_trans.
Qed.

Lemma is_empty_permutation {A : Type} (l l' : list A) :
  Permutation l l' -> is_empty l = is_empty l'.
Proof.
  intros H. destruct l, l'; try reflexivity.
  - now apply Permutation_nil in H.
  - now apply Permutation_sym, Permutation_nil in H.
Qed.

(** [main], from the validations it runs. *)
Lemma main_run (fs : filesystem) (root : string) (args : arguments) :
  main fs root args =
    match run_validations fs args (new_validator root) with
    | (Ok _, validator) =>
        (Ok (if negb (is_empty (errors validator))
                || strict args && negb (is_empty (warnings validator))
             then 1 else 0), validator)
    | (Raise e, validator) => (Raise e, validator)
    end.
Proof.
  unfold main, bind.
  destruct (run_validations fs args (new_validator root)) as [[[]|e] validator];
    [|reflexivity].
  unfold get_self. now destruct (_ || _).
Qed.

(** X20. The order in which the chart directory lists its values
    files plays no part in the outcome of a run that validates them
    all: listed in another order, the run raises if and only if it
    raised, and otherwise it exits with the same status, with the
    same errors and the same warnings up to their order. *)
Theorem listing_order_is_irrelevant
    (fs : filesystem) (root : string) (args : arguments) (listing : list string) :
  values_file args = None ->
  environment args = None ->
  Permutation (glob fs (helm_chart_dir (new_validator root)) "values*.yaml") listing ->
  let run := main fs root args in
  let run' := main (listing_as fs listing) root args in
  exit_status (fst run') = exit_status (fst run)
  /\ match fst run, fst run' with
     | Ok code, Ok code' =>
         code' = code
         /\ Permutation (errors (snd run)) (errors (snd run'))
         /\ Permutation (warnings (snd run)) (warnings (snd run'))
     | Raise _, Raise _ => True
     | _, _ => False
     end.
Proof.
  intros Hfile Henv Hperm. cbv zeta.
  assert (Hgoal :
    match fst (main fs root args), fst (main (listing_as fs listing) root args) with
    | Ok code, Ok code' =>
        code' = code
        /\ Permutation (errors (snd (main fs root args)))
             (errors (snd (main (listing_as fs listing) root args)))
        /\ Permutation (warnings (snd (main fs root args)))
             (warnings (snd (main (listing_as fs listing) root args)))
    | Raise _, Raise _ => True
    | _, _ => False
    end).
  2: { split; [|exact Hgoal].
       destruct (fst (main fs root args)), (fst (main (listing_as fs listing) root args));
         try contradiction; cbn [exit_status]; [tauto | reflexivity]. }
  rewrite !main_run, !run_validations_files.
  assert (Hl : selected_files fs root args
               = glob fs (helm_chart_dir (new_validator root)) "values*.yaml")
    by (unfold selected_files; now rewrite Hfile, Henv).
  assert (Hl' : selected_files (listing_as fs listing) root args = listing)
    by (unfold selected_files; now rewrite Hfile, Henv).
  rewrite Hl, Hl'. clear Hl Hl'.
  set (l := glob fs _ _) in *. set (s0 := new_validator root).
  change (validate_chart_structure (listing_as fs listing)) with (validate_chart_structure fs).
  change (validate_kind_config (listing_as fs listing)) with (validate_kind_config fs).
  change (validate_file (listing_as fs listing)) with (validate_file fs).
  rewrite !(bind_cases (validate_chart_structure fs)).
  destruct (validate_chart_structure fs s0) as [[b1|e] s1]; cbn [fst snd]; [|exact I].
  rewrite !(bind_cases (validate_kind_config fs)).
  destruct (validate_kind_config fs s1) as [[b2|e] s2]; cbn [fst snd]; [|exact I].
  destruct (files_raise_or_not fs (cleared s2) l) as [Hok|Hbad].
  - assert (Hok' : forall f, In f listing ->
                     raised (fst (validate_file fs f (cleared s2))) = None).
    { intros f Hf. apply Hok. eapply Permutation_in; [apply Permutation_sym|]; eauto. }
    rewrite (files_loop_returns fs (cleared s2) l s2 eq_refl Hok).
    rewrite (files_loop_returns fs (cleared s2) listing s2 eq_refl Hok').
    set (t := with_findings s2 _ _). set (t' := with_findings s2 _ _).
    assert (He : Permutation (errors t) (errors t')).
    { subst t t'. cbn [with_findings errors].
      now apply Permutation_app_head, flat_map_permutation. }
    assert (Hw : Permutation (warnings t) (warnings t')).
    { subst t t'. cbn [with_findings warnings].
      now apply Permutation_app_head, flat_map_permutation. }
    rewrite (is_empty_permutation _ _ He), (is_empty_permutation _ _ Hw).
    cbn [fst snd]. auto.
  - assert (Hbad' : exists f, In f listing
                      /\ raised (fst (validate_file fs f (cleared s2))) <> None).
    { destruct Hbad as (f & Hf & Hr). exists f. split; [|exact Hr].
      eapply Permutation_in; eauto. }
    destruct (files_loop_raises fs (cleared s2) l s2 eq_refl Hbad) as [e He].
    destruct (files_loop_raises fs (cleared s2) listing s2 eq_refl Hbad') as [e' He'].
    destruct (for_each l (validate_file fs) s2) as [[[]|x] t]; [discriminate He|].
    destruct (for_each listing (validate_file fs) s2) as [[[]|x'] t']; [discriminate He'|].
    exact I.
Qed.

Lemma for_each_congr {A : Type} (l : list A) (body body' : A -> M unit)
    (self : ConfigValidator) :
  (forall x s, In x l -> body x s = body' x s) ->
  for_each l body self = for_each l body' self.
Proof.
  revert self. induction l as [|x l IH]; intros self H; [reflexivity|].
  cbn [for_each]. unfold bind. rewrite (H x self) by now left.
  destruct (body' x self) as [[[]|e] s]; [|reflexivity].
  apply IH. intros y t Hy. apply H. now right.
Qed.

(** X21. A run reads the cluster document and the values files it
    selects, and no other file: were every other file to read
    differently, [main] would end with the same status, or the same
    exception, and the same findings. *)
Theorem unread_files_play_no_part
    (fs : filesystem) (root : string) (args : arguments) (load : string -> string + value) :
  load (kind_config_path (new_validator root))
    = load_yaml fs (kind_config_path (new_validator root)) ->
  (forall file, In file (selected_files fs root args) -> load file = load_yaml fs file) ->
  main (reading_as fs load) root args = main fs root args.
Proof.
  intros Hkind Hfiles. rewrite !main_run, !run_validations_files.
  change (selected_files (reading_as fs load) root args) with (selected_files fs root args).
  change (validate_chart_structure (reading_as fs load)) with (validate_chart_structure fs).
  set (s0 := new_validator root) in *.
  assert (Hrun :
    (validate_chart_structure fs ;;
     validate_kind_config (reading_as fs load) ;;
     for_each (selected_files fs root args) (validate_file (reading_as fs load))) s0
    = (validate_chart_structure fs ;;
       validate_kind_config fs ;;
       for_each (selected_files fs root args) (validate_file fs)) s0);
    [|now rewrite Hrun].
  apply bind_congr. intros _.
  destruct (chart_structure_framed fs [] [] s0) as (_ & _ & Hroot & _).
  set (s1 := snd (validate_chart_structure fs s0)) in *.
  assert (Hk : validate_kind_config (reading_as fs load) s1 = validate_kind_config fs s1).
  { unfold validate_kind_config.
    rewrite !(bind_run get_self _ s1 s1 s1 eq_refl). cbv zeta.
    change (path_exists (reading_as fs load)) with (path_exists fs).
    change (load_yaml (reading_as fs load)) with load.
    unfold kind_config_path in Hkind. now rewrite <- Hroot, Hkind. }
  rewrite (bind_cases (validate_kind_config (reading_as fs load))),
    (bind_cases (validate_kind_config fs)), Hk.
  destruct (validate_kind_config fs s1) as [[b|e] s2]; cbn [fst snd]; [|reflexivity].
  apply for_each_congr. intros file s Hin. unfold validate_file, validate_helm_values.
  change (load_yaml (reading_as fs load)) with load. now rewrite (Hfiles file Hin).
Qed.

(** X22. The strict flag changes nothing of what is validated or
    recorded, and nothing of whether the run raises; it can only
    turn status 0 into status 1. *)
Theorem strict_only_fails
    (fs : filesystem) (root : string) (file env : option string) :
  let lenient := {| values_file := file; environment := env; strict := false |} in
  let strictly := {| values_file := file; environment := env; strict := true |} in
  snd (main fs root strictly) = snd (main fs root lenient)
  /\ raised (fst (main fs root strictly)) = raised (fst (main fs root lenient))
  /\ exit_status (fst (main fs root lenient)) <= exit_status (fst (main fs root strictly))
  /\ (exit_status (fst (main fs root lenient)) < exit_status (fst (main fs root strictly))
      <-> raised (fst (main fs root lenient)) = None
          /\ errors (snd (main fs root lenient)) = []
          /\ warnings (snd (main fs root lenient)) <> []).
Proof.
  cbv zeta. rewrite !main_run.
  change (run_validations fs {| values_file := file; environment := env; strict := true |})
    with (run_validations fs {| values_file := file; environment := env; strict := false |}).
  destruct (run_validations fs _ (new_validator root)) as [[[]|e] validator];
    cbn [fst snd raised exit_status strict].
  - destruct (errors validator) as [|x es], (warnings validator) as [|w ws];
      cbn [is_empty negb orb andb]; repeat split; try lia; try discriminate;
      try (intros (_ & H & _); discriminate H);
      try (intros (_ & _ & H); now contradiction H).
  - repeat split; try lia; try discriminate. intros (H & _). discriminate H.
Qed.

End Listings.

(** ** The further statements at concrete inputs *)

Section FurtherInstances.
Import Examples.

(** Two cores, as an int, as text, and as 2m. *)
Lemma whole_cores_example :
  _parse_cpu_value (VInt 2) = Ok 2000
  /\ _parse_cpu_value (VStr "2") = Ok 2000
  /\ _parse_cpu_value (VStr "2m") = Ok 2.
Proof. exact (whole_cores_read 2 (conj eq_refl eq_refl)). Defined.

(** A size that is no number before its unit; an infinite number of
    cores. *)
Lemma parsers_raise_examples :
  (ValueError = ValueError)
  /\ (ValueError = ValueError /\ unsuffixed "tenGi" = false)
  /\ (OverflowError = ValueError \/ OverflowError = OverflowError).
Proof.
  destruct (parsers_raise (VStr "tenGi")) as (Hm & Hs & _).
  destruct (parsers_raise (VStr "inf")) as (_ & _ & Hc).
  exact (conj (Hm ValueError eq_refl) (conj (Hs ValueError eq_refl) (Hc OverflowError eq_refl))).
Defined.

(** No replica, and a health check without path. *)
Lemma api_config_example :
  _validate_api_config (VDict idle_api) fresh
  = (Ok tt,
     with_findings fresh
       ["API replica count must be at least 1"]
       ["Health check path not specified for API"]).
Proof.
  exact (validate_api_config_spec idle_api [] true (Some [("enabled", VBool true)]) fresh
           eq_refl eq_refl eq_refl).
Defined.

(** The default password and no database name. *)
Lemma database_auth_example :
  warnings (snd (_validate_database_config (VDict default_password) fresh))
  = ["Database name not specified";
     "Default database password detected - change for production"].
Proof.
  exact (validate_database_config_auth default_password
           [("postgresPassword", VStr "changeme")] fresh eq_refl).
Defined.

(** A model-serving service and an audio processor with nothing
    configured. *)
Lemma ai_config_example :
  _validate_ai_config (VDict bare_ai) fresh
  = (Ok tt,
     with_findings fresh
       ["vLLM model not specified"]
       ["vLLM memory request may be too low for model loading";
        "vLLM persistence disabled - models will be re-downloaded on restart";
        "Audio processor model not specified"]).
Proof.
  apply (validate_ai_config_spec bare_ai (Some bare_vllm) (Some [("enabled", VBool true)])
           (Some 512) [] [] fresh eq_refl eq_refl).
  - intros v [= <-] _. split; [|reflexivity].
    exact (requested_some bare_vllm [("requests", VDict [("memory", VStr "512Mi")])]
             [("memory", VStr "512Mi")] 512 eq_refl eq_refl eq_refl eq_refl).
  - intros a [= <-] _. reflexivity.
Defined.

(** An empty values file. *)
Lemma empty_values_example :
  validate_helm_values (files sound_cluster VNone) "values.yaml" fresh
  = (Raise TypeError, fresh).
Proof.
  destruct (values_not_a_mapping (files sound_cluster VNone) "values.yaml" VNone fresh eq_refl)
    as [_ H]; [intros d; discriminate | exact H].
Defined.

(** An empty cluster document. *)
Lemma empty_kind_config_example :
  validate_kind_config (files VNone clean_values) fresh = (Raise AttributeError, fresh).
Proof.
  destruct (kind_config_malformed (files VNone clean_values) VNone fresh eq_refl eq_refl)
    as [H _].
  apply H. intros d. discriminate.
Defined.

(** A validator with one error. *)
Lemma report_example :
  has_line (generate_report (with_findings fresh ["Missing templates directory"] []))
    "  • Missing templates directory".
Proof.
  apply (report_lists_every_finding (with_findings fresh ["Missing templates directory"] [])
           "Missing templates directory").
  left. left. reflexivity.
Defined.

(** A fresh validator. *)
Lemma clean_report_example : generate_report fresh = clean_report.
Proof.
  destruct clean_report_and_exit_status as [H _].
  apply (H fresh). split; reflexivity.
Defined.

(** A run on a sound checkout. *)
Lemma exit_zero_example :
  exists config,
    load_yaml (files sound_cluster clean_values) (kind_config_path fresh) = inr (VDict config).
Proof.
  destruct (exit_zero_certifies (files sound_cluster clean_values) "/repo" (one_file false))
    as (_ & _ & _ & H & _); [reflexivity | exact H].
Defined.

(** Two values files, listed one way and the other. *)
Lemma listing_order_example :
  exit_status
    (fst (main (listing_as (listed ["values.yaml"; "values-development.yaml"])
                  ["values-development.yaml"; "values.yaml"]) "/repo" all_files))
  = exit_status
      (fst (main (listed ["values.yaml"; "values-development.yaml"]) "/repo" all_files)).
Proof.
  destruct (listing_order_is_irrelevant (listed ["values.yaml"; "values-development.yaml"])
              "/repo" all_files ["values-development.yaml"; "values.yaml"]
              eq_refl eq_refl (perm_swap _ _ _)) as [H _].
  exact H.
Defined.

(** Another file of the checkout that no longer reads. *)
Lemma unread_files_example :
  main (reading_as (files sound_cluster clean_values)
          (fun path => if String.eqb path "notes.yaml" then inl "unreadable"
                       else load_yaml (files sound_cluster clean_values) path))
    "/repo" (one_file false)
  = main (files sound_cluster clean_values) "/repo" (one_file false).
Proof.
  apply (unread_files_play_no_part (files sound_cluster clean_values) "/repo" (one_file false)).
  - reflexivity.
  - intros file [<-|[]]. reflexivity.
Defined.

End FurtherInstances.
